(** * ci/generate-debian-changelog.py: Markdown changelog to Debian changelog

    A shallow embedding of the script [ci/generate-debian-changelog.py] and
    the properties of its parser, its renderer and its command line.

    Conventions of the embedding.
    - A Python [str] is a list of Unicode code points ([N]); the file is
      opened with [encoding="utf-8"], so the parser sees code points, and
      the classes [\s] and [\d] of [re] are the Unicode ones.
    - The compiled patterns are kept as data ([regex]) and run by a
      backtracking matcher with the priorities of Python's [re.match].
    - Exceptions are results: [Raise e] for a raised exception.
    - A [dict] is an association list in insertion order, as Python's
      dictionaries iterate. *)

From Stdlib Require Import String Ascii List NArith ZArith Bool Lia.
Import ListNotations.

Set Implicit Arguments.
Set Warnings "-comment-terminator-in-string,-abstract-large-number".
Open Scope list_scope.
Open Scope N_scope.

(* ================================================================== *)
(** ** Python strings *)

Definition char := N.
Definition str := list char.

(** An ASCII literal as a Python string. *)
Definition py (s : string) : str :=
  List.map N_of_ascii (list_ascii_of_string s).

Definition char_eqb (a b : char) : bool := N.eqb a b.

Fixpoint str_eqb (a b : str) : bool :=
  match a, b with
  | [], [] => true
  | x :: a', y :: b' => char_eqb x y && str_eqb a' b'
  | _, _ => false
  end.

Definition in_range (lo hi c : char) : bool := (N.leb lo c && N.leb c hi)%bool.

(** [str.isspace] on one character, which is also what [\s] matches in a
    [str] pattern: tab to carriage return, the four separators 0x1c..0x1f,
    space, NEL, no-break space and the Unicode space separators. *)
Definition isspace (c : char) : bool :=
  (in_range 9 13 c || in_range 28 32 c || char_eqb c 133 || char_eqb c 160
   || char_eqb c 5760 || in_range 8192 8202 c || char_eqb c 8232
   || char_eqb c 8233 || char_eqb c 8239 || char_eqb c 8287
   || char_eqb c 12288)%bool.

Definition newline : char := 10.

(** [.] in a pattern compiled without DOTALL: anything but a newline. *)
Definition dot (c : char) : bool := negb (char_eqb c newline).

(** The first code point of each run of ten decimal digits (general
    category Nd) of Unicode 14.0, the table of CPython 3.11; in every run
    the digits zero to nine are consecutive.  [\d] and [int()] read it. *)
Definition decimal_blocks : list N :=
  [48; 1632; 1776; 1984; 2406; 2534; 2662; 2790; 2918; 3046; 3174; 3302;
   3430; 3558; 3664; 3792; 3872; 4160; 4240; 6112; 6160; 6470; 6608; 6784;
   6800; 6992; 7088; 7232; 7248; 42528; 43216; 43264; 43472; 43504; 43600;
   44016; 65296; 66720; 68912; 69734; 69872; 69942; 70096; 70384; 70736;
   70864; 71248; 71360; 71472; 71904; 72016; 72784; 73040; 73120; 92768;
   92864; 93008; 120782; 120792; 120802; 120812; 120822; 123200; 123632;
   125264; 130032].

Definition in_block (c b : N) : bool := in_range b (b + 9) c.

(** [\d]: a Unicode decimal digit. *)
Definition isdecimal (c : char) : bool := existsb (in_block c) decimal_blocks.

(** The value of a decimal digit, as [int()] reads it. *)
Definition digit_value (c : char) : N :=
  match find (in_block c) decimal_blocks with
  | Some b => c - b
  | None => 0
  end.

(** The ASCII digits, [[0-9]] in a pattern. *)
Definition is_ascii_digit (c : char) : bool := in_range 48 57 c.

Fixpoint lstrip (s : str) : str :=
  match s with
  | c :: s' => if isspace c then lstrip s' else s
  | [] => []
  end.

Definition rstrip_by (p : char -> bool) (s : str) : str :=
  fold_right (fun c acc =>
                match acc with
                | [] => if p c then [] else [c]
                | _ => c :: acc
                end) [] s.

(** [s.rstrip()] and [s.strip()]: whitespace removed at the end, at both ends. *)
Definition rstrip (s : str) : str := rstrip_by isspace s.
Definition strip (s : str) : str := rstrip (lstrip s).

(** [s.rstrip("\n")]: every trailing newline removed. *)
Definition rstrip_newline (s : str) : str := rstrip_by (fun c => char_eqb c newline) s.

(** Truth value of a string, and of a value that is [None] or a string. *)
Definition nonempty (s : str) : bool :=
  match s with [] => false | _ => true end.

Definition truthy (o : option str) : bool :=
  match o with Some s => nonempty s | None => false end.

(** ["sep".join(parts)] *)
Fixpoint join (sep : str) (parts : list str) : str :=
  match parts with
  | [] => []
  | [p] => p
  | p :: rest => p ++ sep ++ join sep rest
  end.

(* ================================================================== *)
(** ** Exceptions *)

Inductive exn := KeyError | ValueError | IndexError.

Inductive result (A : Type) : Type :=
| Ok (a : A)
| Raise (e : exn).

Arguments Ok {A} a.
Arguments Raise {A} e.

Definition bind {A B} (m : result A) (f : A -> result B) : result B :=
  match m with
  | Ok a => f a
  | Raise e => Raise e
  end.

Notation "x <- m ;; f" := (bind m (fun x => f))
  (at level 61, m at next level, right associativity).

(* ================================================================== *)
(** ** Regular expressions, as [re.match] runs them *)

(** The fragment of pattern syntax the script and [_strptime] use.
    [Repeat p lo hi] is the greedy repetition of a character class:
    [\s+] is [Repeat isspace 1 None], [\d{4}] is
    [Repeat isdecimal 4 (Some 4)], [.*] is [Repeat dot 0 None]. *)
Inductive regex :=
| Empty
| Lit (c : char)
| Class (p : char -> bool)
| Repeat (p : char -> bool) (lo : nat) (hi : option nat)
| Seq (r1 r2 : regex)
| Alt (r1 r2 : regex)
| Group (r : regex).

Definition may_take (hi : option nat) : bool :=
  match hi with
  | Some O => false
  | _ => true
  end.

(** Greedy repetition: take one more character when allowed and, only if
    the rest of the pattern then fails, stop here (if [lo] is reached). *)
Fixpoint rep {A} (p : char -> bool) (lo : nat) (hi : option nat) (s : str)
  (k : str -> option A) : option A :=
  let stop := match lo with O => k s | S _ => None end in
  match s with
  | c :: s' =>
      if (p c && may_take hi)%bool then
        match rep p (pred lo) (option_map pred hi) s' k with
        | Some r => Some r
        | None => stop
        end
      else stop
  | [] => stop
  end.

(** The matcher, in continuation-passing style: [k] is the rest of the
    pattern, given the unread input and the groups closed so far.
    Alternatives are tried left to right. *)
Fixpoint exec {A} (r : regex) (s : str) (caps : list str)
  (k : str -> list str -> option A) : option A :=
  match r with
  | Empty => k s caps
  | Lit c =>
      match s with
      | c' :: s' => if char_eqb c' c then k s' caps else None
      | [] => None
      end
  | Class p =>
      match s with
      | c' :: s' => if p c' then k s' caps else None
      | [] => None
      end
  | Repeat p lo hi => rep p lo hi s (fun s' => k s' caps)
  | Seq r1 r2 => exec r1 s caps (fun s1 caps1 => exec r2 s1 caps1 k)
  | Alt r1 r2 =>
      match exec r1 s caps k with
      | Some x => Some x
      | None => exec r2 s caps k
      end
  | Group r1 =>
      exec r1 s caps
        (fun s1 caps1 =>
           k s1 (caps1 ++ [firstn (length s - length s1)%nat s]))
  end.

(** A match object: the groups in order, and the input left after the match. *)
Record match_obj := { groups : list str; unread : str }.

(** The match object built when the end of the pattern is reached. *)
Definition matched (rest : str) (caps : list str) : option match_obj :=
  Some {| groups := caps; unread := rest |}.

(** [pattern.match(s)]: the pattern matched at the start of [s]. *)
Definition re_match (r : regex) (s : str) : option match_obj :=
  exec r s [] matched.

(** [m.group(i)], for [i >= 1]. *)
Definition group (m : match_obj) (i : nat) : str := nth (i - 1)%nat (groups m) [].

Definition cat (rs : list regex) : regex := fold_right Seq Empty rs.
Definition lit (s : string) : regex := cat (List.map Lit (py s)).

(** [[0-9.]] *)
Definition version_char (c : char) : bool :=
  (is_ascii_digit c || char_eqb c 46)%bool.

Definition plus (p : char -> bool) : regex := Repeat p 1%nat None.
Definition star (p : char -> bool) : regex := Repeat p 0%nat None.
Definition exactly (n : nat) (p : char -> bool) : regex := Repeat p n (Some n).

(** r"^fping\s+([0-9.]+)\s+\((\d{4}-\d{2}-\d{2})\)" *)
Definition version_header_re : regex :=
  cat [lit "fping"; plus isspace; Group (plus version_char); plus isspace;
       lit "(";
       Group (cat [exactly 4%nat isdecimal; lit "-"; exactly 2%nat isdecimal;
                   lit "-"; exactly 2%nat isdecimal]);
       lit ")"].

(** r"^##\s+(.*)" *)
Definition section_re : regex :=
  cat [lit "##"; plus isspace; Group (star dot)].

(** r"^\s*-\s+(.*)" *)
Definition bullet_re : regex :=
  cat [star isspace; lit "-"; plus isspace; Group (star dot)].

(** r"^\s{2,}(.*)" *)
Definition continuation_re : regex :=
  cat [Repeat isspace 2%nat None; Group (star dot)].

(* ================================================================== *)
(** ** The parser: [parse_markdown_changelog] *)

(** An ordered dictionary from section titles to item lists. *)
Definition sections_t := list (str * list str).

(** [d[key]]: [KeyError] when the key is absent. *)
Fixpoint dict_get (d : sections_t) (key : str) : result (list str) :=
  match d with
  | [] => Raise KeyError
  | (k, v) :: d' => if str_eqb k key then Ok v else dict_get d' key
  end.

(** [d[key] = v]: the value is replaced where the key stands, a new key
    goes to the end. *)
Fixpoint dict_set (d : sections_t) (key : str) (v : list str) : sections_t :=
  match d with
  | [] => [(key, v)]
  | (k, v0) :: d' =>
      if str_eqb k key then (k, v) :: d' else (k, v0) :: dict_set d' key v
  end.

(** [d[key].append(x)] *)
Definition dict_append (d : sections_t) (key : str) (x : str) : result sections_t :=
  v <- dict_get d key ;; Ok (dict_set d key (v ++ [x])).

(** The dictionary built at lines 72-76. *)
Record entry := {
  version : str;
  date : str;
  sections : sections_t
}.

(** The local variables of the loop (lines 36-40). *)
Record state := {
  entries : list entry;
  current : option entry;
  current_section : option str;
  skip_next_block : bool;
  bullet_accumulator : option str
}.

Definition initial : state :=
  {| entries := []; current := None; current_section := None;
     skip_next_block := false; bullet_accumulator := None |}.

(** [current["sections"][current_section].append(bullet_accumulator.strip())]
    on the open entry [cur]. *)
Definition commit (cur : entry) (section : str) (acc : str) : result entry :=
  secs <- dict_append (sections cur) section (strip acc) ;;
  Ok {| version := version cur; date := date cur; sections := secs |}.

(** The guarded flush of lines 64-66, 86-88 and 105-107:
    [if bullet_accumulator and current_section: ...append...;
     bullet_accumulator = None].  Returns the entry and the accumulator. *)
Definition flush (cur : entry) (section acc : option str)
  : result (entry * option str) :=
  match acc, section with
  | Some a, Some s =>
      if (nonempty a && nonempty s)%bool
      then cur' <- commit cur s a ;; Ok (cur', None)
      else Ok (cur, acc)
  | _, _ => Ok (cur, acc)
  end.

Definition is_some {A} (o : option A) : bool :=
  match o with Some _ => true | None => false end.

Definition set_skip (st : state) (b : bool) : state :=
  {| entries := entries st; current := current st;
     current_section := current_section st;
     skip_next_block := b;
     bullet_accumulator := bullet_accumulator st |}.

(** Lines 100-107, on the open entry [cur]: a continuation line joins the
    pending item; otherwise a blank line flushes it; any other line is
    ignored. *)
Definition continuation_or_blank (st : state) (cur : entry) (line : str)
  : result state :=
  match re_match continuation_re line, bullet_accumulator st with
  | Some m_cont, Some a =>
      Ok {| entries := entries st;
            current := Some cur;
            current_section := current_section st;
            skip_next_block := skip_next_block st;
            bullet_accumulator := Some (a ++ py " " ++ strip (group m_cont 1)) |}
  | _, _ =>
      if str_eqb (strip line) [] then
        f <- flush cur (current_section st) (bullet_accumulator st) ;;
        Ok {| entries := entries st;
              current := Some (fst f);
              current_section := current_section st;
              skip_next_block := skip_next_block st;
              bullet_accumulator := snd f |}
      else Ok st
  end.

(** Lines 61-107: the body of the loop once the [Next] test and the skip
    test have let the line through. *)
Definition classify (st : state) (line : str) : result state :=
  match re_match version_header_re line with
  | Some m_version =>
      (* lines 62-79 *)
      closed <-
        match current st with
        | Some cur =>
            f <- flush cur (current_section st) (bullet_accumulator st) ;;
            Ok (entries st ++ [fst f], snd f)
        | None => Ok (entries st, bullet_accumulator st)
        end ;;
      Ok {| entries := fst closed;
            current := Some {| version := group m_version 1;
                               date := group m_version 2;
                               sections := [] |};
            current_section := None;
            skip_next_block := skip_next_block st;
            bullet_accumulator := snd closed |}
  | None =>
      match current st with
      | None => Ok st (* lines 81-82 *)
      | Some cur =>
          match re_match section_re line with
          | Some m_section =>
              (* lines 85-91 *)
              f <- flush cur (current_section st) (bullet_accumulator st) ;;
              let title := strip (group m_section 1) in
              Ok {| entries := entries st;
                    current :=
                      Some {| version := version (fst f); date := date (fst f);
                              sections := dict_set (sections (fst f)) title [] |};
                    current_section := Some title;
                    skip_next_block := skip_next_block st;
                    bullet_accumulator := snd f |}
          | None =>
              if (is_some (re_match bullet_re line)
                  && truthy (current_section st))%bool then
                (* lines 94-98 *)
                match re_match bullet_re line, current_section st with
                | Some m_bullet, Some section =>
                    cur' <-
                      (if truthy (bullet_accumulator st)
                       then match bullet_accumulator st with
                            | Some a => commit cur section a
                            | None => Ok cur
                            end
                       else Ok cur) ;;
                    Ok {| entries := entries st;
                          current := Some cur';
                          current_section := current_section st;
                          skip_next_block := skip_next_block st;
                          bullet_accumulator := Some (group m_bullet 1) |}
                | _, _ => Ok st
                end
              else continuation_or_blank st cur line
          end
      end
  end.

(** One iteration of the loop (lines 47-107). *)
Definition step (st : state) (raw : str) : result state :=
  let line := rstrip_newline raw in
  if str_eqb (strip line) (py "Next") then Ok (set_skip st true)
  else if skip_next_block st then
    if is_some (re_match version_header_re line)
    then classify (set_skip st false) line
    else Ok st
  else classify st line.

Fixpoint run (st : state) (lines : list str) : result state :=
  match lines with
  | [] => Ok st
  | l :: rest => st' <- step st l ;; run st' rest
  end.

(** Lines 109-115: the pending item is committed and the open entry closed. *)
Definition finish (st : state) : result (list entry) :=
  match current st with
  | Some cur =>
      f <- flush cur (current_section st) (bullet_accumulator st) ;;
      Ok (entries st ++ [fst f])
  | None => Ok (entries st)
  end.

(** [parse_markdown_changelog], on the result of [f.readlines()]. *)
Definition parse_markdown_changelog (lines : list str) : result (list entry) :=
  st <- run initial lines ;; finish st.

(* ================================================================== *)
(** ** Dates: [datetime.strptime] and [email.utils.format_datetime] *)

Definition cls (lo hi : string) : regex :=
  match py lo, py hi with
  | [a], [b] => Class (in_range a b)
  | _, _ => Empty
  end.

(** The pattern [_strptime] compiles for the format ["%Y-%m-%d"]:
    [(?P<Y>\d\d\d\d)-(?P<m>1[0-2]|0[1-9]|[1-9])-(?P<d>3[0-1]|[1-2]\d|0[1-9]|[1-9]| [1-9])]. *)
Definition strptime_re : regex :=
  cat [Group (cat [Class isdecimal; Class isdecimal; Class isdecimal; Class isdecimal]);
       lit "-";
       Group (Alt (cat [lit "1"; cls "0" "2"])
             (Alt (cat [lit "0"; cls "1" "9"])
                  (cls "1" "9")));
       lit "-";
       Group (Alt (cat [lit "3"; cls "0" "1"])
             (Alt (cat [cls "1" "2"; Class isdecimal])
             (Alt (cat [lit "0"; cls "1" "9"])
             (Alt (cls "1" "9")
                  (cat [lit " "; cls "1" "9"])))))].

(** [int(s)] for an unsigned string of decimal digits, surrounding
    whitespace ignored. *)
Definition py_int (s : str) : result N :=
  let t := strip s in
  if (nonempty t && forallb isdecimal t)%bool
  then Ok (fold_left (fun acc c => 10 * acc + digit_value c) t 0)
  else Raise ValueError.

(** A naive [datetime] at midnight, which is all [strptime] returns for a
    format without time fields. *)
Record datetime := { year : N; month : N; day : N }.

Definition is_leap (y : N) : bool :=
  ((y mod 4 =? 0) && (negb (y mod 100 =? 0) || (y mod 400 =? 0)))%bool.

Definition days_in_month (y m : N) : N :=
  if ((m =? 2) && is_leap y)%bool then 29
  else nth (N.to_nat m) [0; 31; 28; 31; 30; 31; 30; 31; 31; 30; 31; 30; 31] 0.

(** The constructor's range checks ([MINYEAR = 1], [MAXYEAR = 9999]). *)
Definition make_date (y m d : N) : result datetime :=
  if ((1 <=? y) && (y <=? 9999) && (1 <=? m) && (m <=? 12)
      && (1 <=? d) && (d <=? days_in_month y m))%bool
  then Ok {| year := y; month := m; day := d |}
  else Raise ValueError.

(** [datetime.strptime(date_string, "%Y-%m-%d")]: the pattern must match
    and leave nothing unread; the fields are then read with [int] and
    checked by the date constructor. *)
Definition strptime (date_string : str) : result datetime :=
  match re_match strptime_re date_string with
  | None => Raise ValueError
  | Some found =>
      if nonempty (unread found) then Raise ValueError
      else
        y <- py_int (group found 1) ;;
        m <- py_int (group found 2) ;;
        d <- py_int (group found 3) ;;
        make_date y m d
  end.

Definition days_before_year (y : N) : N :=
  (y - 1) * 365 + (y - 1) / 4 - (y - 1) / 100 + (y - 1) / 400.

Definition days_before_month (y m : N) : N :=
  nth (N.to_nat m) [0; 0; 31; 59; 90; 120; 151; 181; 212; 243; 273; 304; 334] 0
  + (if ((2 <? m) && is_leap y)%bool then 1 else 0).

Definition toordinal (dt : datetime) : N :=
  days_before_year (year dt) + days_before_month (year dt) (month dt) + day dt.

(** Monday is 0. *)
Definition weekday (dt : datetime) : N := (toordinal dt + 6) mod 7.

Fixpoint decimal_loop (fuel : nat) (n : N) (acc : str) : str :=
  match fuel with
  | O => acc
  | S fuel' =>
      let acc' := (48 + n mod 10) :: acc in
      if n / 10 =? 0 then acc' else decimal_loop fuel' (n / 10) acc'
  end.

(** ["%0<width>d" % n] *)
Definition zero_padded (width : nat) (n : N) : str :=
  let digits := decimal_loop (S (N.to_nat (N.log2 n))) n [] in
  repeat 48 (width - length digits)%nat ++ digits.

Definition day_names : list str :=
  List.map py ["Mon"; "Tue"; "Wed"; "Thu"; "Fri"; "Sat"; "Sun"]%string.

Definition month_names : list str :=
  List.map py ["Jan"; "Feb"; "Mar"; "Apr"; "May"; "Jun";
               "Jul"; "Aug"; "Sep"; "Oct"; "Nov"; "Dec"]%string.

(** [email.utils.format_datetime(dt)] for a naive [dt] at midnight:
    ['%s, %02d %s %04d %02d:%02d:%02d %s'] with the zone ['-0000']. *)
Definition format_datetime (dt : datetime) : str :=
  nth (N.to_nat (weekday dt)) day_names [] ++ py ", "
  ++ zero_padded 2 (day dt) ++ py " "
  ++ nth (N.to_nat (month dt - 1)) month_names [] ++ py " "
  ++ zero_padded 4 (year dt) ++ py " "
  ++ zero_padded 2 0 ++ py ":" ++ zero_padded 2 0 ++ py ":" ++ zero_padded 2 0
  ++ py " " ++ py "-0000".

(** Lines 117-119. *)
Definition format_debian_date (date_str : str) : result str :=
  dt <- strptime date_str ;; Ok (format_datetime dt).

(* ================================================================== *)
(** ** The renderer and the command line *)

Definition PACKAGE_NAME : str := py "fping".
Definition DEBIAN_DISTRIBUTION : str := py "unstable".
Definition DEBIAN_URGENCY : str := py "low".
Definition MAINTAINER_NAME : str := py "David Schweikert".
Definition MAINTAINER_EMAIL : str := py "david@schweikert.ch".

(** What the operating system answers about a path: the three tests of
    [validate_input_file], and the lines [readlines] returns. *)
Inductive file_status :=
| Missing
| NotAFile
| Unreadable
| Readable (lines : list str).

(** What a run leaves behind.  For an exception nobody catches the
    interpreter writes a traceback to standard error and exits with status
    1; the traceback's text is not modelled, [uncaught] records it. *)
Record outcome := {
  stdout : str;
  stderr : str;
  exit_status : N;
  uncaught : option exn
}.

Definition exits (out err : str) (code : N) : outcome :=
  {| stdout := out; stderr := err; exit_status := code; uncaught := None |}.

Definition dies (e : exn) : outcome :=
  {| stdout := []; stderr := []; exit_status := 1; uncaught := Some e |}.

Section Renderer.

(** [textwrap.TextWrapper(width=80, initial_indent="    - ",
    subsequent_indent="      ").fill], the standard library's paragraph
    filling; the renderer's properties below hold for any such function. *)
Variable fill : str -> str.

(** Lines 121-123. *)
Definition wrap_bullet (text : str) : str := fill text.

(** Lines 136-143: the lines of the sections of one entry. *)
Fixpoint render_sections (secs : sections_t) : list str :=
  match secs with
  | [] => []
  | (section, items) :: rest =>
      match items with
      | [] => render_sections rest
      | _ => (py "  * " ++ section) :: List.map wrap_bullet items
             ++ [] :: render_sections rest
      end
  end.

Definition header_line (e : entry) : str :=
  PACKAGE_NAME ++ py " (" ++ version e ++ py ") " ++ DEBIAN_DISTRIBUTION
  ++ py "; urgency=" ++ DEBIAN_URGENCY.

Definition maint_line (formatted_date : str) : str :=
  py " -- " ++ MAINTAINER_NAME ++ py " <" ++ MAINTAINER_EMAIL ++ py ">  "
  ++ formatted_date.

(** Lines 126-147: the list [output]. *)
Fixpoint generate_output (es : list entry) : result (list str) :=
  match es with
  | [] => Ok []
  | e :: rest =>
      formatted <- format_debian_date (date e) ;;
      out <- generate_output rest ;;
      Ok (header_line e :: [] :: render_sections (sections e)
          ++ maint_line formatted :: [] :: out)
  end.

(** Lines 125-149. *)
Definition generate_debian_changelog (es : list entry) : result str :=
  out <- generate_output es ;; Ok (join [newline] out).

(** Lines 19-30 and 151-161, for the command line [argv] and what the
    file system holds at each path. *)
Definition main (argv : list str) (fs : str -> file_status) : outcome :=
  match argv with
  | [_; md_path] =>
      match fs md_path with
      | Missing =>
          exits [] (py "Error: File '" ++ md_path ++ py "' does not exist."
                    ++ [newline]) 1
      | NotAFile =>
          exits [] (py "Error: '" ++ md_path ++ py "' is not a regular file."
                    ++ [newline]) 1
      | Unreadable =>
          exits [] (py "Error: File '" ++ md_path ++ py "' is not readable."
                    ++ [newline]) 1
      | Readable lines =>
          match parse_markdown_changelog lines with
          | Raise e => dies e
          | Ok es =>
              match generate_debian_changelog es with
              | Raise e => dies e
              | Ok debian_changelog =>
                  exits (debian_changelog ++ [newline]) [] 0
              end
          end
      end
  | argv0 :: _ =>
      (* print(f"Usage: {sys.argv[0]} Changelog.md"); sys.exit(1) *)
      exits (py "Usage: " ++ argv0 ++ py " Changelog.md" ++ [newline]) [] 1
  | [] => dies IndexError
  end.

End Renderer.

(* ================================================================== *)
(** ** Vocabulary of the statements *)

Fixpoint take_while (p : char -> bool) (s : str) : str :=
  match s with
  | c :: s' => if p c then c :: take_while p s' else []
  | [] => []
  end.

Fixpoint drop_while (p : char -> bool) (s : str) : str :=
  match s with
  | c :: s' => if p c then drop_while p s' else s
  | [] => []
  end.

(** [s] without its prefix [w], when it starts with [w]. *)
Fixpoint strip_prefix (w s : str) : option str :=
  match w, s with
  | [], _ => Some s
  | c :: w', c' :: s' => if char_eqb c' c then strip_prefix w' s' else None
  | _ :: _, [] => None
  end.

(** Only whitespace. *)
Definition blank (s : str) : bool := forallb isspace s.

(** Four decimal digits, a hyphen, two digits, a hyphen, two digits. *)
Definition date_shape (d : str) : bool :=
  match d with
  | [y1; y2; y3; y4; h1; m1; m2; h2; d1; d2] =>
      (forallb isdecimal [y1; y2; y3; y4; m1; m2; d1; d2]
       && char_eqb h1 45 && char_eqb h2 45)%bool
  | _ => false
  end.

(** What [version_header_re.match(line)] computes, read off the pattern:
    the longest runs of whitespace and of version characters, then the
    ten characters of the date between the parentheses. *)
Definition version_header_fields (line : str) : option match_obj :=
  match strip_prefix (py "fping") line with
  | None => None
  | Some r1 =>
      let r2 := drop_while isspace r1 in
      let r3 := drop_while version_char r2 in
      match drop_while isspace r3 with
      | c :: r5 =>
          if (nonempty (take_while isspace r1)
              && nonempty (take_while version_char r2)
              && nonempty (take_while isspace r3)
              && char_eqb c 40
              && date_shape (firstn 10 r5))%bool
          then
            match skipn 10 r5 with
            | c' :: rest =>
                if char_eqb c' 41 then
                  Some {| groups := [take_while version_char r2; firstn 10 r5];
                          unread := rest |}
                else None
            | [] => None
            end
          else None
      | [] => None
      end
  end.

(** The line starts [fping <version> (<date>)] and goes on with [rest]:
    [fping], whitespace, a version of digits and dots, whitespace, and the
    date in parentheses. *)
Definition header_shape (line ver d rest : str) : Prop :=
  exists ws1 ws2,
    line = py "fping" ++ ws1 ++ ver ++ ws2 ++ py "(" ++ d ++ py ")" ++ rest
    /\ ws1 <> [] /\ blank ws1 = true
    /\ ver <> [] /\ forallb version_char ver = true
    /\ ws2 <> [] /\ blank ws2 = true
    /\ date_shape d = true.

(** The exact shape, in the specification's words
    [fping <version> (<YYYY-MM-DD>)]: nothing follows the closing
    parenthesis.  The spaces of the specification are read as runs of
    whitespace, which is the most a line of that shape can be. *)
Definition exact_header_shape (line : str) : Prop :=
  exists ver d, header_shape line ver d [].

(** Closed entries plus the open one. *)
Definition entry_count (st : state) : nat :=
  (length (entries st) + (if is_some (current st) then 1 else 0))%nat.

(** The step from [st] to [st'] opened a new entry. *)
Definition opens_entry (st st' : state) : Prop :=
  entry_count st' = S (entry_count st).

(** The date a string of shape YYYY-MM-DD denotes, each digit read by its
    decimal value. *)
Definition denoted_date (d : str) : option (N * N * N) :=
  match d with
  | [y1; y2; y3; y4; _; m1; m2; _; d1; d2] =>
      if date_shape d then
        Some (1000 * digit_value y1 + 100 * digit_value y2
              + 10 * digit_value y3 + digit_value y4,
              10 * digit_value m1 + digit_value m2,
              10 * digit_value d1 + digit_value d2)
      else None
  | _ => None
  end.

(** Thirty days has September, April, June and November; February has
    twenty-eight, and twenty-nine in a leap year. *)
Definition month_length (y m : N) : N :=
  match m with
  | 4 | 6 | 9 | 11 => 30
  | 2 => if (y mod 400 =? 0) then 29
         else if (y mod 100 =? 0) then 28
         else if (y mod 4 =? 0) then 29 else 28
  | _ => 31
  end.

(** A date of the calendar: years 1 to 9999, months 1 to 12, and a day the
    month has. *)
Definition calendar_date (ymd : N * N * N) : bool :=
  let '(y, m, d) := ymd in
  ((1 <=? y) && (y <=? 9999) && (1 <=? m) && (m <=? 12)
   && (1 <=? d) && (d <=? month_length y m))%bool.

(** The string denotes a valid calendar date. *)
Definition denotes_valid_date (d : str) : bool :=
  match denoted_date d with
  | Some ymd => calendar_date ymd
  | None => false
  end.

(** The [(version, date)] pairs of the lines that are version headers, in
    the order of the lines. *)
Fixpoint headers_of (lines : list str) : list (str * str) :=
  match lines with
  | [] => []
  | l :: rest =>
      match re_match version_header_re (rstrip_newline l) with
      | Some m => (group m 1, group m 2) :: headers_of rest
      | None => headers_of rest
      end
  end.

Definition is_version_header (raw : str) : bool :=
  is_some (re_match version_header_re (rstrip_newline raw)).

Definition is_next (raw : str) : bool :=
  str_eqb (strip (rstrip_newline raw)) (py "Next").

Definition keys (d : sections_t) : list str := List.map fst d.

(** The loop's invariant behind every [current["sections"][current_section]]:
    a current section is a key of the open entry. *)
Definition wf (st : state) : Prop :=
  match current_section st with
  | Some t =>
      match current st with
      | Some cur => In t (keys (sections cur))
      | None => False
      end
  | None => True
  end.

(** The state [st] with the items under [title] in the open entry
    replaced by [xs]. *)
Definition with_items (st : state) (title : str) (xs : list str) : state :=
  {| entries := entries st;
     current :=
       match current st with
       | Some cur =>
           Some {| version := version cur; date := date cur;
                   sections := dict_set (sections cur) title xs |}
       | None => None
       end;
     current_section := current_section st;
     skip_next_block := skip_next_block st;
     bullet_accumulator := bullet_accumulator st |}.

(** The version and date of an entry, and those of all the entries of a
    state, the open one last. *)
Definition head_of (e : entry) : str * str := (version e, date e).

Definition all_entries (st : state) : list entry :=
  entries st ++ match current st with Some cur => [cur] | None => [] end.

(** The title of a section header line. *)
Definition section_title (raw : str) : option str :=
  match re_match section_re (rstrip_newline raw) with
  | Some m => Some (strip (group m 1))
  | None => None
  end.

(** A title joins the titles seen so far at the end, unless it is one of
    them already. *)
Definition add_title (seen : list str) (title : str) : list str :=
  if existsb (str_eqb title) seen then seen else seen ++ [title].

(** The titles in the order in which each comes first. *)
Definition first_occurrences (titles : list str) : list str :=
  fold_left add_title titles [].

(** The titles of the section header lines that belong to the entry being
    read, in the order of the lines: the entry's lines end at the next
    version header, and after a [Next] line they are skipped. *)
Fixpoint block_titles (skip : bool) (lines : list str) : list str :=
  match lines with
  | [] => []
  | l :: rest =>
      if is_next l then block_titles true rest
      else if is_version_header l then []
      else if skip then block_titles true rest
      else match section_title l with
           | Some t => t :: block_titles false rest
           | None => block_titles false rest
           end
  end.

(** For each version header line, in order, the section titles of its
    entry. *)
Fixpoint entry_titles (lines : list str) : list (list str) :=
  match lines with
  | [] => []
  | l :: rest =>
      if is_version_header l
      then block_titles false rest :: entry_titles rest
      else entry_titles rest
  end.

Definition section_keys (e : entry) : list str := keys (sections e).

(** The keys every entry will have once [lines] are read from [st]: the
    closed entries keep theirs, the open one gains the titles of the rest
    of its block, and each later header brings the titles of its own. *)
Definition key_trace (st : state) (lines : list str) : list (list str) :=
  List.map section_keys (entries st)
  ++ match current st with
     | Some cur =>
         [fold_left add_title (block_titles (skip_next_block st) lines)
            (section_keys cur)]
     | None => []
     end
  ++ List.map first_occurrences (entry_titles lines).

(** The state [st] with the pending item replaced. *)
Definition set_accumulator (st : state) (acc : option str) : state :=
  {| entries := entries st; current := current st;
     current_section := current_section st;
     skip_next_block := skip_next_block st;
     bullet_accumulator := acc |}.

(** What a continuation line adds to the pending item:
    [m_cont.group(1).strip()]. *)
Definition continuation_text (line : str) : str :=
  strip (take_while dot (drop_while isspace line)).

(** A line the loop treats as a continuation of the pending item: at
    least two leading whitespace characters, and neither a [Next] line
    nor a bullet itself. *)
Definition is_continuation_line (raw : str) : Prop :=
  (2 <= length (take_while isspace (rstrip_newline raw)))%nat
  /\ is_next raw = false
  /\ re_match bullet_re (rstrip_newline raw) = None.

(** A line of [f.readlines()] holds no newline before its end. *)
Definition single_line (raw : str) : Prop :=
  forallb dot (rstrip_newline raw) = true.

(** The two-character months and days the pattern of [strptime] accepts:
    [1[0-2]|0[1-9]] and [3[0-1]|[1-2]\d|0[1-9]]. *)
Definition month_ok (m1 m2 : char) : bool :=
  ((char_eqb m1 49 && in_range 48 50 m2)
   || (char_eqb m1 48 && in_range 49 57 m2))%bool.

Definition day_ok (d1 d2 : char) : bool :=
  ((char_eqb d1 51 && in_range 48 49 d2)
   || (in_range 49 50 d1 && isdecimal d2)
   || (char_eqb d1 48 && in_range 49 57 d2))%bool.

(** Every digit of the date is an ASCII digit. *)
Definition ascii_date (d : str) : bool :=
  forallb (fun c => (is_ascii_digit c || char_eqb c 45)%bool) d.

(** The date 2024-03-10 written with Arabic-Indic digits. *)
Definition arabic_indic_date : str :=
  [1634; 1632; 1634; 1636; 45; 1632; 1635; 45; 1633; 1632].

(** The string does not start with a character of the class. *)
Definition stops (p : char -> bool) (b : str) : Prop :=
  match b with c :: _ => p c = false | [] => True end.

(** What a section header line does to the state (lines 85-91). *)
Definition open_section (st : state) (cur : entry) (title : str) : result state :=
  f <- flush cur (current_section st) (bullet_accumulator st) ;;
  Ok {| entries := entries st;
        current :=
          Some {| version := version (fst f); date := date (fst f);
                  sections := dict_set (sections (fst f)) title [] |};
        current_section := Some title;
        skip_next_block := skip_next_block st;
        bullet_accumulator := snd f |}.

(** A line as [readlines] returns it, with its newline. *)
Definition line (s : string) : str := py s ++ [newline].

(** What [fill] returns for a text that fits on one line and has single
    spaces only: the text after the initial indent.  The examples run the
    renderer with it. *)
Definition one_line_fill (text : str) : str := py "    - " ++ text.

(** A changelog with an unreleased block and two releases, the newer one
    second. *)
Definition example_lines : list str :=
  List.map line
    ["# Changelog"; "Next"; "## Features"; "- not yet released"; "";
     "fping 5.1 (2024-03-10)"; "## Changes"; "- Added feature X";
     "  with more detail"; "- Fixed bug Y"; "## Empty"; "";
     "fping 5.2 (2024-04-01)"; "## Bug fixes"; "- one"; "## Changes";
     "- two"; "## Bug fixes"; "- three"]%string.

Definition example_entries : list entry :=
  Eval vm_compute in
    match parse_markdown_changelog example_lines with
    | Ok es => es
    | Raise _ => []
    end.

(** The state after a version header, a section header and a bullet. *)
Definition example_state : state :=
  {| entries := [];
     current := Some {| version := py "5.1"; date := py "2024-03-10";
                        sections := [(py "Changes", [py "earlier"])] |};
     current_section := Some (py "Changes");
     skip_next_block := false;
     bullet_accumulator := Some (py "Added feature X") |}.

(** The items under a title, [[]] when the title is no key. *)
Definition items_of (d : sections_t) (title : str) : list str :=
  match dict_get d title with
  | Ok v => v
  | Raise _ => []
  end.

(** A string that has no whitespace at either end. *)
Definition trimmed (s : str) : Prop := strip s = s.

(** A dictionary whose keys and items are all trimmed. *)
Definition trimmed_sections (d : sections_t) : Prop :=
  Forall (fun kv => trimmed (fst kv) /\ Forall trimmed (snd kv)) d.

(** The entries of a state, closed or open, hold trimmed text only. *)
Definition trimmed_state (st : state) : Prop :=
  Forall (fun e => trimmed_sections (sections e)) (entries st)
  /\ forall cur, current st = Some cur -> trimmed_sections (sections cur).

(** The open entry [cur] once the pending item [a] is appended to the
    items of [sec]. *)
Definition with_item (cur : entry) (sec a : str) : entry :=
  {| version := version cur; date := date cur;
     sections := dict_set (sections cur) sec
                   (items_of (sections cur) sec ++ [strip a]) |}.

(** The state [st] with the entries [es] closed before its own. *)
Definition after_entries (es : list entry) (st : state) : state :=
  {| entries := es ++ entries st; current := current st;
     current_section := current_section st;
     skip_next_block := skip_next_block st;
     bullet_accumulator := bullet_accumulator st |}.

(** A pending item is one the next flush commits: it is not empty, an
    entry is open and a section with a title that is not empty is
    current. *)
Definition pending_is_committable (st : state) : bool :=
  match bullet_accumulator st with
  | None => true
  | Some a => (is_some (current st) && nonempty a
               && truthy (current_section st))%bool
  end.

(** The ten values of a decimal digit. *)
Definition digit_values : list N := [0; 1; 2; 3; 4; 5; 6; 7; 8; 9].

(** The date formats: [format_debian_date] returns. *)
Definition formats (d : str) : Prop :=
  exists formatted, format_debian_date d = Ok formatted.

(** The state after the first version header of a document. *)
Definition example_fresh_state : state :=
  {| entries := [];
     current := Some {| version := py "5.1"; date := py "2024-03-10";
                        sections := [] |};
     current_section := None;
     skip_next_block := false;
     bullet_accumulator := None |}.

Unset Implicit Arguments.

(* ================================================================== *)
(** ** Characters and strings *)

Ltac char_prop :=
  unfold blank, version_char, is_ascii_digit, isspace, dot, in_block,
    in_range, char_eqb, newline in *;
  repeat rewrite ?orb_true_iff, ?andb_true_iff, ?orb_false_iff,
    ?andb_false_iff, ?negb_true_iff, ?negb_false_iff,
    ?N.leb_le, ?N.leb_gt, ?N.eqb_eq, ?N.eqb_neq in *.

Lemma str_eqb_eq (a b : str) : str_eqb a b = true <-> a = b.
Proof.
  revert b; induction a as [|x a IH]; intros [|y b]; simpl;
    try (split; congruence).
  unfold char_eqb; rewrite andb_true_iff, N.eqb_eq, IH.
  split; [intros [-> ->]; reflexivity | intros [= -> ->]; auto].
Qed.

Lemma str_eqb_refl (a : str) : str_eqb a a = true.
Proof. apply str_eqb_eq; reflexivity. Qed.

Lemma str_eqb_neq (a b : str) : str_eqb a b = false <-> a <> b.
Proof.
  rewrite <- str_eqb_eq. destruct (str_eqb a b); split; congruence.
Qed.

Lemma space_not_version_char c : isspace c = true -> version_char c = false.
Proof.
  intros H. apply not_true_is_false; intros V. char_prop. lia.
Qed.

Lemma version_char_not_space c : version_char c = true -> isspace c = false.
Proof.
  intros V. apply not_true_is_false; intros H.
  rewrite (space_not_version_char c H) in V; discriminate.
Qed.

Lemma decimal_not_space c : isdecimal c = true -> isspace c = false.
Proof.
  unfold isdecimal; rewrite existsb_exists; intros (b & Hb & Hin).
  apply not_true_is_false; intros H.
  unfold decimal_blocks in Hb; simpl in Hb.
  char_prop.
  repeat (destruct Hb as [<- | Hb]; [lia|]); contradiction.
Qed.

Lemma take_drop_while p s : take_while p s ++ drop_while p s = s.
Proof.
  induction s as [|c s IH]; simpl; [reflexivity|].
  destruct (p c); simpl; [rewrite IH|]; reflexivity.
Qed.

Lemma take_while_all p s : forallb p (take_while p s) = true.
Proof.
  induction s as [|c s IH]; simpl; [reflexivity|].
  destruct (p c) eqn:E; simpl; [rewrite E, IH|]; reflexivity.
Qed.

Lemma take_while_app p a b :
  forallb p a = true ->
  take_while p (a ++ b) = a ++ take_while p b.
Proof.
  induction a as [|c a IH]; simpl; [reflexivity|].
  rewrite andb_true_iff; intros [-> H]. rewrite IH by assumption. reflexivity.
Qed.

Lemma drop_while_app p a b :
  forallb p a = true ->
  drop_while p (a ++ b) = drop_while p b.
Proof.
  induction a as [|c a IH]; simpl; [reflexivity|].
  rewrite andb_true_iff; intros [-> H]. apply IH; assumption.
Qed.

Lemma take_while_stop p b :
  match b with c :: _ => p c = false | [] => True end ->
  take_while p b = [].
Proof. destruct b as [|c b]; simpl; [reflexivity | intros ->; reflexivity]. Qed.

Lemma drop_while_stop p b :
  match b with c :: _ => p c = false | [] => True end ->
  drop_while p b = b.
Proof. destruct b as [|c b]; simpl; [reflexivity | intros ->; reflexivity]. Qed.

Lemma drop_while_head p s :
  match drop_while p s with c :: _ => p c = false | [] => True end.
Proof.
  induction s as [|c s IH]; simpl; [exact I|].
  destruct (p c) eqn:E; [exact IH | exact E].
Qed.

Lemma firstn_consumed (a b : str) :
  firstn (length (a ++ b) - length b) (a ++ b) = a.
Proof.
  rewrite length_app, Nat.add_sub.
  rewrite firstn_app, Nat.sub_diag, firstn_all. simpl. apply app_nil_r.
Qed.

Lemma firstn_take_while p (s : str) :
  firstn (length s - length (drop_while p s)) s = take_while p s.
Proof.
  rewrite <- (take_drop_while p s) at 1 3. apply firstn_consumed.
Qed.

Lemma lstrip_drop s : lstrip s = drop_while isspace s.
Proof.
  induction s as [|c s IH]; simpl; [reflexivity|]. rewrite IH; reflexivity.
Qed.

(* ================================================================== *)
(** ** The matcher on the shapes the patterns use *)

Section Matcher.

Variable A : Type.

(** A greedy unbounded repetition whose continuation cannot start with a
    character of the class never backs off: it reads the longest run. *)
Lemma rep_longest p (k : str -> option A) :
  (forall c t, p c = true -> k (c :: t) = None) ->
  forall s lo,
    rep p lo None s k =
    if (lo <=? length (take_while p s))%nat then k (drop_while p s) else None.
Proof.
  intros Hk. induction s as [|c s IH]; intros lo; simpl.
  - destruct lo; reflexivity.
  - destruct (p c) eqn:E; simpl.
    + rewrite IH.
      destruct lo as [|lo]; simpl.
      * destruct (k (drop_while p s)); [reflexivity | apply Hk; assumption].
      * destruct (lo <=? length (take_while p s))%nat; [|reflexivity].
        destruct (k (drop_while p s)); reflexivity.
    + destruct lo; reflexivity.
Qed.

(** A continuation that accepts the rest after the longest run is given it. *)
Lemma rep_longest_accepts p (k : str -> option A) r :
  forall s lo,
    (lo <= length (take_while p s))%nat ->
    k (drop_while p s) = Some r ->
    rep p lo None s k = Some r.
Proof.
  induction s as [|c s IH]; intros lo Hlo Hk; simpl in *.
  - destruct lo; [assumption | lia].
  - destruct (p c) eqn:E; simpl in *.
    + rewrite (IH (pred lo)); [reflexivity | lia | assumption].
    + destruct lo; [assumption | lia].
Qed.

(** A repetition with equal bounds reads exactly that many characters. *)
Lemma rep_exactly p (k : str -> option A) :
  forall n s,
    rep p n (Some n) s k =
    if ((length (firstn n s) =? n)%nat && forallb p (firstn n s))%bool
    then k (skipn n s) else None.
Proof.
  induction n as [|n IH]; intros s.
  - destruct s; simpl; [reflexivity|].
    rewrite andb_false_r; reflexivity.
  - destruct s as [|c s]; [reflexivity|].
    cbn [rep pred option_map may_take firstn skipn length forallb].
    rewrite andb_true_r, IH.
    change (S (length (firstn n s)) =? S n)%nat
      with (length (firstn n s) =? n)%nat.
    destruct (p c); simpl; [|rewrite andb_false_r; reflexivity].
    destruct ((length (firstn n s) =? n)%nat && forallb p (firstn n s))%bool;
      [|reflexivity].
    destruct (k (skipn n s)); reflexivity.
Qed.

Lemma exec_word (w : str) s caps (k : str -> list str -> option A) :
  exec (cat (List.map Lit w)) s caps k =
  match strip_prefix w s with
  | Some s' => k s' caps
  | None => None
  end.
Proof.
  revert s; induction w as [|c w IH]; intros s; simpl; [reflexivity|].
  destruct s as [|c' s]; [reflexivity|].
  destruct (char_eqb c' c); [apply IH | reflexivity].
Qed.

Lemma strip_prefix_app w s : strip_prefix w (w ++ s) = Some s.
Proof.
  induction w as [|c w IH]; simpl; [reflexivity|].
  unfold char_eqb; rewrite N.eqb_refl; exact IH.
Qed.

Lemma strip_prefix_inv w s s' : strip_prefix w s = Some s' -> s = w ++ s'.
Proof.
  revert s; induction w as [|c w IH]; intros s; simpl.
  - intros [= ->]; reflexivity.
  - destruct s as [|c' s]; [discriminate|].
    destruct (char_eqb c' c) eqn:E; [|discriminate].
    apply N.eqb_eq in E; subst c'. intros H; rewrite (IH _ H); reflexivity.
Qed.

End Matcher.

Lemma nonempty_length (s : str) : (1 <=? length s)%nat = nonempty s.
Proof. destruct s; reflexivity. Qed.

Lemma exec_plus A p r s caps (k : str -> list str -> option A) :
  (forall c t, p c = true -> exec r (c :: t) caps k = None) ->
  exec (Seq (plus p) r) s caps k =
  if nonempty (take_while p s) then exec r (drop_while p s) caps k else None.
Proof.
  intros H. cbn [exec plus].
  rewrite rep_longest by exact H. rewrite nonempty_length. reflexivity.
Qed.

Lemma exec_group_plus A p r s caps (k : str -> list str -> option A) :
  (forall c t caps', p c = true -> exec r (c :: t) caps' k = None) ->
  exec (Seq (Group (plus p)) r) s caps k =
  if nonempty (take_while p s)
  then exec r (drop_while p s) (caps ++ [take_while p s]) k else None.
Proof.
  intros H. cbn [exec plus].
  rewrite rep_longest by (intros; apply H; assumption).
  rewrite nonempty_length, firstn_take_while. reflexivity.
Qed.

Lemma exec_plus_stuck A p r c t caps (k : str -> list str -> option A) :
  p c = false -> exec (Seq (plus p) r) (c :: t) caps k = None.
Proof. intros H. cbn [exec plus rep]. rewrite H. reflexivity. Qed.

Lemma exec_group_plus_stuck A p r c t caps (k : str -> list str -> option A) :
  p c = false -> exec (Seq (Group (plus p)) r) (c :: t) caps k = None.
Proof. intros H. cbn [exec plus rep]. rewrite H. reflexivity. Qed.

Lemma exec_exactly A n p r s caps (k : str -> list str -> option A) :
  exec (Seq (exactly n p) r) s caps k =
  if ((length (firstn n s) =? n)%nat && forallb p (firstn n s))%bool
  then exec r (skipn n s) caps k else None.
Proof. cbn [exec exactly]. apply rep_exactly. Qed.

Lemma exec_lit A w r s caps (k : str -> list str -> option A) :
  exec (Seq (lit w) r) s caps k =
  match strip_prefix (py w) s with
  | Some s' => exec r s' caps k
  | None => None
  end.
Proof. cbn [exec]. unfold lit. apply exec_word. Qed.

Ltac head_split :=
  match goal with
  | |- ?b = _ =>
      match b with
      | context [isdecimal ?c] => is_var c; destruct (isdecimal c)
      | context [char_eqb ?c ?d] => is_var c; destruct (char_eqb c d)
      end
  end.

Ltac date_steps :=
  repeat first
    [ rewrite exec_exactly
    | rewrite exec_lit
    | progress cbn -[char_eqb isdecimal exec lit Nat.sub]
    | progress rewrite ?andb_false_r
    | head_split ].

(** The date group and the closing parenthesis. *)
Lemma exec_date_group A s caps (k : str -> list str -> option A) :
  exec (cat [Group (cat [exactly 4 isdecimal; lit "-"; exactly 2 isdecimal;
                         lit "-"; exactly 2 isdecimal]); lit ")"]) s caps k =
  if date_shape (firstn 10 s) then
    match skipn 10 s with
    | c :: rest =>
        if char_eqb c 41 then k rest (caps ++ [firstn 10 s]) else None
    | [] => None
    end
  else None.
Proof.
  cbn [cat fold_right].
  change (exec (Seq (Group ?d) ?r) s caps k) with
    (exec d s caps
       (fun s1 c1 => exec r s1 (c1 ++ [firstn (length s - length s1) s]) k)).
  destruct s as [|y1 [|y2 [|y3 [|y4 [|h1 [|m1 [|m2 [|h2 [|d1 [|d2 s]]]]]]]]]];
    date_steps; try reflexivity.
  cbn [exec].
  match goal with
  | |- context [firstn ?n _] => replace n with 10%nat by lia
  end.
  destruct s as [|c s]; date_steps; reflexivity.
Qed.

Lemma space_not_paren c : isspace c = true -> char_eqb c 40 = false.
Proof.
  intros H. apply not_true_is_false; intros V. char_prop. lia.
Qed.

(** [version_header_re.match] computes [version_header_fields]. *)
Lemma version_header_unfold line :
  re_match version_header_re line = version_header_fields line.
Proof.
  unfold re_match, version_header_re, version_header_fields.
  cbn [cat fold_right].
  rewrite exec_lit.
  destruct (strip_prefix (py "fping") line) as [r1|]; [|reflexivity].
  rewrite exec_plus
    by (intros; apply exec_group_plus_stuck, space_not_version_char; assumption).
  rewrite exec_group_plus
    by (intros; apply exec_plus_stuck, version_char_not_space; assumption).
  rewrite exec_plus
    by (intros c t Hc; rewrite exec_lit; cbn -[char_eqb];
        rewrite (space_not_paren c Hc); reflexivity).
  rewrite exec_lit.
  cbv zeta.
  destruct (drop_while isspace (drop_while version_char (drop_while isspace r1)))
    as [|c r5].
  - destruct (nonempty (take_while isspace r1)); [|reflexivity].
    destruct (nonempty (take_while version_char (drop_while isspace r1)));
      [|reflexivity].
    destruct (nonempty _); reflexivity.
  - cbn -[char_eqb exec date_shape firstn skipn lit exactly].
    destruct (nonempty (take_while isspace r1)); [|reflexivity].
    destruct (nonempty (take_while version_char (drop_while isspace r1)));
      [|reflexivity].
    destruct (nonempty (take_while isspace _)); [|reflexivity].
    destruct (char_eqb c 40); [|reflexivity].
    cbn [andb].
    rewrite (exec_date_group _ r5).
    destruct (date_shape (firstn 10 r5)); [|reflexivity].
    destruct (skipn 10 r5) as [|c' rest]; [reflexivity|].
    destruct (char_eqb c' 41); reflexivity.
Qed.

Lemma take_while_run p a b :
  forallb p a = true -> stops p b -> take_while p (a ++ b) = a.
Proof.
  intros Ha Hb. rewrite take_while_app by assumption.
  rewrite (take_while_stop p b Hb). apply app_nil_r.
Qed.

Lemma drop_while_run p a b :
  forallb p a = true -> stops p b -> drop_while p (a ++ b) = b.
Proof.
  intros Ha Hb. rewrite drop_while_app by assumption.
  apply drop_while_stop; exact Hb.
Qed.

Lemma date_shape_length d : date_shape d = true -> length d = 10%nat.
Proof.
  destruct d as [|y1 [|y2 [|y3 [|y4 [|h1 [|m1 [|m2 [|h2 [|d1 [|d2 [|x d]]]]]]]]]]];
    simpl; intros H; try discriminate; reflexivity.
Qed.

Lemma nonempty_true (s : str) : nonempty s = true <-> s <> [].
Proof. destruct s; simpl; split; congruence. Qed.

(** A line of the header shape is matched, with the version and the date
    as groups 1 and 2. *)
Lemma header_shape_match line ver d rest :
  header_shape line ver d rest ->
  re_match version_header_re line
  = Some {| groups := [ver; d]; unread := rest |}.
Proof.
  intros (ws1 & ws2 & -> & Hw1 & Bw1 & Hv & Bv & Hw2 & Bw2 & Hd).
  rewrite version_header_unfold. unfold version_header_fields.
  rewrite strip_prefix_app. cbv zeta.
  assert (S1 : stops isspace (ver ++ ws2 ++ py "(" ++ d ++ py ")" ++ rest)).
  { destruct ver as [|c ver]; [congruence|]. simpl in *.
    apply andb_true_iff in Bv. apply version_char_not_space, Bv. }
  assert (S2 : stops version_char (ws2 ++ py "(" ++ d ++ py ")" ++ rest)).
  { destruct ws2 as [|c ws2]; [congruence|]. unfold blank in Bw2; simpl in *.
    apply andb_true_iff in Bw2. apply space_not_version_char, Bw2. }
  assert (S3 : stops isspace (py "(" ++ d ++ py ")" ++ rest)) by reflexivity.
  rewrite (take_while_run isspace ws1 _ Bw1 S1).
  rewrite (drop_while_run isspace ws1 _ Bw1 S1).
  rewrite (take_while_run version_char ver _ Bv S2).
  rewrite (drop_while_run version_char ver _ Bv S2).
  rewrite (take_while_run isspace ws2 _ Bw2 S3).
  rewrite (drop_while_run isspace ws2 _ Bw2 S3).
  change (py "(" ++ d ++ py ")" ++ rest) with (40 :: d ++ 41 :: rest).
  cbv beta iota.
  pose proof (date_shape_length d Hd) as L.
  replace (firstn 10 (d ++ 41 :: rest)) with d
    by (rewrite <- L, firstn_app, Nat.sub_diag, firstn_all; simpl;
        symmetry; apply app_nil_r).
  replace (skipn 10 (d ++ 41 :: rest)) with (41 :: rest)
    by (rewrite <- L, skipn_app, Nat.sub_diag, skipn_all; reflexivity).
  apply nonempty_true in Hw1, Hv, Hw2. rewrite Hw1, Hv, Hw2, Hd.
  reflexivity.
Qed.

(** What is matched has the header shape; the match object holds the
    version, the date and what follows the closing parenthesis. *)
Lemma match_header_shape line m :
  re_match version_header_re line = Some m ->
  header_shape line (group m 1) (group m 2) (unread m)
  /\ groups m = [group m 1; group m 2].
Proof.
  rewrite version_header_unfold. unfold version_header_fields.
  destruct (strip_prefix (py "fping") line) as [r1|] eqn:P; [|discriminate].
  apply strip_prefix_inv in P. cbv zeta.
  destruct (drop_while isspace (drop_while version_char (drop_while isspace r1)))
    as [|c r5] eqn:R; [discriminate|].
  destruct (nonempty (take_while isspace r1)) eqn:N1; [|discriminate].
  destruct (nonempty (take_while version_char (drop_while isspace r1))) eqn:N2;
    [|discriminate].
  destruct (nonempty (take_while isspace
              (drop_while version_char (drop_while isspace r1)))) eqn:N3;
    [|discriminate].
  destruct (char_eqb c 40) eqn:C; [|discriminate].
  remember (firstn 10 r5) as d eqn:Ed.
  destruct (date_shape d) eqn:D; [|discriminate].
  cbn [andb].
  destruct (skipn 10 r5) as [|c' rest] eqn:K; [discriminate|].
  destruct (char_eqb c' 41) eqn:C'; [|discriminate].
  intros [= <-]. cbn [group groups unread Nat.sub nth].
  split; [|reflexivity].
  apply N.eqb_eq in C, C'. subst c c'.
  exists (take_while isspace r1),
    (take_while isspace (drop_while version_char (drop_while isspace r1))).
  repeat split;
    try (apply nonempty_true; assumption);
    try apply take_while_all; try assumption.
  rewrite P. f_equal.
  rewrite <- (take_drop_while isspace r1) at 1. f_equal.
  rewrite <- (take_drop_while version_char (drop_while isspace r1)) at 1.
  f_equal.
  rewrite <- (take_drop_while isspace
                (drop_while version_char (drop_while isspace r1))) at 1.
  f_equal. rewrite R.
  change (py "(" ++ d ++ py ")" ++ rest) with (40 :: d ++ 41 :: rest).
  f_equal. subst d.
  rewrite <- (firstn_skipn 10 r5) at 1. rewrite K. reflexivity.
Qed.

(* ================================================================== *)
(** ** Dictionaries *)

Lemma dict_get_in d t : In t (keys d) -> exists v, dict_get d t = Ok v.
Proof.
  induction d as [|[k v] d IH]; simpl; [contradiction|].
  intros [-> | H].
  - rewrite str_eqb_refl. eauto.
  - destruct (str_eqb k t); eauto.
Qed.

Lemma dict_get_keys d t v : dict_get d t = Ok v -> In t (keys d).
Proof.
  induction d as [|[k v0] d IH]; simpl; [discriminate|].
  destruct (str_eqb k t) eqn:E.
  - apply str_eqb_eq in E. auto.
  - auto.
Qed.

Lemma keys_dict_set_in d t v : In t (keys d) -> keys (dict_set d t v) = keys d.
Proof.
  induction d as [|[k v0] d IH]; simpl; [contradiction|].
  destruct (str_eqb k t) eqn:E; simpl; [reflexivity|].
  intros [-> | H]; [rewrite str_eqb_refl in E; discriminate|].
  rewrite IH by assumption. reflexivity.
Qed.

Lemma keys_dict_set_new d t v :
  ~ In t (keys d) -> keys (dict_set d t v) = keys d ++ [t].
Proof.
  induction d as [|[k v0] d IH]; simpl; [reflexivity|].
  intros H. destruct (str_eqb k t) eqn:E.
  - apply str_eqb_eq in E. tauto.
  - simpl. rewrite IH by tauto. reflexivity.
Qed.

Lemma dict_set_in_keys d t v : In t (keys (dict_set d t v)).
Proof.
  induction d as [|[k v0] d IH]; simpl; [auto|].
  destruct (str_eqb k t) eqn:E; simpl; [|auto].
  apply str_eqb_eq in E. auto.
Qed.

Lemma keys_dict_set_incl d t u v : In u (keys d) -> In u (keys (dict_set d t v)).
Proof.
  induction d as [|[k v0] d IH]; simpl; [contradiction|].
  destruct (str_eqb k t); simpl; tauto.
Qed.

Lemma dict_get_set_same d t v : dict_get (dict_set d t v) t = Ok v.
Proof.
  induction d as [|[k v0] d IH]; simpl.
  - rewrite str_eqb_refl. reflexivity.
  - destruct (str_eqb k t) eqn:E; simpl; rewrite E; [reflexivity | exact IH].
Qed.

Lemma dict_get_set_other d t u v :
  u <> t -> dict_get (dict_set d t v) u = dict_get d u.
Proof.
  intros N.
  assert (F : str_eqb t u = false) by (apply str_eqb_neq; congruence).
  induction d as [|[k v0] d IH]; simpl.
  - rewrite F. reflexivity.
  - destruct (str_eqb k t) eqn:E; simpl.
    + apply str_eqb_eq in E. subst k. rewrite F. reflexivity.
    + rewrite IH. reflexivity.
Qed.

(** A later assignment to the same key overrides an earlier one. *)
Lemma dict_set_set d t v w : dict_set (dict_set d t v) t w = dict_set d t w.
Proof.
  induction d as [|[k v0] d IH]; simpl.
  - rewrite str_eqb_refl. reflexivity.
  - destruct (str_eqb k t) eqn:E; simpl; rewrite E; [reflexivity|].
    rewrite IH. reflexivity.
Qed.

(** Assignments to different keys that are both present commute. *)
Lemma dict_set_swap d t u v w :
  In t (keys d) -> In u (keys d) -> t <> u ->
  dict_set (dict_set d t v) u w = dict_set (dict_set d u w) t v.
Proof.
  intros Ht Hu N. induction d as [|[k v0] d IH]; simpl in *; [contradiction|].
  destruct (str_eqb k t) eqn:Et, (str_eqb k u) eqn:Eu; simpl;
    rewrite ?Et, ?Eu; try reflexivity.
  - apply str_eqb_eq in Et, Eu. congruence.
  - f_equal. apply IH.
    + destruct Ht as [-> | Ht]; [rewrite str_eqb_refl in Et; discriminate | exact Ht].
    + destruct Hu as [-> | Hu]; [rewrite str_eqb_refl in Eu; discriminate | exact Hu].
Qed.

(* ================================================================== *)
(** ** The parser never raises *)

Lemma commit_ok cur s a :
  In s (keys (sections cur)) ->
  exists v,
    dict_get (sections cur) s = Ok v
    /\ commit cur s a
       = Ok {| version := version cur; date := date cur;
               sections := dict_set (sections cur) s (v ++ [strip a]) |}.
Proof.
  intros H. destruct (dict_get_in _ _ H) as [v Hv].
  exists v. split; [exact Hv|].
  unfold commit, dict_append. rewrite Hv. reflexivity.
Qed.

Lemma flush_ok cur sec acc :
  (forall s, sec = Some s -> In s (keys (sections cur))) ->
  exists cur' acc',
    flush cur sec acc = Ok (cur', acc')
    /\ version cur' = version cur /\ date cur' = date cur
    /\ keys (sections cur') = keys (sections cur).
Proof.
  intros H. unfold flush.
  destruct acc as [a|]; [|eauto 6].
  destruct sec as [s|]; [|eauto 6].
  destruct (nonempty a && nonempty s)%bool; [|eauto 6].
  destruct (commit_ok cur s a (H s eq_refl)) as (v & _ & ->).
  simpl. do 2 eexists. split; [reflexivity|]. simpl.
  rewrite keys_dict_set_in by auto. auto.
Qed.

Lemma wf_flush_arg st cur :
  wf st -> current st = Some cur ->
  forall s, current_section st = Some s -> In s (keys (sections cur)).
Proof.
  unfold wf. intros W C s S. rewrite S, C in W. exact W.
Qed.

Lemma classify_ok st line :
  wf st -> exists st', classify st line = Ok st' /\ wf st'.
Proof.
  intros W. unfold classify.
  destruct (re_match version_header_re line) as [mv|].
  { destruct (current st) as [cur|] eqn:C.
    - destruct (flush_ok cur _ (bullet_accumulator st) (wf_flush_arg st cur W C))
        as (cur' & acc' & -> & _).
      simpl. eexists; split; [reflexivity | exact I].
    - simpl. eexists; split; [reflexivity | exact I]. }
  destruct (current st) as [cur|] eqn:C; [|eauto].
  destruct (re_match section_re line) as [ms|].
  { destruct (flush_ok cur _ (bullet_accumulator st) (wf_flush_arg st cur W C))
      as (cur' & acc' & -> & _).
    simpl. eexists; split; [reflexivity|].
    unfold wf; simpl. apply dict_set_in_keys. }
  destruct (is_some (re_match bullet_re line) && truthy (current_section st))%bool.
  { destruct (re_match bullet_re line) as [mb|]; [|eauto].
    destruct (current_section st) as [s|] eqn:S; [|eauto].
    pose proof (wf_flush_arg st cur W C s S) as Hin.
    destruct (truthy (bullet_accumulator st)).
    - destruct (bullet_accumulator st) as [a|].
      + destruct (commit_ok cur s a Hin) as (v & _ & ->).
        simpl. eexists; split; [reflexivity|].
        unfold wf; simpl.
        rewrite keys_dict_set_in by assumption. assumption.
      + simpl. eexists; split; [reflexivity|].
        unfold wf; simpl. assumption.
    - simpl. eexists; split; [reflexivity|].
      unfold wf; simpl. assumption. }
  unfold continuation_or_blank.
  assert (B : exists st',
             (if str_eqb (strip line) [] then
                f <- flush cur (current_section st) (bullet_accumulator st) ;;
                Ok {| entries := entries st;
                      current := Some (fst f);
                      current_section := current_section st;
                      skip_next_block := skip_next_block st;
                      bullet_accumulator := snd f |}
              else Ok st) = Ok st' /\ wf st').
  { destruct (str_eqb (strip line) []); [|eauto].
    destruct (flush_ok cur _ (bullet_accumulator st) (wf_flush_arg st cur W C))
      as (cur' & acc' & -> & _ & _ & K).
    simpl. eexists; split; [reflexivity|].
    unfold wf in *; simpl. rewrite C in W.
    destruct (current_section st); [rewrite K; exact W | exact I]. }
  destruct (re_match continuation_re line) as [mc|]; [|exact B].
  destruct (bullet_accumulator st) as [a|]; [|exact B].
  eexists; split; [reflexivity|].
  unfold wf in *; simpl. rewrite C in W. exact W.
Qed.

Lemma wf_set_skip st b : wf st -> wf (set_skip st b).
Proof. intros W; exact W. Qed.

Lemma step_ok st raw : wf st -> exists st', step st raw = Ok st' /\ wf st'.
Proof.
  intros W. unfold step.
  destruct (str_eqb _ (py "Next")).
  - eexists; split; [reflexivity | apply wf_set_skip, W].
  - destruct (skip_next_block st).
    + destruct (is_some _); [|eauto].
      apply classify_ok, wf_set_skip, W.
    + apply classify_ok, W.
Qed.

Lemma run_ok lines : forall st, wf st -> exists st', run st lines = Ok st' /\ wf st'.
Proof.
  induction lines as [|l lines IH]; intros st W; simpl; [eauto|].
  destruct (step_ok st l W) as (st1 & -> & W1). simpl. apply IH, W1.
Qed.

Lemma finish_ok st : wf st -> exists es, finish st = Ok es.
Proof.
  intros W. unfold finish.
  destruct (current st) as [cur|] eqn:C; [|eauto].
  destruct (flush_ok cur _ (bullet_accumulator st) (wf_flush_arg st cur W C))
    as (cur' & acc' & -> & _).
  simpl. eauto.
Qed.

(** [parse_markdown_changelog] returns a list of entries for every input. *)
Lemma parse_total lines : exists es, parse_markdown_changelog lines = Ok es.
Proof.
  unfold parse_markdown_changelog.
  destruct (run_ok lines initial I) as (st & -> & W).
  simpl. apply finish_ok, W.
Qed.

Lemma run_app a : forall st b,
  run st (a ++ b) = st' <- run st a ;; run st' b.
Proof.
  induction a as [|l a IH]; intros st b; simpl; [reflexivity|].
  destruct (step st l); simpl; [apply IH | reflexivity].
Qed.

(* ================================================================== *)
(** ** The [Next] block *)

Lemma set_skip_same st : set_skip st (skip_next_block st) = st.
Proof. destruct st; reflexivity. Qed.

Lemma step_next st raw : is_next raw = true -> step st raw = Ok (set_skip st true).
Proof. unfold is_next, step. intros ->. reflexivity. Qed.

(** In skip mode a line that is no version header leaves every variable
    of the loop as it was. *)
Lemma step_skipped st raw :
  skip_next_block st = true -> is_version_header raw = false ->
  step st raw = Ok st.
Proof.
  unfold is_version_header, step. intros S H.
  destruct (str_eqb _ (py "Next")).
  - rewrite <- S. rewrite set_skip_same. reflexivity.
  - rewrite S, H. reflexivity.
Qed.

Lemma run_skipped block : forall st,
  skip_next_block st = true ->
  Forall (fun l => is_version_header l = false) block ->
  run st block = Ok st.
Proof.
  induction block as [|l block IH]; intros st S F; simpl; [reflexivity|].
  inversion F; subst.
  rewrite step_skipped by assumption. simpl. apply IH; assumption.
Qed.

(** A version header is handled the same way in skip mode and out of it. *)
Lemma step_header_resumes st raw :
  is_version_header raw = true ->
  step (set_skip st true) raw = step st raw.
Proof.
  unfold is_version_header, step. intros H.
  destruct (str_eqb _ (py "Next")); [reflexivity|].
  rewrite H. cbn [skip_next_block set_skip].
  destruct (skip_next_block st) eqn:S; [reflexivity|].
  change (set_skip (set_skip st true) false) with (set_skip st false).
  rewrite <- S, set_skip_same. reflexivity.
Qed.

(** A [Next] line and the lines after it up to the next version header
    leave no trace in what the parser returns. *)
Lemma parse_without_next_block (pre block post : list str) (nxt hdr : str) :
  is_next nxt = true ->
  Forall (fun l => is_version_header l = false) block ->
  is_version_header hdr = true ->
  parse_markdown_changelog (pre ++ nxt :: block ++ hdr :: post)
  = parse_markdown_changelog (pre ++ hdr :: post).
Proof.
  intros N B H. unfold parse_markdown_changelog.
  rewrite !run_app.
  destruct (run initial pre) as [st|e]; [|reflexivity].
  cbn [bind run].
  rewrite (step_next st nxt N). cbn [bind].
  rewrite run_app.
  rewrite (run_skipped block (set_skip st true) eq_refl B). cbn [bind run].
  rewrite (step_header_resumes st hdr H). reflexivity.
Qed.

(* ================================================================== *)
(** ** The renderer *)

Section Rendering.

Variable fill : str -> str.

Lemma render_sections_app a b :
  render_sections fill (a ++ b) = render_sections fill a ++ render_sections fill b.
Proof.
  induction a as [|[t items] a IH]; simpl; [reflexivity|].
  destruct items as [|i items]; [exact IH|].
  simpl. rewrite IH, <- app_assoc. reflexivity.
Qed.

Lemma generate_output_app a b :
  generate_output fill (a ++ b)
  = oa <- generate_output fill a ;;
    ob <- generate_output fill b ;; Ok (oa ++ ob).
Proof.
  induction a as [|e a IH]; simpl.
  - destruct (generate_output fill b); reflexivity.
  - destruct (format_debian_date (date e)) as [f|x]; [|reflexivity]. simpl.
    rewrite IH.
    destruct (generate_output fill a) as [oa|x]; [|reflexivity]. simpl.
    destruct (generate_output fill b) as [ob|x]; [|reflexivity]. simpl.
    rewrite <- app_assoc. reflexivity.
Qed.

(** C7. A section whose item list is empty contributes nothing to the
    output: the changelog rendered is the one rendered for the same
    entries with that section left out, so it has no ["  * "] line and no
    item lines for it. *)
Theorem empty_section_not_rendered
  (before after : list entry) (v d title : str) (pre post : sections_t) :
  render_sections fill (pre ++ (title, []) :: post)
  = render_sections fill (pre ++ post)
  /\ generate_debian_changelog fill
       (before ++ {| version := v; date := d;
                     sections := pre ++ (title, []) :: post |} :: after)
     = generate_debian_changelog fill
         (before ++ {| version := v; date := d;
                       sections := pre ++ post |} :: after).
Proof.
  assert (R : render_sections fill (pre ++ (title, []) :: post)
              = render_sections fill (pre ++ post)).
  { rewrite !render_sections_app. reflexivity. }
  split; [exact R|].
  unfold generate_debian_changelog.
  rewrite !generate_output_app. cbn [generate_output date sections].
  unfold header_line. cbn [version]. rewrite R. reflexivity.
Qed.

(** C5 (as the code behaves). With an argument count other than one the
    usage line goes to standard output, nothing is written to standard
    error, and the exit status is 1. *)
Theorem usage_goes_to_stdout (argv0 a b : str) (more : list str)
  (fs : str -> file_status) :
  main fill [argv0] fs
  = exits (py "Usage: " ++ argv0 ++ py " Changelog.md" ++ [newline]) [] 1
  /\ main fill (argv0 :: a :: b :: more) fs
     = exits (py "Usage: " ++ argv0 ++ py " Changelog.md" ++ [newline]) [] 1.
Proof. split; reflexivity. Qed.

End Rendering.

(* ================================================================== *)
(** ** The section, bullet and continuation patterns *)

Lemma rep_too_short A p (k : str -> option A) :
  forall s lo,
    (length (take_while p s) < lo)%nat -> rep p lo None s k = None.
Proof.
  induction s as [|c s IH]; intros lo H; simpl in *.
  - destruct lo; [lia | reflexivity].
  - destruct (p c); simpl in *.
    + destruct lo as [|lo]; [lia|]. simpl. rewrite IH by lia. reflexivity.
    + destruct lo; [lia | reflexivity].
Qed.

(** A repetition followed by the closing group, which is the rest of the
    line up to a newline: the run must be long enough. *)
Lemma exec_run_then_rest p lo s caps :
  exec (Seq (Repeat p lo None) (Seq (Group (star dot)) Empty)) s caps matched
  = if (lo <=? length (take_while p s))%nat
    then matched (drop_while dot (drop_while p s))
           (caps ++ [take_while dot (drop_while p s)])
    else None.
Proof.
  cbn [exec star].
  destruct (lo <=? length (take_while p s))%nat eqn:E.
  - apply Nat.leb_le in E.
    apply rep_longest_accepts; [exact E|].
    apply rep_longest_accepts; [lia|].
    rewrite firstn_take_while. reflexivity.
  - apply Nat.leb_gt in E. apply rep_too_short. exact E.
Qed.

Lemma section_match_unfold line :
  re_match section_re line =
  match strip_prefix (py "##") line with
  | Some r =>
      if nonempty (take_while isspace r)
      then matched (drop_while dot (drop_while isspace r))
             [take_while dot (drop_while isspace r)]
      else None
  | None => None
  end.
Proof.
  unfold re_match, section_re. cbn [cat fold_right].
  rewrite exec_lit.
  destruct (strip_prefix (py "##") line) as [r|]; [|reflexivity].
  unfold plus. rewrite (exec_run_then_rest isspace 1 r []).
  rewrite nonempty_length. reflexivity.
Qed.

Lemma continuation_match_unfold line :
  re_match continuation_re line =
  if (2 <=? length (take_while isspace line))%nat
  then matched (drop_while dot (drop_while isspace line))
         [take_while dot (drop_while isspace line)]
  else None.
Proof.
  unfold re_match, continuation_re. cbn [cat fold_right].
  apply (exec_run_then_rest isspace 2 line []).
Qed.

Lemma space_not_dash c : isspace c = true -> char_eqb c 45 = false.
Proof.
  intros H. apply not_true_is_false; intros V. char_prop. lia.
Qed.

Lemma bullet_match_unfold line :
  re_match bullet_re line =
  match strip_prefix (py "-") (drop_while isspace line) with
  | Some r =>
      if nonempty (take_while isspace r)
      then matched (drop_while dot (drop_while isspace r))
             [take_while dot (drop_while isspace r)]
      else None
  | None => None
  end.
Proof.
  unfold re_match, bullet_re. cbn [cat fold_right].
  change (exec (Seq (star isspace) ?r) line [] ?k)
    with (rep isspace 0 None line (fun s' => exec r s' [] k)).
  rewrite rep_longest.
  - cbn [Nat.leb]. rewrite exec_lit.
    destruct (strip_prefix (py "-") (drop_while isspace line)) as [r|];
      [|reflexivity].
    unfold plus. rewrite (exec_run_then_rest isspace 1 r []).
    rewrite nonempty_length. reflexivity.
  - intros c t Hc. rewrite exec_lit. cbn -[char_eqb].
    rewrite (space_not_dash c Hc). reflexivity.
Qed.

(* ================================================================== *)
(** ** Trimming *)

Lemma rstrip_by_cons p c s :
  rstrip_by p (c :: s) =
  match rstrip_by p s with
  | [] => if p c then [] else [c]
  | t => c :: t
  end.
Proof. unfold rstrip_by. simpl. destruct (fold_right _ _ s); reflexivity. Qed.

Lemma rstrip_by_head p c s :
  p c = false -> exists t, rstrip_by p (c :: s) = c :: t.
Proof.
  intros H. rewrite rstrip_by_cons, H. destruct (rstrip_by p s); eauto.
Qed.

Lemma rstrip_by_all p s : forallb p s = true -> rstrip_by p s = [].
Proof.
  induction s as [|c s IH]; [reflexivity|].
  cbn [forallb]. rewrite andb_true_iff. intros [Hc Hs].
  rewrite rstrip_by_cons, (IH Hs), Hc. reflexivity.
Qed.

Lemma rstrip_by_idem p s : rstrip_by p (rstrip_by p s) = rstrip_by p s.
Proof.
  induction s as [|c s IH]; [reflexivity|].
  rewrite rstrip_by_cons.
  destruct (rstrip_by p s) as [|x t] eqn:E.
  - destruct (p c) eqn:Pc; [reflexivity|].
    rewrite rstrip_by_cons, Pc. reflexivity.
  - rewrite rstrip_by_cons, IH. reflexivity.
Qed.

Lemma rstrip_by_app p a b :
  rstrip_by p b <> [] -> rstrip_by p (a ++ b) = a ++ rstrip_by p b.
Proof.
  intros H. induction a as [|c a IH]; [reflexivity|].
  cbn [app]. rewrite rstrip_by_cons, IH.
  destruct (a ++ rstrip_by p b) eqn:E; [|reflexivity].
  apply app_eq_nil in E. tauto.
Qed.

(** The trimmed string starts with the first character that is no
    whitespace. *)
Lemma strip_first s c r :
  drop_while isspace s = c :: r -> exists t, strip s = c :: t.
Proof.
  intros H. unfold strip, rstrip. rewrite lstrip_drop, H.
  apply rstrip_by_head.
  pose proof (drop_while_head isspace s) as D. rewrite H in D. exact D.
Qed.

Lemma strip_blank s : blank s = true -> strip s = [].
Proof.
  intros H. unfold strip, rstrip. rewrite lstrip_drop.
  apply rstrip_by_all.
  rewrite <- (take_drop_while isspace s) in H.
  unfold blank in H. rewrite forallb_app in H.
  apply andb_true_iff in H. apply H.
Qed.

Lemma blank_strip s : strip s = [] -> blank s = true.
Proof.
  unfold strip, rstrip. rewrite lstrip_drop. intros H.
  destruct (drop_while isspace s) as [|c r] eqn:E.
  - unfold blank. rewrite <- (take_drop_while isspace s), E, app_nil_r.
    apply take_while_all.
  - pose proof (drop_while_head isspace s) as D. rewrite E in D.
    destruct (rstrip_by_head isspace c r D) as [t Ht]. congruence.
Qed.

(** A line whose first character after the indentation is not [N] is no
    [Next] line. *)
Lemma not_next_by_first s c r :
  drop_while isspace s = c :: r -> char_eqb c 78 = false ->
  str_eqb (strip s) (py "Next") = false.
Proof.
  intros H C. destruct (strip_first s c r H) as [t ->].
  cbn -[char_eqb]. rewrite C. reflexivity.
Qed.

Lemma step_classify st raw :
  is_next raw = false -> skip_next_block st = false ->
  step st raw = classify st (rstrip_newline raw).
Proof. unfold is_next, step. intros -> ->. reflexivity. Qed.

(** A section header line is neither a version header nor a [Next] line. *)
Lemma section_line_facts line m :
  re_match section_re line = Some m ->
  re_match version_header_re line = None
  /\ str_eqb (strip line) (py "Next") = false
  /\ groups m = [group m 1].
Proof.
  rewrite section_match_unfold, version_header_unfold.
  unfold version_header_fields.
  destruct (strip_prefix (py "##") line) as [r|] eqn:P; [|discriminate].
  apply strip_prefix_inv in P. subst line.
  destruct (nonempty _); [|discriminate].
  intros [= <-]. repeat split.
  apply (not_next_by_first _ 35 (35 :: r)); reflexivity.
Qed.

(* ================================================================== *)
(** ** Section headers *)

Lemma step_section st cur raw m :
  current st = Some cur -> skip_next_block st = false ->
  re_match section_re (rstrip_newline raw) = Some m ->
  step st raw = open_section st cur (strip (group m 1)).
Proof.
  intros C S M.
  destruct (section_line_facts _ _ M) as (V & N & _).
  rewrite step_classify by assumption.
  unfold classify. rewrite V, C, M. reflexivity.
Qed.

(** The items stored under [title] before its header comes again have no
    influence on the state after that header. *)
Lemma open_section_forgets st cur title xs :
  wf st -> current st = Some cur -> In title (keys (sections cur)) ->
  open_section (with_items st title xs)
    {| version := version cur; date := date cur;
       sections := dict_set (sections cur) title xs |} title
  = open_section st cur title.
Proof.
  intros W C T. unfold open_section, flush.
  cbn [with_items current_section bullet_accumulator entries skip_next_block].
  destruct (bullet_accumulator st) as [a|];
    [|cbn; rewrite dict_set_set; reflexivity].
  destruct (current_section st) as [s|] eqn:S;
    [|cbn; rewrite dict_set_set; reflexivity].
  destruct (nonempty a && nonempty s)%bool;
    [|cbn; rewrite dict_set_set; reflexivity].
  pose proof (wf_flush_arg st cur W C s S) as Hs.
  destruct (dict_get_in _ _ Hs) as [v Hv].
  unfold commit, dict_append. cbn [sections version date].
  rewrite Hv. cbn [bind fst snd sections version date].
  destruct (str_eqb s title) eqn:E.
  - apply str_eqb_eq in E. subst s.
    rewrite dict_get_set_same. cbn [bind fst snd sections version date].
    rewrite !dict_set_set. reflexivity.
  - apply str_eqb_neq in E.
    rewrite dict_get_set_other, Hv by assumption.
    cbn [bind fst snd sections version date].
    rewrite (dict_set_swap (sections cur) title s xs (v ++ [strip a]))
      by (auto; congruence).
    rewrite dict_set_set. reflexivity.
Qed.

(** C8. When a section header repeats a title of the open entry, the
    items stored under that title are discarded: after the header the
    title maps to the empty list, in its old place, and nothing later can
    depend on the discarded items, since the header leads to the same
    state whatever they were.  The mapping ends with the items committed
    after the second header only. *)
Theorem repeated_section_discards (st : state) (cur : entry) (raw : str)
  (m : match_obj) (xs : list str) :
  wf st -> current st = Some cur -> skip_next_block st = false ->
  re_match section_re (rstrip_newline raw) = Some m ->
  In (strip (group m 1)) (keys (sections cur)) ->
  exists st' cur',
    step st raw = Ok st'
    /\ current st' = Some cur'
    /\ current_section st' = Some (strip (group m 1))
    /\ dict_get (sections cur') (strip (group m 1)) = Ok []
    /\ keys (sections cur') = keys (sections cur)
    /\ step (with_items st (strip (group m 1)) xs) raw = Ok st'.
Proof.
  intros W C S M T. set (title := strip (group m 1)) in *.
  rewrite (step_section st cur raw m C S M).
  rewrite (step_section (with_items st title xs)
             {| version := version cur; date := date cur;
                sections := dict_set (sections cur) title xs |} raw m)
    by (try assumption; cbn; rewrite C; reflexivity).
  fold title. rewrite (open_section_forgets st cur title xs W C T).
  unfold open_section.
  destruct (flush_ok cur _ (bullet_accumulator st) (wf_flush_arg st cur W C))
    as (cur' & acc' & -> & _ & _ & K).
  cbn [bind fst snd]. do 2 eexists.
  split; [reflexivity|]. cbn [current current_section sections].
  repeat split.
  - apply dict_get_set_same.
  - cbn [sections]. rewrite keys_dict_set_in by (rewrite K; exact T). exact K.
Qed.

(* ================================================================== *)
(** ** Version headers *)

(** Case analysis on everything one step of the loop tests. *)
Ltac break_step H :=
  repeat match type of H with
    | context [bind ?m _] =>
        match m with
        | context [match ?x with _ => _ end] => destruct x eqn:?
        | context [if ?b then _ else _] => destruct b eqn:?
        | _ => destruct m as [?|?] eqn:?; cbn [bind] in H
        end
    | context [match ?x with _ => _ end] => destruct x eqn:?
    | context [if ?b then _ else _] => destruct b eqn:?
    end.

Lemma header_not_next raw : is_version_header raw = true -> is_next raw = false.
Proof.
  unfold is_version_header, is_next. intros H.
  destruct (re_match version_header_re (rstrip_newline raw)) as [m|] eqn:M;
    [|discriminate].
  apply match_header_shape in M. destruct M as ((ws1 & ws2 & E & _) & _).
  rewrite E. apply (not_next_by_first _ 102 (py "ping" ++ ws1 ++ group m 1
    ++ ws2 ++ py "(" ++ group m 2 ++ py ")" ++ unread m)); reflexivity.
Qed.

Lemma classify_entry_count st line st' :
  classify st line = Ok st' ->
  entry_count st' =
  (entry_count st
   + if is_some (re_match version_header_re line) then 1 else 0)%nat.
Proof.
  unfold classify, continuation_or_blank, entry_count. intros H.
  destruct (current st) as [cur|] eqn:C;
    break_step H; try discriminate; cbn [bind fst snd] in *;
    repeat match goal with
      | E : Ok _ = Ok _ |- _ => inversion E; subst; clear E
      end;
    cbn [entries current is_some length fst snd]; try rewrite length_app;
    cbn [length]; try rewrite C; cbn [is_some]; lia.
Qed.

Lemma step_entry_count st raw st' :
  step st raw = Ok st' ->
  entry_count st' =
  (entry_count st + if is_version_header raw then 1 else 0)%nat.
Proof.
  unfold step. intros H.
  destruct (is_version_header raw) eqn:V.
  - pose proof (header_not_next raw V) as N. unfold is_next in N.
    rewrite N in H. unfold is_version_header in V.
    destruct (skip_next_block st); [rewrite V in H|];
      apply classify_entry_count in H; rewrite V in H; exact H.
  - unfold is_version_header in V.
    destruct (str_eqb _ (py "Next")).
    + injection H as <-. unfold entry_count. cbn. lia.
    + destruct (skip_next_block st).
      * rewrite V in H. injection H as <-. lia.
      * apply classify_entry_count in H. rewrite V in H. exact H.
Qed.

Lemma commit_head cur s a cur' :
  commit cur s a = Ok cur' -> head_of cur' = head_of cur.
Proof.
  unfold commit. destruct (dict_append _ _ _); [|discriminate].
  intros [= <-]. reflexivity.
Qed.

Lemma flush_head cur sec acc cur' acc' :
  flush cur sec acc = Ok (cur', acc') -> head_of cur' = head_of cur.
Proof.
  unfold flush. intros H.
  destruct acc as [a|]; [|injection H as <- _; reflexivity].
  destruct sec as [s|]; [|injection H as <- _; reflexivity].
  destruct (nonempty a && nonempty s)%bool; [|injection H as <- _; reflexivity].
  destruct (commit cur s a) as [c|] eqn:E; [|discriminate].
  injection H as <- _. apply (commit_head _ _ _ _ E).
Qed.

Lemma classify_heads st line st' :
  classify st line = Ok st' ->
  List.map head_of (all_entries st') =
  List.map head_of (all_entries st)
  ++ match re_match version_header_re line with
     | Some m => [(group m 1, group m 2)]
     | None => []
     end.
Proof.
  unfold classify, continuation_or_blank, all_entries. intros H.
  destruct (current st) as [cur|] eqn:C;
    break_step H; try discriminate; cbn [bind fst snd] in *;
    repeat match goal with
      | E : Ok _ = Ok _ |- _ => inversion E; subst; clear E
      end;
    repeat match goal with
      | p : (entry * option str)%type |- _ => destruct p
      end;
    cbn [entries current fst snd]; try rewrite C;
    rewrite ?map_app, ?app_nil_r, <- ?app_assoc; cbn [List.map app];
    repeat match goal with
      | E : flush _ _ _ = Ok _ |- _ =>
          apply flush_head in E; unfold head_of in E; injection E as ? ?
      | E : commit _ _ _ = Ok _ |- _ =>
          apply commit_head in E; unfold head_of in E; injection E as ? ?
      end;
    unfold head_of; cbn [version date]; congruence.
Qed.

Lemma step_heads st raw st' :
  step st raw = Ok st' ->
  List.map head_of (all_entries st')
  = List.map head_of (all_entries st) ++ headers_of [raw].
Proof.
  unfold step. intros H. cbn [headers_of].
  destruct (re_match version_header_re (rstrip_newline raw)) as [m|] eqn:M.
  - assert (V : is_version_header raw = true)
      by (unfold is_version_header; rewrite M; reflexivity).
    pose proof (header_not_next raw V) as N. unfold is_next in N.
    rewrite N in H.
    destruct (skip_next_block st); cbn [is_some] in H;
      apply classify_heads in H; rewrite M in H; exact H.
  - rewrite app_nil_r.
    destruct (str_eqb _ (py "Next")); [injection H as <-; reflexivity|].
    destruct (skip_next_block st); cbn [is_some] in H.
    + injection H as <-. reflexivity.
    + apply classify_heads in H. rewrite M, app_nil_r in H. exact H.
Qed.

Lemma headers_of_app a b : headers_of (a ++ b) = headers_of a ++ headers_of b.
Proof.
  induction a as [|l a IH]; simpl; [reflexivity|].
  destruct (re_match _ _); simpl; rewrite IH; reflexivity.
Qed.

Lemma run_heads lines : forall st st',
  run st lines = Ok st' ->
  List.map head_of (all_entries st')
  = List.map head_of (all_entries st) ++ headers_of lines.
Proof.
  induction lines as [|l lines IH]; intros st st' H.
  - injection H as <-. rewrite app_nil_r. reflexivity.
  - cbn [run] in H. destruct (step st l) as [st1|] eqn:E; [|discriminate].
    cbn [bind] in H. rewrite (IH _ _ H), (step_heads _ _ _ E), <- app_assoc.
    change (l :: lines) with ([l] ++ lines). rewrite headers_of_app.
    reflexivity.
Qed.

Lemma finish_heads st es :
  finish st = Ok es -> List.map head_of es = List.map head_of (all_entries st).
Proof.
  unfold finish, all_entries. intros H.
  destruct (current st) as [cur|]; [|injection H as <-; rewrite app_nil_r; reflexivity].
  destruct (flush cur _ _) as [[c a]|] eqn:F; [|discriminate].
  injection H as <-. cbn [fst]. rewrite !map_app. cbn [List.map].
  rewrite (flush_head _ _ _ _ _ F). reflexivity.
Qed.

(** One entry per version header, in the order of the header lines. *)
Lemma parse_heads lines es :
  parse_markdown_changelog lines = Ok es ->
  List.map head_of es = headers_of lines.
Proof.
  unfold parse_markdown_changelog. intros H.
  destruct (run initial lines) as [st|] eqn:R; [|discriminate].
  cbn [bind] in H.
  rewrite (finish_heads _ _ H), (run_heads _ _ _ R). reflexivity.
Qed.

Lemma headers_of_shape lines :
  Forall (fun vd => date_shape (snd vd) = true) (headers_of lines).
Proof.
  induction lines as [|l lines IH]; simpl; [constructor|].
  destruct (re_match _ _) as [m|] eqn:M; [|exact IH].
  constructor; [|exact IH].
  apply match_header_shape in M.
  destruct M as ((ws1 & ws2 & _ & _ & _ & _ & _ & _ & _ & D) & _). exact D.
Qed.

(** Every date the parser stores has the shape the header pattern asks for. *)
Lemma parse_date_shape lines es e :
  parse_markdown_changelog lines = Ok es -> In e es ->
  date_shape (date e) = true.
Proof.
  intros P I. apply parse_heads in P.
  pose proof (headers_of_shape lines) as F. rewrite <- P in F.
  rewrite Forall_forall in F.
  apply (F (head_of e)). apply in_map. exact I.
Qed.

Lemma step_header_current st raw st' m :
  re_match version_header_re (rstrip_newline raw) = Some m ->
  step st raw = Ok st' ->
  current st' = Some {| version := group m 1; date := group m 2;
                        sections := [] |}
  /\ current_section st' = None.
Proof.
  intros M H.
  assert (V : is_version_header raw = true)
    by (unfold is_version_header; rewrite M; reflexivity).
  pose proof (header_not_next raw V) as N. unfold is_next in N.
  unfold step in H. rewrite N, M in H. cbn [is_some] in H.
  assert (K : forall s, classify s (rstrip_newline raw) = Ok st' ->
              current st' = Some {| version := group m 1; date := group m 2;
                                    sections := [] |}
              /\ current_section st' = None).
  { intros s K. unfold classify in K. rewrite M in K.
    destruct (match current s with Some _ => _ | None => _ end);
      [|discriminate].
    injection K as <-. split; reflexivity. }
  destruct (skip_next_block st); apply K in H; exact H.
Qed.

(** C6 (amended). A line opens a new entry exactly when it starts with the
    shape [fping <version> (<YYYY-MM-DD>)]: the word, whitespace, digits
    and dots, whitespace, and the date of four, two and two decimal digits
    in parentheses; whatever follows the closing parenthesis is ignored.
    The entry opened holds that version and that date. *)
Theorem version_header_iff_shape_prefix (st st' : state) (raw : str) :
  step st raw = Ok st' ->
  (opens_entry st st'
   <-> exists ver d rest, header_shape (rstrip_newline raw) ver d rest)
  /\ (forall ver d rest,
        header_shape (rstrip_newline raw) ver d rest ->
        current st' = Some {| version := ver; date := d; sections := [] |}).
Proof.
  intros H. pose proof (step_entry_count st raw st' H) as Cn.
  unfold opens_entry, is_version_header in *.
  split; [split|].
  - intros O.
    destruct (re_match version_header_re (rstrip_newline raw)) as [m|] eqn:M;
      cbn [is_some] in Cn; [|lia].
    apply match_header_shape in M. destruct M as [M _]. eauto.
  - intros (ver & d & rest & S). apply header_shape_match in S.
    rewrite S in Cn. cbn [is_some] in Cn. lia.
  - intros ver d rest S. apply header_shape_match in S.
    apply (step_header_current st raw st' _ S H).
Qed.

(** C6, as stated, fails: text after the closing parenthesis does not stop
    a line from opening an entry. *)
Lemma header_with_trailing_text_opens_entry :
  exists st',
    step initial (line "fping 5.1 (2024-03-10) released") = Ok st'
    /\ opens_entry initial st'
    /\ ~ exact_header_shape
           (rstrip_newline (line "fping 5.1 (2024-03-10) released")).
Proof.
  eexists. split; [vm_compute; reflexivity|]. split; [reflexivity|].
  intros (ver & d & S). apply header_shape_match in S.
  vm_compute in S. discriminate.
Qed.

(* ================================================================== *)
(** ** The order of sections and items *)

Lemma existsb_str_eqb_in t l : existsb (str_eqb t) l = true <-> In t l.
Proof.
  rewrite existsb_exists. split.
  - intros (x & I & E). apply str_eqb_eq in E. subst x. exact I.
  - intros I. exists t. split; [exact I | apply str_eqb_refl].
Qed.

Lemma keys_dict_set d t v : keys (dict_set d t v) = add_title (keys d) t.
Proof.
  unfold add_title. destruct (existsb (str_eqb t) (keys d)) eqn:E.
  - apply keys_dict_set_in, existsb_str_eqb_in, E.
  - apply keys_dict_set_new. intros I.
    apply existsb_str_eqb_in in I. congruence.
Qed.

Lemma commit_keys cur s a cur' :
  commit cur s a = Ok cur' -> keys (sections cur') = keys (sections cur).
Proof.
  unfold commit, dict_append.
  destruct (dict_get (sections cur) s) as [v|] eqn:G; [|discriminate].
  cbn [bind]. intros [= <-]. cbn [sections].
  apply keys_dict_set_in. apply (dict_get_keys _ _ _ G).
Qed.

Lemma flush_keys cur sec acc cur' acc' :
  flush cur sec acc = Ok (cur', acc') ->
  keys (sections cur') = keys (sections cur).
Proof.
  unfold flush. intros H.
  destruct acc as [a|]; [|injection H as <- _; reflexivity].
  destruct sec as [s|]; [|injection H as <- _; reflexivity].
  destruct (nonempty a && nonempty s)%bool; [|injection H as <- _; reflexivity].
  destruct (commit cur s a) as [c|] eqn:E; [|discriminate].
  injection H as <- _. apply (commit_keys _ _ _ _ E).
Qed.

(** What one line does to the keys of the open entry when it is neither a
    version header nor skipped. *)
Lemma classify_keys st line st' :
  re_match version_header_re line = None ->
  classify st line = Ok st' ->
  List.map section_keys (entries st') = List.map section_keys (entries st)
  /\ skip_next_block st' = skip_next_block st
  /\ option_map section_keys (current st')
     = option_map
         (fun k => match re_match section_re line with
                   | Some m => add_title k (strip (group m 1))
                   | None => k
                   end)
         (option_map section_keys (current st)).
Proof.
  unfold classify, continuation_or_blank. intros V H. rewrite V in H.
  destruct (current st) as [cur|] eqn:C;
    break_step H; try discriminate; cbn [bind fst snd] in *;
    repeat match goal with
      | E : Ok _ = Ok _ |- _ => inversion E; subst; clear E
      end;
    repeat match goal with
      | p : (entry * option str)%type |- _ => destruct p
      end;
    cbn [entries current skip_next_block fst snd option_map];
    try rewrite C; cbn [option_map];
    repeat match goal with
      | E : flush _ _ _ = Ok _ |- _ => apply flush_keys in E
      | E : commit _ _ _ = Ok _ |- _ => apply commit_keys in E
      end;
    unfold section_keys; cbn [sections]; rewrite ?keys_dict_set;
    repeat split; congruence.
Qed.

Lemma classify_header_keys st line st' m :
  re_match version_header_re line = Some m ->
  classify st line = Ok st' ->
  List.map section_keys (entries st') = List.map section_keys (all_entries st)
  /\ skip_next_block st' = skip_next_block st
  /\ option_map section_keys (current st') = Some [].
Proof.
  unfold classify, all_entries. intros V H. rewrite V in H.
  destruct (current st) as [cur|] eqn:C.
  - destruct (flush cur _ _) as [[c a]|] eqn:F; [|discriminate].
    cbn [bind fst snd] in H. injection H as <-.
    cbn [entries current skip_next_block option_map]. repeat split.
    rewrite !map_app. cbn [List.map]. unfold section_keys.
    rewrite (flush_keys _ _ _ _ _ F). reflexivity.
  - cbn [bind fst snd] in H. injection H as <-.
    cbn [entries current skip_next_block option_map]. repeat split.
    rewrite app_nil_r. reflexivity.
Qed.

Lemma not_header_unfold raw :
  is_version_header raw = false ->
  re_match version_header_re (rstrip_newline raw) = None.
Proof.
  unfold is_version_header. destruct (re_match _ _); [discriminate | reflexivity].
Qed.

Lemma step_key_trace st l st1 rest :
  step st l = Ok st1 -> key_trace st1 rest = key_trace st (l :: rest).
Proof.
  intros H. unfold key_trace. cbn [block_titles entry_titles].
  destruct (is_next l) eqn:N.
  { rewrite (step_next st l N) in H. injection H as <-.
    destruct (is_version_header l) eqn:V;
      [rewrite (header_not_next l V) in N; discriminate|].
    reflexivity. }
  destruct (is_version_header l) eqn:V.
  { assert (K : exists s, classify s (rstrip_newline l) = Ok st1
                          /\ all_entries s = all_entries st
                          /\ skip_next_block s = false).
    { unfold step in H. unfold is_next in N. rewrite N in H.
      unfold is_version_header in V. rewrite V in H.
      destruct (skip_next_block st) eqn:S.
      - exists (set_skip st false). auto.
      - exists st. auto. }
    destruct K as (s & K & A & S).
    unfold is_version_header in V.
    destruct (re_match version_header_re (rstrip_newline l)) as [m|] eqn:M;
      [|discriminate].
    destruct (classify_header_keys s _ st1 m M K) as (E & Sk & C).
    rewrite E, A, Sk, S.
    destruct (current st1) as [c1|]; [|discriminate].
    cbn [option_map] in C. injection C as C. rewrite C.
    unfold all_entries. rewrite map_app.
    destruct (current st) as [cur|]; cbn [List.map fold_left app];
      rewrite <- ?app_assoc; reflexivity. }
  destruct (skip_next_block st) eqn:S.
  { rewrite (step_skipped st l S V) in H. injection H as <-.
    rewrite S. reflexivity. }
  rewrite (step_classify st l N S) in H.
  destruct (classify_keys st _ st1 (not_header_unfold l V) H) as (E & Sk & C).
  rewrite E, Sk, S. f_equal. f_equal.
  unfold section_title.
  destruct (current st) as [cur|], (current st1) as [c1|];
    cbn [option_map] in C; try discriminate; [|reflexivity].
  injection C as C. rewrite C.
  destruct (re_match section_re (rstrip_newline l)); reflexivity.
Qed.

Lemma run_keys lines : forall st st',
  run st lines = Ok st' ->
  List.map section_keys (all_entries st') = key_trace st lines.
Proof.
  induction lines as [|l lines IH]; intros st st' H.
  - injection H as <-. unfold key_trace, all_entries.
    rewrite map_app, app_nil_r.
    destruct (current st); reflexivity.
  - cbn [run] in H. destruct (step st l) as [st1|] eqn:E; [|discriminate].
    cbn [bind] in H. rewrite (IH _ _ H). apply step_key_trace, E.
Qed.

Lemma finish_keys st es :
  finish st = Ok es ->
  List.map section_keys es = List.map section_keys (all_entries st).
Proof.
  unfold finish, all_entries. intros H.
  destruct (current st) as [cur|];
    [|injection H as <-; rewrite app_nil_r; reflexivity].
  destruct (flush cur _ _) as [[c a]|] eqn:F; [|discriminate].
  injection H as <-. cbn [fst]. rewrite !map_app. cbn [List.map].
  unfold section_keys. rewrite (flush_keys _ _ _ _ _ F). reflexivity.
Qed.

(** The keys of every entry are the titles of its section headers, each
    where it comes first. *)
Lemma parse_section_order lines es :
  parse_markdown_changelog lines = Ok es ->
  List.map section_keys es = List.map first_occurrences (entry_titles lines).
Proof.
  unfold parse_markdown_changelog. intros H.
  destruct (run initial lines) as [st|] eqn:R; [|discriminate].
  cbn [bind] in H.
  rewrite (finish_keys _ _ H), (run_keys _ _ _ R). reflexivity.
Qed.

Lemma items_of_set_same d t v : items_of (dict_set d t v) t = v.
Proof. unfold items_of. rewrite dict_get_set_same. reflexivity. Qed.

Lemma items_of_set_other d t u v :
  u <> t -> items_of (dict_set d t v) u = items_of d u.
Proof. intros N. unfold items_of. rewrite dict_get_set_other by exact N. reflexivity. Qed.






(* ================================================================== *)
(** ** Bullets, continuation lines and blank lines *)

Lemma first_char_not_header c r :
  char_eqb c 102 = false -> re_match version_header_re (c :: r) = None.
Proof.
  intros H. rewrite version_header_unfold. unfold version_header_fields.
  cbn -[char_eqb]. rewrite H. reflexivity.
Qed.

Lemma first_char_not_section c r :
  char_eqb c 35 = false -> re_match section_re (c :: r) = None.
Proof.
  intros H. rewrite section_match_unfold.
  cbn -[char_eqb]. rewrite H. reflexivity.
Qed.

Lemma space_not_f c : isspace c = true -> char_eqb c 102 = false.
Proof. intros H. apply not_true_is_false; intros V. char_prop. lia. Qed.

Lemma space_not_hash c : isspace c = true -> char_eqb c 35 = false.
Proof. intros H. apply not_true_is_false; intros V. char_prop. lia. Qed.

(** A line that starts with whitespace, or is empty, is neither a version
    header nor a section header. *)
Lemma indented_not_header line :
  match line with c :: _ => isspace c = true | [] => True end ->
  re_match version_header_re line = None /\ re_match section_re line = None.
Proof.
  destruct line as [|c r]; intros H.
  - split; reflexivity.
  - split; [apply first_char_not_header, space_not_f, H
           | apply first_char_not_section, space_not_hash, H].
Qed.

Lemma take_while_id p s : forallb p s = true -> take_while p s = s.
Proof.
  intros H. rewrite <- (app_nil_r s) at 1.
  rewrite take_while_app by exact H. apply app_nil_r.
Qed.

Lemma forallb_drop_while p q s :
  forallb p s = true -> forallb p (drop_while q s) = true.
Proof.
  induction s as [|c s IH]; simpl; [auto|].
  rewrite andb_true_iff. intros [Hc Hs].
  destruct (q c); [auto | simpl; rewrite Hc, Hs; reflexivity].
Qed.

Lemma drop_while_idem p s : drop_while p (drop_while p s) = drop_while p s.
Proof. apply drop_while_stop, drop_while_head. Qed.

(** On a line without a newline the continuation text is the trimmed line. *)
Lemma continuation_text_strip line :
  forallb dot line = true -> continuation_text line = strip line.
Proof.
  intros H. unfold continuation_text.
  rewrite take_while_id by (apply forallb_drop_while, H).
  unfold strip. rewrite !lstrip_drop, drop_while_idem. reflexivity.
Qed.

Lemma step_continuation st cur a raw :
  current st = Some cur -> skip_next_block st = false ->
  bullet_accumulator st = Some a ->
  is_continuation_line raw ->
  step st raw
  = Ok (set_accumulator st
          (Some (a ++ py " " ++ continuation_text (rstrip_newline raw)))).
Proof.
  intros C S A (L & N & B).
  rewrite (step_classify st raw N S).
  set (line := rstrip_newline raw) in *.
  assert (I : match line with c :: _ => isspace c = true | [] => True end).
  { destruct line as [|c r]; [exact I|]. simpl in L.
    destruct (isspace c); [reflexivity | simpl in L; lia]. }
  destruct (indented_not_header line I) as [V Sec].
  unfold classify, continuation_or_blank.
  rewrite V, C, Sec, B. cbn [is_some andb].
  rewrite continuation_match_unfold, A.
  apply Nat.leb_le in L. rewrite L. unfold matched.
  unfold set_accumulator, continuation_text. rewrite C. reflexivity.
Qed.

(** A bullet line: indentation, a dash, whitespace and the text. *)
Lemma bullet_shape_match indent gap text :
  blank indent = true -> blank gap = true -> gap <> [] ->
  stops isspace text -> forallb dot text = true ->
  re_match bullet_re (indent ++ py "-" ++ gap ++ text)
  = matched [] [text].
Proof.
  intros Bi Bg Ng St Dt. rewrite bullet_match_unfold.
  rewrite (drop_while_run isspace indent _ Bi) by reflexivity.
  change (strip_prefix (py "-") (py "-" ++ gap ++ text))
    with (Some (gap ++ text)). cbv beta iota.
  rewrite (take_while_run isspace gap text Bg St).
  rewrite (drop_while_run isspace gap text Bg St).
  apply nonempty_true in Ng. rewrite Ng.
  rewrite (take_while_id dot text Dt).
  replace (drop_while dot text) with (@nil char); [reflexivity|].
  rewrite <- (app_nil_r text) at 1.
  rewrite drop_while_app by exact Dt. reflexivity.
Qed.

Lemma bullet_shape_facts indent gap text :
  blank indent = true ->
  let line := indent ++ py "-" ++ gap ++ text in
  re_match version_header_re line = None
  /\ re_match section_re line = None
  /\ str_eqb (strip line) (py "Next") = false.
Proof.
  intros Bi line. subst line. repeat split.
  - destruct indent as [|c r].
    + apply first_char_not_header. reflexivity.
    + apply first_char_not_header, space_not_f.
      unfold blank in Bi. simpl in Bi. apply andb_true_iff in Bi. apply Bi.
  - destruct indent as [|c r].
    + apply first_char_not_section. reflexivity.
    + apply first_char_not_section, space_not_hash.
      unfold blank in Bi. simpl in Bi. apply andb_true_iff in Bi. apply Bi.
  - apply (not_next_by_first _ 45 (gap ++ text)); [|reflexivity].
    apply (drop_while_run isspace indent _ Bi). reflexivity.
Qed.

Lemma step_bullet st cur sec raw indent gap text :
  current st = Some cur -> skip_next_block st = false ->
  current_section st = Some sec -> nonempty sec = true ->
  rstrip_newline raw = indent ++ py "-" ++ gap ++ text ->
  blank indent = true -> blank gap = true -> gap <> [] ->
  stops isspace text -> forallb dot text = true ->
  step st raw =
  cur' <- match bullet_accumulator st with
          | Some a => if nonempty a then commit cur sec a else Ok cur
          | None => Ok cur
          end ;;
  Ok {| entries := entries st; current := Some cur';
        current_section := Some sec;
        skip_next_block := false;
        bullet_accumulator := Some text |}.
Proof.
  intros C S Cs Ns E Bi Bg Ng St Dt.
  destruct (bullet_shape_facts indent gap text Bi) as (V & Sec & N).
  unfold step. rewrite E, N, S.
  unfold classify. rewrite V, C, Sec.
  rewrite (bullet_shape_match indent gap text Bi Bg Ng St Dt).
  unfold matched. rewrite Cs. cbn [is_some truthy andb]. rewrite Ns.
  unfold group. cbn [groups Nat.sub nth].
  destruct (bullet_accumulator st) as [a|]; cbn [truthy];
    [destruct (nonempty a)|]; rewrite ?S; reflexivity.
Qed.

Lemma blank_line_facts line :
  blank line = true ->
  str_eqb (strip line) (py "Next") = false
  /\ re_match version_header_re line = None
  /\ re_match section_re line = None
  /\ re_match bullet_re line = None
  /\ take_while isspace line = line
  /\ continuation_text line = [].
Proof.
  intros B.
  assert (D : drop_while isspace line = []).
  { rewrite <- (app_nil_r line) at 1. apply (drop_while_run isspace line [] B I). }
  assert (H : match line with c :: _ => isspace c = true | [] => True end).
  { destruct line as [|c r]; [exact I|]. unfold blank in B. simpl in B.
    apply andb_true_iff in B. apply B. }
  destruct (indented_not_header line H) as [V S].
  repeat split; try assumption.
  - rewrite (strip_blank line B). reflexivity.
  - rewrite bullet_match_unfold, D. reflexivity.
  - apply take_while_id, B.
  - unfold continuation_text. rewrite D. reflexivity.
Qed.

(** C10. While an item is pending, a whitespace-only line of two or more
    characters is taken as a continuation line: nothing is committed, the
    item only gains the joining space, and a continuation line after it
    still joins the same item.  A whitespace-only line of fewer than two
    characters takes the blank-line branch, which flushes the pending
    item; and a line that is neither a version header nor a section
    header clears the pending item only if it is such a line. *)
Theorem blank_continuation_keeps_pending_item
  (st : state) (cur : entry) (a raw : str) :
  current st = Some cur -> skip_next_block st = false ->
  bullet_accumulator st = Some a ->
  blank (rstrip_newline raw) = true ->
  ((2 <= length (rstrip_newline raw))%nat ->
   step st raw = Ok (set_accumulator st (Some (a ++ py " ")))
   /\ forall raw2,
        is_continuation_line raw2 ->
        run st [raw; raw2]
        = Ok (set_accumulator st
                (Some ((a ++ py " ") ++ py " "
                       ++ continuation_text (rstrip_newline raw2)))))
  /\ ((length (rstrip_newline raw) < 2)%nat ->
      step st raw =
      f <- flush cur (current_section st) (Some a) ;;
      Ok {| entries := entries st; current := Some (fst f);
            current_section := current_section st;
            skip_next_block := false;
            bullet_accumulator := snd f |})
  /\ (forall l st',
        step st l = Ok st' ->
        is_version_header l = false -> section_title l = None ->
        bullet_accumulator st' = None ->
        blank (rstrip_newline l) = true
        /\ (length (rstrip_newline l) < 2)%nat).
Proof.
  intros C S A B.
  destruct (blank_line_facts _ B) as (N & V & Sec & Bu & T & Ct).
  split; [|split].
  - intros L.
    assert (K : is_continuation_line raw).
    { unfold is_continuation_line, is_next. rewrite T. auto. }
    pose proof (step_continuation st cur a raw C S A K) as E.
    rewrite Ct, app_nil_r in E. split; [exact E|].
    intros raw2 K2. cbn [run]. rewrite E. cbn [bind].
    rewrite (step_continuation (set_accumulator st (Some (a ++ py " ")))
               cur (a ++ py " ") raw2 C S eq_refl K2).
    reflexivity.
  - intros L. unfold step. rewrite N, S.
    unfold classify, continuation_or_blank.
    rewrite V, C, Sec, Bu. cbn [is_some andb].
    rewrite continuation_match_unfold, T.
    apply Nat.leb_gt in L. rewrite L, A, S.
    rewrite (strip_blank _ B). reflexivity.
  - clear raw B N V Sec Bu T Ct. intros l st' H V Sec Z.
    assert (X : forall s, bullet_accumulator s = Some a -> Ok s = Ok st' ->
                blank (rstrip_newline l) = true
                /\ (length (rstrip_newline l) < 2)%nat).
    { intros s As [= <-]. congruence. }
    unfold step in H.
    destruct (str_eqb _ (py "Next")); [apply (X (set_skip st true) A H)|].
    rewrite S in H. unfold classify in H.
    rewrite (not_header_unfold l V), C in H.
    unfold section_title in Sec.
    destruct (re_match section_re (rstrip_newline l)); [discriminate|].
    destruct (is_some _ && truthy _)%bool.
    { destruct (re_match bullet_re _); [|apply (X _ A H)].
      destruct (current_section st); [|apply (X _ A H)].
      destruct (if truthy _ then _ else _); [|discriminate].
      cbn [bind] in H. injection H as <-. discriminate. }
    unfold continuation_or_blank in H. rewrite A in H.
    rewrite continuation_match_unfold in H.
    destruct (2 <=? length (take_while isspace (rstrip_newline l)))%nat eqn:L.
    { unfold matched in H. injection H as <-. discriminate. }
    destruct (str_eqb (strip (rstrip_newline l)) []) eqn:E;
      [|apply (X _ A H)].
    apply str_eqb_eq, blank_strip in E. split; [exact E|].
    apply Nat.leb_gt in L. rewrite (take_while_id _ _ E) in L. exact L.
Qed.

Lemma rstrip_strip s : rstrip (strip s) = strip s.
Proof. unfold strip, rstrip. apply rstrip_by_idem. Qed.

(** Trimming leaves alone a string that starts and ends with characters
    that are no whitespace. *)
Lemma strip_joined text middle last :
  text <> [] -> stops isspace text -> last <> [] -> rstrip last = last ->
  strip (text ++ middle ++ last) = text ++ middle ++ last.
Proof.
  intros Nt St Nl Rl. unfold strip. rewrite lstrip_drop.
  rewrite drop_while_stop
    by (destruct text as [|c r]; [congruence | exact St]).
  unfold rstrip in *. rewrite app_assoc, rstrip_by_app, Rl by congruence.
  rewrite <- app_assoc. reflexivity.
Qed.

(** C2 (amended). A bullet line followed by two continuation lines leaves
    as pending item the bullet text, a space, the trimmed first
    continuation, a space and the trimmed second continuation; the item
    committed (here at the end of the input) is that string trimmed as a
    whole.  Whitespace at the end of the bullet text is therefore kept
    inside the item.  The item is the three trimmed pieces joined by
    single spaces when the bullet text is not empty and does not end in
    whitespace and the second continuation is not blank. *)
Theorem bullet_with_two_continuations
  (st : state) (cur : entry) (sec indent gap text b l1 l2 : str) :
  wf st -> current st = Some cur -> skip_next_block st = false ->
  current_section st = Some sec -> nonempty sec = true ->
  rstrip_newline b = indent ++ py "-" ++ gap ++ text ->
  blank indent = true -> blank gap = true -> gap <> [] ->
  stops isspace text -> forallb dot text = true ->
  is_continuation_line l1 -> single_line l1 ->
  is_continuation_line l2 -> single_line l2 ->
  let pending := text ++ py " " ++ strip (rstrip_newline l1)
                 ++ py " " ++ strip (rstrip_newline l2) in
  exists st3 cur3 older,
    run st [b; l1; l2] = Ok st3
    /\ bullet_accumulator st3 = Some pending
    /\ finish st3 = Ok (entries st ++ [cur3])
    /\ items_of (sections cur3) sec = older ++ [strip pending]
    /\ (text <> [] -> strip text = text ->
        strip (rstrip_newline l2) <> [] ->
        strip pending
        = join (py " ") [strip text; strip (rstrip_newline l1);
                         strip (rstrip_newline l2)]).
Proof.
  intros W C S Cs Ns E Bi Bg Ng St Dt K1 D1 K2 D2 pending.
  pose proof (wf_flush_arg st cur W C sec Cs) as Hin.
  assert (B1 : exists cur1,
             match bullet_accumulator st with
             | Some a => if nonempty a then commit cur sec a else Ok cur
             | None => Ok cur
             end = Ok cur1
             /\ keys (sections cur1) = keys (sections cur)).
  { destruct (bullet_accumulator st) as [a|]; [|eauto].
    destruct (nonempty a); [|eauto].
    destruct (commit cur sec a) as [c|] eqn:Ec.
    - exists c. split; [reflexivity | apply (commit_keys _ _ _ _ Ec)].
    - destruct (commit_ok cur sec a Hin) as (v & _ & Ev). congruence. }
  destruct B1 as (cur1 & B1 & Keys).
  set (st1 := {| entries := entries st; current := Some cur1;
                 current_section := Some sec; skip_next_block := false;
                 bullet_accumulator := Some text |}).
  assert (R : run st [b; l1; l2] = Ok (set_accumulator st1 (Some pending))).
  { cbn [run].
    rewrite (step_bullet st cur sec b indent gap text C S Cs Ns E Bi Bg Ng St Dt).
    rewrite B1. cbn [bind].
    erewrite step_continuation; [|reflexivity|reflexivity|reflexivity|exact K1].
    cbn [bind].
    erewrite step_continuation; [|reflexivity|reflexivity|reflexivity|exact K2].
    cbn [bind]. rewrite !continuation_text_strip by assumption.
    unfold set_accumulator. cbn [entries current current_section skip_next_block].
    subst pending. rewrite <- !app_assoc. reflexivity. }
  assert (Hin1 : In sec (keys (sections cur1))) by (rewrite Keys; exact Hin).
  destruct (commit_ok cur1 sec pending Hin1) as (v & Gv & Ev).
  eexists. eexists. exists v.
  split; [exact R|]. split; [reflexivity|].
  split; [|split].
  - unfold finish, flush.
    cbn [set_accumulator current current_section bullet_accumulator entries st1].
    assert (Np : nonempty pending = true)
      by (subst pending; destruct text; reflexivity).
    rewrite Np, Ns. cbn [andb bind]. rewrite Ev. reflexivity.
  - cbn [sections]. apply items_of_set_same.
  - intros Nt Tt N2. rewrite Tt. cbn [join].
    subst pending.
    rewrite (app_assoc (py " ")), (app_assoc (py " " ++ _)).
    apply strip_joined; try assumption. apply rstrip_strip.
Qed.

(** C2, as stated, fails: the bullet text is not trimmed before the
    continuation texts are joined to it, so a bullet line that ends in a
    space gives an item with two spaces after the bullet text. *)
Lemma trailing_space_of_bullet_is_kept :
  parse_markdown_changelog
    [line "fping 5.1 (2024-03-10)"; line "## Changes";
     line "- a "; line "  b"; line "  c"]
  = Ok [{| version := py "5.1"; date := py "2024-03-10";
           sections := [(py "Changes", [py "a  b c"])] |}]
  /\ py "a  b c" <> join (py " ") [strip (py "a "); strip (py "b"); strip (py "c")].
Proof. split; [vm_compute; reflexivity | vm_compute; discriminate]. Qed.

(* ================================================================== *)
(** ** Dates *)

Lemma decimal_not_hyphen c : isdecimal c = true -> char_eqb c 45 = false.
Proof.
  unfold isdecimal; rewrite existsb_exists; intros (b & Hb & Hin).
  apply not_true_is_false; intros H.
  unfold decimal_blocks in Hb; simpl in Hb.
  char_prop.
  repeat (destruct Hb as [<- | Hb]; [lia|]); contradiction.
Qed.

Lemma decimal_not_blank c : isdecimal c = true -> char_eqb c 32 = false.
Proof.
  intros H. apply decimal_not_space in H.
  apply not_true_is_false; intros E. apply N.eqb_eq in E. subst c.
  discriminate.
Qed.

Ltac split_atoms :=
  repeat match goal with
    | |- context [char_eqb ?c ?k] => is_var c; destruct (char_eqb c k)
    | |- context [in_range ?a ?b ?c] => is_var c; destruct (in_range a b c)
    end.

(** [strptime] on a string of the shape the parser stores: the pattern
    accepts the month and the day or the call raises; the year is never
    refused by the pattern. *)
Lemma strptime_on_shape y1 y2 y3 y4 m1 m2 d1 d2 :
  forallb isdecimal [y1; y2; y3; y4; m1; m2; d1; d2] = true ->
  strptime [y1; y2; y3; y4; 45; m1; m2; 45; d1; d2] =
  if (month_ok m1 m2 && day_ok d1 d2)%bool then
    y <- py_int [y1; y2; y3; y4] ;;
    m <- py_int [m1; m2] ;;
    d <- py_int [d1; d2] ;;
    make_date y m d
  else Raise ValueError.
Proof.
  cbn [forallb]. rewrite !andb_true_iff.
  intros (Y1 & Y2 & Y3 & Y4 & M1 & M2 & D1 & D2 & _).
  unfold strptime, re_match, strptime_re, month_ok, day_ok.
  cbn -[isdecimal char_eqb in_range N.leb N.eqb matched py_int make_date].
  rewrite Y1, Y2, Y3, Y4, D2.
  rewrite (decimal_not_hyphen m2 M2), (decimal_not_blank d1 D1).
  change (char_eqb 45 45) with true. cbv iota.
  split_atoms; reflexivity.
Qed.

Lemma rstrip_by_none p s :
  forallb (fun c => negb (p c)) s = true -> rstrip_by p s = s.
Proof.
  induction s as [|c s IH]; [reflexivity|].
  cbn [forallb]. rewrite andb_true_iff, negb_true_iff. intros [Hc Hs].
  rewrite rstrip_by_cons, (IH Hs), Hc. destruct s; reflexivity.
Qed.

Lemma strip_digits s : forallb isdecimal s = true -> strip s = s.
Proof.
  intros H.
  assert (K : forallb (fun c => negb (isspace c)) s = true).
  { rewrite forallb_forall in *. intros c I.
    rewrite (decimal_not_space c (H c I)). reflexivity. }
  unfold strip, rstrip. rewrite lstrip_drop.
  rewrite drop_while_stop.
  - apply rstrip_by_none, K.
  - destruct s as [|c r]; [exact I|].
    simpl in K. apply andb_true_iff in K. apply negb_true_iff, K.
Qed.

Lemma py_int_digits s :
  s <> [] -> forallb isdecimal s = true ->
  py_int s = Ok (fold_left (fun acc c => 10 * acc + digit_value c) s 0).
Proof.
  intros N H. unfold py_int. rewrite (strip_digits s H), H.
  apply nonempty_true in N. rewrite N. reflexivity.
Qed.

Lemma multiple_of_multiple y a b :
  y mod (a * b) = 0 -> y mod b = 0.
Proof.
  intros H. apply N.Div0.mod_divides in H. destruct H as [c ->].
  replace (a * b * c) with (a * c * b) by lia. apply N.Div0.mod_mul.
Qed.

Lemma month_lengths_agree y m :
  1 <= m <= 12 -> days_in_month y m = month_length y m.
Proof.
  intros H. unfold days_in_month, month_length, is_leap.
  assert (K : m = 1 \/ m = 2 \/ m = 3 \/ m = 4 \/ m = 5 \/ m = 6 \/ m = 7
              \/ m = 8 \/ m = 9 \/ m = 10 \/ m = 11 \/ m = 12) by lia.
  destruct K as [-> | [-> | [-> | [-> | [-> | [-> | [-> | [-> | [-> | [->
    | [-> | ->]]]]]]]]]]]; try reflexivity.
  cbn [N.eqb Pos.eqb andb].
  destruct (y mod 400 =? 0) eqn:E400, (y mod 100 =? 0) eqn:E100,
    (y mod 4 =? 0) eqn:E4; try reflexivity;
    rewrite ?N.eqb_eq, ?N.eqb_neq in *; exfalso.
  - apply E4, (multiple_of_multiple y 25 4), E100.
  - apply E100, (multiple_of_multiple y 4 100), E400.
Qed.

Lemma make_date_calendar y m d :
  (exists dt, make_date y m d = Ok dt) <-> calendar_date (y, m, d) = true.
Proof.
  unfold make_date, calendar_date.
  destruct ((1 <=? m) && (m <=? 12))%bool eqn:M.
  - rewrite month_lengths_agree
      by (apply andb_true_iff in M; rewrite !N.leb_le in M; lia).
    destruct (_ && _ && _ && _ && _ && _)%bool; split; eauto; try discriminate.
    intros [dt H]; discriminate.
  - assert (F : forall a b c d' : bool,
               (a && b && (1 <=? m) && (m <=? 12) && c && d')%bool = false).
    { intros a b c d'. apply andb_false_iff in M.
      destruct M as [-> | ->]; destruct a, b, c, d'; try reflexivity;
        destruct (1 <=? m); reflexivity. }
    rewrite !F. split; [intros [dt H]|]; discriminate.
Qed.

Lemma date_shape_inv d :
  date_shape d = true ->
  exists y1 y2 y3 y4 m1 m2 d1 d2,
    d = [y1; y2; y3; y4; 45; m1; m2; 45; d1; d2]
    /\ forallb isdecimal [y1; y2; y3; y4; m1; m2; d1; d2] = true.
Proof.
  destruct d as [|y1 [|y2 [|y3 [|y4 [|h1 [|m1 [|m2 [|h2 [|d1 [|d2 [|x d]]]]]]]]]]];
    try discriminate.
  unfold date_shape. rewrite !andb_true_iff. intros [[F H1] H2].
  apply N.eqb_eq in H1, H2. subst h1 h2.
  exists y1, y2, y3, y4, m1, m2, d1, d2. split; [reflexivity | exact F].
Qed.

Lemma year_value (f : N -> N) y1 y2 y3 y4 :
  fold_left (fun acc c => 10 * acc + f c) [y1; y2; y3; y4] 0
  = 1000 * f y1 + 100 * f y2 + 10 * f y3 + f y4.
Proof. cbn [fold_left]. lia. Qed.

Lemma two_digit_value (f : N -> N) a b :
  fold_left (fun acc c => 10 * acc + f c) [a; b] 0 = 10 * f a + f b.
Proof. cbn [fold_left]. lia. Qed.

(** [strptime] on a string of the date shape, in terms of the date it
    denotes. *)
Lemma strptime_on_date d :
  date_shape d = true ->
  exists y1 y2 y3 y4 m1 m2 d1 d2 ymd,
    d = [y1; y2; y3; y4; 45; m1; m2; 45; d1; d2]
    /\ forallb isdecimal [y1; y2; y3; y4; m1; m2; d1; d2] = true
    /\ denoted_date d = Some ymd
    /\ strptime d =
       if (month_ok m1 m2 && day_ok d1 d2)%bool
       then make_date (fst (fst ymd)) (snd (fst ymd)) (snd ymd)
       else Raise ValueError.
Proof.
  intros S. destruct (date_shape_inv d S) as
    (y1 & y2 & y3 & y4 & m1 & m2 & d1 & d2 & -> & F).
  exists y1, y2, y3, y4, m1, m2, d1, d2. eexists.
  split; [reflexivity|]. split; [exact F|].
  split; [unfold denoted_date; rewrite S; reflexivity|].
  etransitivity; [apply (strptime_on_shape _ _ _ _ _ _ _ _ F)|].
  cbn [forallb] in F. rewrite !andb_true_iff in F.
  destruct F as (Y1 & Y2 & Y3 & Y4 & M1 & M2 & D1 & D2 & _).
  rewrite !py_int_digits
    by (try discriminate; cbn [forallb];
        rewrite ?Y1, ?Y2, ?Y3, ?Y4, ?M1, ?M2, ?D1, ?D2; reflexivity).
  cbn [bind fst snd]. rewrite year_value, !two_digit_value. reflexivity.
Qed.

(** The strict parse accepts only strings that denote a calendar date. *)
Lemma strptime_denotes d dt :
  date_shape d = true -> strptime d = Ok dt -> denotes_valid_date d = true.
Proof.
  intros S H.
  destruct (strptime_on_date d S) as
    (y1 & y2 & y3 & y4 & m1 & m2 & d1 & d2 & [[y m] dd] & _ & _ & Dn & E).
  rewrite E in H. destruct (month_ok m1 m2 && day_ok d1 d2)%bool;
    [|discriminate].
  cbn [fst snd] in H. unfold denotes_valid_date. rewrite Dn.
  apply make_date_calendar. eauto.
Qed.

Lemma py_int_raises s e : py_int s = Raise e -> e = ValueError.
Proof. unfold py_int. destruct (_ && _)%bool; congruence. Qed.

Lemma make_date_raises y m d e : make_date y m d = Raise e -> e = ValueError.
Proof. unfold make_date. destruct (_ && _)%bool; congruence. Qed.

(** The only exception [strptime] raises is [ValueError]. *)
Lemma strptime_raises d e : strptime d = Raise e -> e = ValueError.
Proof.
  unfold strptime. intros H.
  destruct (re_match strptime_re d) as [found|]; [|congruence].
  destruct (nonempty (unread found)); [congruence|].
  destruct (py_int (group found 1)) as [y|] eqn:Y;
    [|apply py_int_raises in Y; cbn [bind] in H; congruence].
  destruct (py_int (group found 2)) as [m|] eqn:M;
    [|apply py_int_raises in M; cbn [bind] in H; congruence].
  destruct (py_int (group found 3)) as [dd|] eqn:D;
    [|apply py_int_raises in D; cbn [bind] in H; congruence].
  cbn [bind] in H. apply (make_date_raises _ _ _ _ H).
Qed.

Lemma ascii_digit_value c : is_ascii_digit c = true -> digit_value c = c - 48.
Proof.
  intros H. unfold digit_value, decimal_blocks. cbn [find].
  change (in_block c 48) with (is_ascii_digit c). rewrite H. reflexivity.
Qed.

Lemma month_length_bound y m : month_length y m <= 31.
Proof.
  unfold month_length.
  repeat match goal with
    | |- context [match ?x with _ => _ end] => destruct x
    | |- context [if ?b then _ else _] => destruct b
    end; lia.
Qed.

(** With ASCII digits the strict parse accepts every string of the date
    shape that denotes a calendar date. *)
Lemma strptime_ascii_complete d :
  date_shape d = true -> ascii_date d = true ->
  denotes_valid_date d = true ->
  exists dt, strptime d = Ok dt.
Proof.
  intros S A V.
  destruct (strptime_on_date d S) as
    (y1 & y2 & y3 & y4 & m1 & m2 & d1 & d2 & [[y m] dd] & -> & F & Dn & E).
  rewrite E. unfold denotes_valid_date in V. rewrite Dn in V.
  cbn [fst snd].
  unfold denoted_date in Dn. rewrite S in Dn.
  assert (Em : 10 * digit_value m1 + digit_value m2 = m) by congruence.
  assert (Ed : 10 * digit_value d1 + digit_value d2 = dd) by congruence.
  clear Dn.
  cbn [forallb] in F. rewrite !andb_true_iff in F.
  destruct F as (_ & _ & _ & _ & K1 & K2 & K3 & K4 & _).
  unfold ascii_date in A. cbn [forallb] in A. rewrite !andb_true_iff in A.
  destruct A as (_ & _ & _ & _ & _ & Am1 & Am2 & _ & Ad1 & Ad2 & _).
  assert (Ascii : forall c, isdecimal c = true ->
                    (is_ascii_digit c || char_eqb c 45)%bool = true ->
                    is_ascii_digit c = true).
  { intros c Dc Ac. rewrite (decimal_not_hyphen c Dc), orb_false_r in Ac.
    exact Ac. }
  pose proof (Ascii m1 K1 Am1) as I1. pose proof (Ascii m2 K2 Am2) as I2.
  pose proof (Ascii d1 K3 Ad1) as I3. pose proof (Ascii d2 K4 Ad2) as I4.
  rewrite (ascii_digit_value m1 I1), (ascii_digit_value m2 I2) in Em.
  rewrite (ascii_digit_value d1 I3), (ascii_digit_value d2 I4) in Ed.
  pose proof (month_length_bound y m) as Lb.
  assert (O : (month_ok m1 m2 && day_ok d1 d2)%bool = true).
  { unfold calendar_date in V. unfold month_ok, day_ok. rewrite K4.
    clear E Ascii K1 K2 K3 Am1 Am2 Ad1 Ad2. char_prop. lia. }
  rewrite O. apply make_date_calendar. exact V.
Qed.

(* ================================================================== *)
(** ** Whole runs *)

Section Runs.

Variable fill : str -> str.

Lemma format_debian_date_raises d e :
  format_debian_date d = Raise e -> e = ValueError.
Proof.
  unfold format_debian_date. destruct (strptime d) eqn:E; [discriminate|].
  cbn [bind]. intros [= <-]. apply (strptime_raises d _ E).
Qed.

Lemma generate_output_raises es e :
  In e es -> format_debian_date (date e) = Raise ValueError ->
  generate_output fill es = Raise ValueError.
Proof.
  induction es as [|e0 es IH]; [contradiction|].
  intros I R. cbn [generate_output].
  destruct (format_debian_date (date e0)) as [f|x] eqn:F.
  - destruct I as [-> | I]; [congruence|].
    cbn [bind]. rewrite (IH I R). reflexivity.
  - cbn [bind]. rewrite (format_debian_date_raises _ _ F). reflexivity.
Qed.

(** C1. The parser accepts every input, and stores dates unchecked; if
    the date of some parsed entry denotes no calendar date, formatting it
    raises [ValueError], so does the renderer, and the run ends with the
    uncaught exception: nothing on standard output and exit status 1. *)
Theorem invalid_date_fails_at_render (lines : list str) :
  exists es,
    parse_markdown_changelog lines = Ok es
    /\ forall e,
         In e es -> denotes_valid_date (date e) = false ->
         format_debian_date (date e) = Raise ValueError
         /\ generate_debian_changelog fill es = Raise ValueError
         /\ forall argv0 path fs,
              fs path = Readable lines ->
              main fill [argv0; path] fs = dies ValueError
              /\ stdout (main fill [argv0; path] fs) = []
              /\ exit_status (main fill [argv0; path] fs) = 1.
Proof.
  destruct (parse_total lines) as [es P]. exists es. split; [exact P|].
  intros e I V.
  assert (F : format_debian_date (date e) = Raise ValueError).
  { unfold format_debian_date.
    destruct (strptime (date e)) as [dt|x] eqn:E.
    - rewrite (strptime_denotes _ dt (parse_date_shape lines es e P I) E) in V.
      discriminate.
    - rewrite (strptime_raises _ _ E). reflexivity. }
  assert (G : generate_debian_changelog fill es = Raise ValueError).
  { unfold generate_debian_changelog.
    rewrite (generate_output_raises es e I F). reflexivity. }
  split; [exact F|]. split; [exact G|].
  intros argv0 path fs R. unfold main. rewrite R, P, G.
  repeat split.
Qed.

(** C9 (amended). Every date the parser returns has the shape of four
    decimal digits, a hyphen, two digits, a hyphen and two digits, where a
    decimal digit is one of any script, as the pattern's class matches
    them.  The strict parse accepts such a string only if it denotes a
    calendar date; when the digits are ASCII it accepts exactly those, so
    it then fails on calendar validity alone. *)
Theorem parsed_dates_have_shape (lines : list str) (es : list entry) (e : entry) :
  parse_markdown_changelog lines = Ok es -> In e es ->
  date_shape (date e) = true
  /\ ((exists formatted, format_debian_date (date e) = Ok formatted) ->
      denotes_valid_date (date e) = true)
  /\ (ascii_date (date e) = true ->
      denotes_valid_date (date e) = true ->
      exists formatted, format_debian_date (date e) = Ok formatted).
Proof.
  intros P I. pose proof (parse_date_shape lines es e P I) as S.
  split; [exact S|]. split.
  - intros [f F]. unfold format_debian_date in F.
    destruct (strptime (date e)) as [dt|] eqn:E; [|discriminate].
    apply (strptime_denotes _ dt S E).
  - intros A V. destruct (strptime_ascii_complete _ S A V) as [dt E].
    unfold format_debian_date. rewrite E. cbn [bind]. eauto.
Qed.

(** C9, as stated, fails: a date written with decimal digits that are not
    ASCII passes the header pattern and denotes a calendar date, yet the
    strict parse refuses it. *)
Lemma non_ascii_date_fails_on_shape :
  parse_markdown_changelog
    [py "fping 5.1 (" ++ arabic_indic_date ++ py ")" ++ [newline]]
  = Ok [{| version := py "5.1"; date := arabic_indic_date; sections := [] |}]
  /\ date_shape arabic_indic_date = true
  /\ denotes_valid_date arabic_indic_date = true
  /\ format_debian_date arabic_indic_date = Raise ValueError.
Proof. repeat split; vm_compute; reflexivity. Qed.


(** C4. When a line whose trimmed content is [Next] is followed by a
    block of lines and then the next version header, the block is
    discarded whole, and so is the [Next] line: the parser returns, and
    the program prints, what it does for the document without them, and
    parsing resumes at the version header. *)
Theorem next_block_discarded (pre block post : list str) (nxt hdr : str) :
  is_next nxt = true ->
  Forall (fun l => is_version_header l = false) block ->
  is_version_header hdr = true ->
  parse_markdown_changelog (pre ++ nxt :: block ++ hdr :: post)
  = parse_markdown_changelog (pre ++ hdr :: post)
  /\ forall argv0 path fs fs',
       fs path = Readable (pre ++ nxt :: block ++ hdr :: post) ->
       fs' path = Readable (pre ++ hdr :: post) ->
       main fill [argv0; path] fs = main fill [argv0; path] fs'.
Proof.
  intros N B H.
  pose proof (parse_without_next_block pre block post nxt hdr N B H) as P.
  split; [exact P|].
  intros argv0 path fs fs' R R'. unfold main. rewrite R, R', P. reflexivity.
Qed.

End Runs.

(* ================================================================== *)
(** ** Lines before the first version header *)

Lemma step_preamble b l :
  is_version_header l = false ->
  exists b', step (set_skip initial b) l = Ok (set_skip initial b').
Proof.
  intros H. destruct (is_next l) eqn:N.
  - rewrite (step_next _ _ N). exists true. reflexivity.
  - destruct b.
    + rewrite (step_skipped (set_skip initial true) l eq_refl H). exists true. reflexivity.
    + unfold is_next in N. unfold step. rewrite N.
      cbn [skip_next_block set_skip initial]. unfold classify.
      rewrite (not_header_unfold _ H). exists false. reflexivity.
Qed.

Lemma parse_from_skip rest : forall b,
  (st <- run (set_skip initial b) rest ;; finish st)
  = parse_markdown_changelog rest.
Proof.
  unfold parse_markdown_changelog.
  induction rest as [|l rest IH]; intros b; [reflexivity|].
  cbn [run].
  destruct (is_version_header l) eqn:H.
  - destruct b; [|reflexivity].
    rewrite (step_header_resumes initial l H). reflexivity.
  - destruct (step_preamble b l H) as [b1 ->].
    destruct (step_preamble false l H) as [b2 E2].
    change (set_skip initial false) with initial in E2. rewrite E2.
    cbn [bind]. rewrite (IH b1), (IH b2). reflexivity.
Qed.

Lemma run_preamble pre :
  Forall (fun l => is_version_header l = false) pre ->
  forall b, exists b', run (set_skip initial b) pre = Ok (set_skip initial b').
Proof.
  induction 1 as [|l pre H F IH]; intros b; [exists b; reflexivity|].
  cbn [run]. destruct (step_preamble b l H) as [b1 ->]. cbn [bind].
  apply IH.
Qed.

(** X1. What stands before the first version header leaves no trace:
    whatever the first lines are (a title, prose, section headers,
    bullets, [Next] lines), as long as none of them is a version header
    the parser returns what it returns for the document without them. *)
Theorem preamble_is_ignored (pre rest : list str) :
  Forall (fun l => is_version_header l = false) pre ->
  parse_markdown_changelog (pre ++ rest) = parse_markdown_changelog rest.
Proof.
  induction 1 as [|l pre H F IH]; [reflexivity|].
  rewrite <- IH.
  unfold parse_markdown_changelog at 1. cbn [app run].
  destruct (step_preamble false l H) as [b E].
  change (set_skip initial false) with initial in E. rewrite E.
  cbn [bind]. apply parse_from_skip.
Qed.

(* ================================================================== *)
(** ** The newline at the end of a line *)

Lemma rstrip_by_snoc p s c : p c = true -> rstrip_by p (s ++ [c]) = rstrip_by p s.
Proof.
  intros H. induction s as [|x s IH].
  - simpl. rewrite H. reflexivity.
  - cbn [app]. rewrite !rstrip_by_cons, IH. reflexivity.
Qed.

Lemma step_newline st l : step st (l ++ [newline]) = step st l.
Proof.
  unfold step, rstrip_newline. rewrite rstrip_by_snoc by reflexivity.
  reflexivity.
Qed.

Lemma run_newlines ls : forall st,
  run st (List.map (fun l => l ++ [newline]) ls) = run st ls.
Proof.
  induction ls as [|l ls IH]; intros st; [reflexivity|].
  cbn [List.map run]. rewrite step_newline.
  destruct (step st l); [apply IH | reflexivity].
Qed.

(** X2. The newline at the end of a line is removed before the line is
    looked at: a list of lines parses the same with a newline added to
    each line, so a last line that lacks its newline is read like any
    other. *)
Theorem line_terminators_do_not_matter (ls : list str) :
  parse_markdown_changelog (List.map (fun l => l ++ [newline]) ls)
  = parse_markdown_changelog ls.
Proof.
  unfold parse_markdown_changelog. rewrite run_newlines. reflexivity.
Qed.

(* ================================================================== *)
(** ** The shapes of [Next] lines, section headers and bullets *)

Lemma rstrip_by_split p s :
  exists t, s = rstrip_by p s ++ t /\ forallb p t = true.
Proof.
  induction s as [|c s (t & E & F)]; [exists []; split; reflexivity|].
  rewrite rstrip_by_cons.
  destruct (rstrip_by p s) as [|x u].
  - destruct (p c) eqn:Pc.
    + exists (c :: s). split; [reflexivity|].
      cbn [forallb]. rewrite Pc. simpl in E. rewrite E. exact F.
    + exists t. split; [simpl in *; congruence | exact F].
  - exists t. split; [cbn [app] in *; congruence | exact F].
Qed.

Lemma rstrip_by_app_all p a b :
  forallb p b = true -> rstrip_by p (a ++ b) = rstrip_by p a.
Proof.
  intros H. induction a as [|c a IH]; [apply rstrip_by_all, H|].
  cbn [app]. rewrite !rstrip_by_cons, IH. reflexivity.
Qed.

(** X3. A line is a [Next] line exactly when it is the word [Next] with
    nothing but whitespace around it: indentation and trailing blanks do
    not matter, any other character on the line does. *)
Theorem next_line_shape (raw : str) :
  is_next raw = true
  <-> exists ws1 ws2,
        rstrip_newline raw = ws1 ++ py "Next" ++ ws2
        /\ blank ws1 = true /\ blank ws2 = true.
Proof.
  unfold is_next. rewrite str_eqb_eq. set (line := rstrip_newline raw).
  split.
  - intros H. unfold strip, rstrip in H. rewrite lstrip_drop in H.
    destruct (rstrip_by_split isspace (drop_while isspace line)) as (t & E & F).
    rewrite H in E.
    exists (take_while isspace line), t.
    rewrite <- E, take_drop_while.
    repeat split; [apply take_while_all | exact F].
  - intros (ws1 & ws2 & -> & B1 & B2).
    unfold strip, rstrip. rewrite lstrip_drop.
    rewrite (drop_while_run isspace ws1 _ B1) by reflexivity.
    rewrite (rstrip_by_app_all isspace _ ws2 B2). reflexivity.
Qed.

Lemma run_then_rest_shape r :
  nonempty (take_while isspace r) = true
  <-> exists ws rest,
        r = ws ++ rest /\ ws <> [] /\ blank ws = true /\ stops isspace rest.
Proof.
  split.
  - intros H. exists (take_while isspace r), (drop_while isspace r).
    split; [symmetry; apply take_drop_while|].
    split; [apply nonempty_true, H|].
    split; [apply take_while_all | apply drop_while_head].
  - intros (ws & rest & -> & N & B & S).
    rewrite (take_while_run isspace ws rest B S). apply nonempty_true, N.
Qed.

(** X4. A line is a section header exactly when it starts with two hash
    signs followed by at least one whitespace character; its title is
    the rest of the line, trimmed.  A third hash sign, or a title that
    follows the hash signs directly, makes no section header. *)
Theorem section_header_shape (raw title : str) :
  section_title raw = Some title
  <-> exists ws rest,
        rstrip_newline raw = py "##" ++ ws ++ rest
        /\ ws <> [] /\ blank ws = true /\ stops isspace rest
        /\ title = strip (take_while dot rest).
Proof.
  unfold section_title. rewrite section_match_unfold.
  set (line := rstrip_newline raw). split.
  - destruct (strip_prefix (py "##") line) as [r|] eqn:P; [|discriminate].
    apply strip_prefix_inv in P.
    destruct (nonempty (take_while isspace r)) eqn:N; [|discriminate].
    intros [= <-].
    apply run_then_rest_shape in N.
    destruct N as (ws & rest & -> & N & B & S).
    exists ws, rest. rewrite (drop_while_run isspace ws rest B S). auto.
  - intros (ws & rest & -> & N & B & S & ->).
    rewrite strip_prefix_app.
    assert (K : nonempty (take_while isspace (ws ++ rest)) = true)
      by (apply run_then_rest_shape; exists ws, rest; auto).
    rewrite K, (drop_while_run isspace ws rest B S). reflexivity.
Qed.

(** X5. The bullet pattern matches exactly the lines made of optional
    indentation, a dash and at least one whitespace character; the text
    it captures is the rest of the line after that whitespace, with its
    trailing whitespace. *)
Theorem bullet_line_shape (line text : str) :
  (exists m, re_match bullet_re line = Some m /\ group m 1 = text)
  <-> exists indent gap rest,
        line = indent ++ py "-" ++ gap ++ rest
        /\ blank indent = true
        /\ gap <> [] /\ blank gap = true /\ stops isspace rest
        /\ text = take_while dot rest.
Proof.
  rewrite bullet_match_unfold. split.
  - intros (m & H & G).
    destruct (strip_prefix (py "-") (drop_while isspace line)) as [r|] eqn:P;
      [|discriminate].
    apply strip_prefix_inv in P.
    destruct (nonempty (take_while isspace r)) eqn:N; [|discriminate].
    injection H as <-. cbn in G. subst text.
    apply run_then_rest_shape in N.
    destruct N as (gap & rest & -> & N & B & S).
    exists (take_while isspace line), gap, rest.
    rewrite <- P, take_drop_while, (drop_while_run isspace gap rest B S).
    repeat split; try assumption. apply take_while_all.
  - intros (indent & gap & rest & -> & Bi & N & B & S & ->).
    rewrite (drop_while_run isspace indent _ Bi) by reflexivity.
    change (strip_prefix (py "-") (py "-" ++ gap ++ rest))
      with (Some (gap ++ rest)). cbv beta iota.
    assert (K : nonempty (take_while isspace (gap ++ rest)) = true)
      by (apply run_then_rest_shape; exists gap, rest; auto).
    rewrite K, (drop_while_run isspace gap rest B S).
    eexists. split; reflexivity.
Qed.

(* ================================================================== *)
(** ** Lines that leave no trace *)

(** X6. A line that starts with a character other than whitespace and a
    dash, and is neither a [Next] line, a version header nor a section
    header, changes nothing: every variable of the loop keeps its value,
    a pending item included. *)
Theorem plain_text_line_is_ignored (st : state) (raw : str) (c : char) (r : str) :
  rstrip_newline raw = c :: r ->
  isspace c = false -> char_eqb c 45 = false ->
  is_next raw = false -> is_version_header raw = false ->
  section_title raw = None ->
  step st raw = Ok st.
Proof.
  unfold is_next, is_version_header, section_title. intros E W D N V S.
  unfold step. rewrite N.
  destruct (re_match version_header_re (rstrip_newline raw)) eqn:MV;
    [discriminate|].
  destruct (re_match section_re (rstrip_newline raw)) eqn:MS; [discriminate|].
  destruct (skip_next_block st); [reflexivity|].
  unfold classify. rewrite MV, MS.
  destruct (current st) as [cur|]; [|reflexivity].
  rewrite E in *.
  assert (B : re_match bullet_re (c :: r) = None).
  { rewrite bullet_match_unfold. cbn [drop_while]. rewrite W.
    cbn -[char_eqb]. rewrite D. reflexivity. }
  assert (Cn : re_match continuation_re (c :: r) = None).
  { rewrite continuation_match_unfold. cbn [take_while]. rewrite W. reflexivity. }
  rewrite B. cbn [is_some andb]. unfold continuation_or_blank. rewrite Cn.
  assert (Dw : drop_while isspace (c :: r) = c :: r)
    by (cbn [drop_while]; rewrite W; reflexivity).
  destruct (strip_first _ _ _ Dw) as [t ->]. reflexivity.
Qed.

Lemma dash_line_ignored st line indent rest :
  truthy (current_section st) = false -> bullet_accumulator st = None ->
  line = indent ++ py "-" ++ rest -> blank indent = true ->
  re_match version_header_re line = None
  /\ str_eqb (strip line) (py "Next") = false
  /\ classify st line = Ok st.
Proof.
  intros T A -> Bi.
  assert (D : drop_while isspace (indent ++ py "-" ++ rest) = 45 :: rest)
    by (apply (drop_while_run isspace indent _ Bi); reflexivity).
  assert (N : str_eqb (strip (indent ++ py "-" ++ rest)) (py "Next") = false)
    by (apply (not_next_by_first _ 45 rest D); reflexivity).
  assert (V : re_match version_header_re (indent ++ py "-" ++ rest) = None
              /\ re_match section_re (indent ++ py "-" ++ rest) = None).
  { destruct indent as [|c r].
    - split; [apply first_char_not_header | apply first_char_not_section];
        reflexivity.
    - apply indented_not_header. unfold blank in Bi. simpl in Bi.
      apply andb_true_iff in Bi. apply Bi. }
  destruct V as [V S]. repeat split; [exact V | exact N |].
  unfold classify. rewrite V, S.
  destruct (current st) as [cur|]; [|reflexivity].
  rewrite T, andb_false_r. unfold continuation_or_blank. rewrite A.
  destruct (strip_first _ _ _ D) as [t ->].
  destruct (re_match continuation_re _); reflexivity.
Qed.

(** X7. A bullet outside a section is lost: while no section with a
    title that is not empty is current and no item is pending, a line
    whose first character after the indentation is a dash leaves every
    variable of the loop as it was. *)
Theorem bullet_outside_a_section_is_dropped (st : state) (raw indent rest : str) :
  truthy (current_section st) = false -> bullet_accumulator st = None ->
  rstrip_newline raw = indent ++ py "-" ++ rest -> blank indent = true ->
  step st raw = Ok st.
Proof.
  intros T A E Bi.
  destruct (dash_line_ignored st _ indent rest T A E Bi) as (V & N & K).
  unfold step. rewrite N.
  destruct (skip_next_block st) eqn:S; [rewrite V; reflexivity | exact K].
Qed.

(** X17. While no item is pending, only four kinds of line change
    anything: a line that is no [Next] line, no version header, no
    section header, and no bullet under a section with a title that is
    not empty, leaves every variable of the loop as it was; indented
    text and blank lines are among them. *)
Theorem line_without_a_role_is_ignored (st : state) (raw : str) :
  bullet_accumulator st = None ->
  is_next raw = false -> is_version_header raw = false ->
  section_title raw = None ->
  re_match bullet_re (rstrip_newline raw) = None
  \/ truthy (current_section st) = false ->
  step st raw = Ok st.
Proof.
  unfold is_next, is_version_header, section_title. intros A N V S B.
  unfold step. rewrite N.
  destruct (re_match version_header_re (rstrip_newline raw)) eqn:MV;
    [discriminate|].
  destruct (re_match section_re (rstrip_newline raw)) eqn:MS; [discriminate|].
  destruct (skip_next_block st); [reflexivity|].
  unfold classify. rewrite MV, MS.
  destruct (current st) as [cur|] eqn:C; [|reflexivity].
  assert (K : (is_some (re_match bullet_re (rstrip_newline raw))
               && truthy (current_section st))%bool = false).
  { destruct B as [-> | ->]; [reflexivity | apply andb_false_r]. }
  rewrite K. unfold continuation_or_blank. rewrite A.
  assert (E : (if str_eqb (strip (rstrip_newline raw)) []
               then f <- flush cur (current_section st) None ;;
                    Ok {| entries := entries st; current := Some (fst f);
                          current_section := current_section st;
                          skip_next_block := skip_next_block st;
                          bullet_accumulator := snd f |}
               else Ok st) = Ok st).
  { destruct (str_eqb _ []); [|reflexivity].
    destruct st; cbn in *. subst. reflexivity. }
  destruct (re_match continuation_re _); exact E.
Qed.

(* ================================================================== *)
(** ** Where a pending item is committed *)

Lemma flush_commits cur sec a :
  In sec (keys (sections cur)) -> nonempty a = true -> nonempty sec = true ->
  flush cur (Some sec) (Some a) = Ok (with_item cur sec a, None).
Proof.
  intros K Na Ns. unfold flush. rewrite Na, Ns. cbn [andb].
  destruct (commit_ok cur sec a K) as (v & G & ->).
  unfold with_item, items_of. rewrite G. reflexivity.
Qed.

(** X8. A pending item of the current section is committed, trimmed and
    at the end of the items of that section, by each of the five things
    that end an item: a new bullet, a section header, a version header, a
    whitespace-only line of fewer than two characters, and the end of the
    input.  After the header of another section the item is still the
    last one of its section. *)
Theorem pending_item_is_committed_by_every_terminator
    (st : state) (cur : entry) (sec a : str) :
  wf st -> current st = Some cur -> skip_next_block st = false ->
  current_section st = Some sec -> nonempty sec = true ->
  bullet_accumulator st = Some a -> nonempty a = true ->
  (forall raw indent gap text,
     rstrip_newline raw = indent ++ py "-" ++ gap ++ text ->
     blank indent = true -> blank gap = true -> gap <> [] ->
     stops isspace text -> forallb dot text = true ->
     step st raw
     = Ok {| entries := entries st; current := Some (with_item cur sec a);
             current_section := Some sec; skip_next_block := false;
             bullet_accumulator := Some text |})
  /\ (forall raw title,
        section_title raw = Some title ->
        step st raw
        = Ok {| entries := entries st;
                current :=
                  Some {| version := version cur; date := date cur;
                          sections :=
                            dict_set (sections (with_item cur sec a)) title [] |};
                current_section := Some title; skip_next_block := false;
                bullet_accumulator := None |}
        /\ (title <> sec ->
            items_of (dict_set (sections (with_item cur sec a)) title []) sec
            = items_of (sections cur) sec ++ [strip a]))
  /\ (forall raw m,
        re_match version_header_re (rstrip_newline raw) = Some m ->
        step st raw
        = Ok {| entries := entries st ++ [with_item cur sec a];
                current := Some {| version := group m 1; date := group m 2;
                                   sections := [] |};
                current_section := None; skip_next_block := false;
                bullet_accumulator := None |})
  /\ (forall raw,
        blank (rstrip_newline raw) = true ->
        (length (rstrip_newline raw) < 2)%nat ->
        step st raw
        = Ok {| entries := entries st; current := Some (with_item cur sec a);
                current_section := Some sec; skip_next_block := false;
                bullet_accumulator := None |})
  /\ finish st = Ok (entries st ++ [with_item cur sec a]).
Proof.
  intros W C S Cs Ns A Na.
  pose proof (wf_flush_arg st cur W C sec Cs) as K.
  pose proof (flush_commits cur sec a K Na Ns) as F.
  split; [|split; [|split; [|split]]].
  - intros raw indent gap text E Bi Bg Ng St Dt.
    rewrite (step_bullet st cur sec raw indent gap text C S Cs Ns E Bi Bg Ng St Dt).
    rewrite A, Na.
    destruct (commit_ok cur sec a K) as (v & G & ->).
    unfold with_item, items_of. rewrite G. reflexivity.
  - intros raw title T. unfold section_title in T.
    destruct (re_match section_re (rstrip_newline raw)) as [m|] eqn:M;
      [|discriminate].
    injection T as <-. split.
    + rewrite (step_section st cur raw m C S M).
      unfold open_section. rewrite Cs, A, F, S. reflexivity.
    + intros D. rewrite items_of_set_other by (intros X; apply D; symmetry; exact X).
      unfold with_item. cbn [sections]. apply items_of_set_same.
  - intros raw m M.
    assert (V : is_version_header raw = true)
      by (unfold is_version_header; rewrite M; reflexivity).
    pose proof (header_not_next raw V) as N.
    rewrite (step_classify st raw N S).
    unfold classify. rewrite M, C, Cs, A, F, S. reflexivity.
  - intros raw B L.
    destruct (blank_line_facts _ B) as (N & V & Sec & Bu & T & Ct).
    unfold step. rewrite N, S.
    unfold classify, continuation_or_blank.
    rewrite V, C, Sec, Bu. cbn [is_some andb].
    rewrite continuation_match_unfold, T.
    apply Nat.leb_gt in L. rewrite L, A, S, Cs.
    rewrite (strip_blank _ B), F. reflexivity.
  - unfold finish. rewrite C, Cs, A, F. reflexivity.
Qed.

(* ================================================================== *)
(** ** Entries are parsed one by one *)

Lemma classify_after_entries es st line :
  classify (after_entries es st) line
  = s <- classify st line ;; Ok (after_entries es s).
Proof.
  unfold classify, continuation_or_blank.
  cbn [after_entries entries current current_section skip_next_block
       bullet_accumulator].
  destruct (re_match version_header_re line) as [mv|].
  { destruct (current st) as [cur|].
    - destruct (flush cur _ _) as [[cur' acc']|]; [|reflexivity].
      cbn [bind fst snd]. unfold after_entries; cbn. rewrite app_assoc.
      reflexivity.
    - reflexivity. }
  destruct (current st) as [cur|]; [|reflexivity].
  destruct (re_match section_re line) as [ms|].
  { destruct (flush cur _ _) as [[cur' acc']|]; reflexivity. }
  destruct (is_some (re_match bullet_re line) && truthy (current_section st))%bool.
  { destruct (re_match bullet_re line) as [mb|]; [|reflexivity].
    destruct (current_section st) as [sec|]; [|reflexivity].
    destruct (truthy (bullet_accumulator st)); [|reflexivity].
    destruct (bullet_accumulator st) as [a|]; [|reflexivity].
    destruct (commit cur sec a); reflexivity. }
  destruct (re_match continuation_re line) as [mc|];
    [destruct (bullet_accumulator st) as [a|]; [reflexivity|]|];
    (destruct (str_eqb (strip line) []); [|reflexivity];
     destruct (flush cur _ _) as [[cur' acc']|]; reflexivity).
Qed.

Lemma step_after_entries es st raw :
  step (after_entries es st) raw = s <- step st raw ;; Ok (after_entries es s).
Proof.
  unfold step.
  destruct (str_eqb _ (py "Next")); [reflexivity|].
  cbn [after_entries skip_next_block].
  destruct (skip_next_block st).
  - destruct (is_some _); [|reflexivity].
    apply (classify_after_entries es (set_skip st false)).
  - apply classify_after_entries.
Qed.

Lemma run_after_entries es lines : forall st,
  run (after_entries es st) lines = s <- run st lines ;; Ok (after_entries es s).
Proof.
  induction lines as [|l lines IH]; intros st; [reflexivity|].
  cbn [run]. rewrite step_after_entries.
  destruct (step st l) as [st1|]; [apply IH | reflexivity].
Qed.

Lemma finish_after_entries es st :
  finish (after_entries es st) = rest <- finish st ;; Ok (es ++ rest).
Proof.
  unfold finish. cbn [after_entries entries current current_section
                      bullet_accumulator].
  destruct (current st) as [cur|]; [|reflexivity].
  destruct (flush cur _ _) as [[cur' acc']|]; [|reflexivity].
  cbn [bind fst]. rewrite app_assoc. reflexivity.
Qed.

(** A version header closes the entries read so far exactly as the end of
    the input would, and starts afresh if no item is left pending. *)
Lemma step_header_closes st raw es :
  wf st -> pending_is_committable st = true ->
  is_version_header raw = true -> finish st = Ok es ->
  exists st0,
    step initial raw = Ok st0 /\ step st raw = Ok (after_entries es st0).
Proof.
  intros W Pc V Fi.
  pose proof (header_not_next raw V) as N.
  unfold is_version_header in V.
  destruct (re_match version_header_re (rstrip_newline raw)) as [m|] eqn:M;
    [|discriminate].
  eexists. split.
  { rewrite (step_classify initial raw N eq_refl). unfold classify.
    rewrite M. reflexivity. }
  assert (E : step st raw = classify (set_skip st false) (rstrip_newline raw)).
  { unfold is_next in N. unfold step. rewrite N, M.
    destruct (skip_next_block st) eqn:S; [reflexivity|].
    rewrite <- S, set_skip_same. reflexivity. }
  rewrite E. unfold classify. rewrite M.
  cbn [set_skip entries current current_section skip_next_block
       bullet_accumulator].
  unfold finish in Fi. unfold pending_is_committable in Pc.
  destruct (current st) as [cur|] eqn:C.
  - destruct (bullet_accumulator st) as [a|] eqn:A.
    + cbn [is_some andb] in Pc. apply andb_true_iff in Pc.
      destruct Pc as [Na T].
      destruct (current_section st) as [sec|] eqn:Cs; [|discriminate].
      cbn [truthy] in T.
      pose proof (wf_flush_arg st cur W C sec Cs) as K.
      rewrite (flush_commits cur sec a K Na T) in *.
      cbn [bind fst snd] in *. injection Fi as <-.
      unfold after_entries; cbn. rewrite app_nil_r. reflexivity.
    + destruct (current_section st); cbn [flush bind fst snd] in *;
        injection Fi as <-; unfold after_entries; cbn;
        rewrite app_nil_r; reflexivity.
  - injection Fi as <-.
    destruct (bullet_accumulator st) as [a|]; [discriminate|].
    cbn [bind fst snd]. unfold after_entries; cbn. rewrite app_nil_r.
    reflexivity.
Qed.

(** X9. A version header splits the document: if the lines before it
    leave no pending item that cannot be committed, the parser returns for
    the whole document the entries of the lines before the header followed
    by the entries of the lines from the header on. *)
Theorem entries_are_parsed_one_by_one (before after : list str) (hdr : str)
    (st : state) (es_before es_after : list entry) :
  run initial before = Ok st -> pending_is_committable st = true ->
  is_version_header hdr = true ->
  parse_markdown_changelog before = Ok es_before ->
  parse_markdown_changelog (hdr :: after) = Ok es_after ->
  parse_markdown_changelog (before ++ hdr :: after)
  = Ok (es_before ++ es_after).
Proof.
  unfold parse_markdown_changelog. intros R Pc V Pb Pa.
  rewrite R in Pb. cbn [bind] in Pb.
  destruct (run_ok before initial I) as (st' & R' & W).
  rewrite R in R'. injection R' as <-.
  destruct (step_header_closes st hdr es_before W Pc V Pb) as (st0 & E0 & E).
  rewrite run_app, R. cbn [bind run] in *. rewrite E. rewrite E0 in Pa.
  cbn [bind] in *. rewrite run_after_entries.
  destruct (run st0 after) as [st1|]; [|discriminate].
  cbn [bind] in *. rewrite finish_after_entries, Pa. reflexivity.
Qed.

(* ================================================================== *)
(** ** What the parser returns *)

Lemma headers_of_in lines vd :
  In vd (headers_of lines) ->
  exists l rest,
    In l lines /\ header_shape (rstrip_newline l) (fst vd) (snd vd) rest.
Proof.
  induction lines as [|l lines IH]; cbn [headers_of]; [intros []|].
  destruct (re_match _ _) as [m|] eqn:M.
  - intros [<- | I].
    + exists l, (unread m). split; [left; reflexivity|].
      apply (match_header_shape _ _ M).
    + destruct (IH I) as (l' & rest & I' & S). exists l', rest.
      split; [right; exact I' | exact S].
  - intros I. destruct (IH I) as (l' & rest & I' & S). exists l', rest.
    split; [right; exact I' | exact S].
Qed.

(** X10. Every entry the parser returns takes its version and its date
    from a version header line of the input; its version is a string of
    ASCII digits and dots that is not empty. *)
Theorem entries_come_from_header_lines (lines : list str) (es : list entry)
    (e : entry) :
  parse_markdown_changelog lines = Ok es -> In e es ->
  (exists l rest,
     In l lines /\ header_shape (rstrip_newline l) (version e) (date e) rest)
  /\ version e <> []
  /\ forallb version_char (version e) = true.
Proof.
  intros P I. apply parse_heads in P.
  apply (in_map head_of) in I. rewrite P in I.
  destruct (headers_of_in _ _ I) as (l & rest & L & S).
  cbn [head_of fst snd] in S.
  split; [exists l, rest; split; assumption|].
  destruct S as (ws1 & ws2 & _ & _ & _ & V & F & _). split; assumption.
Qed.

Lemma add_title_nodup seen t : NoDup seen -> NoDup (add_title seen t).
Proof.
  intros N. unfold add_title.
  destruct (existsb (str_eqb t) seen) eqn:E; [exact N|].
  apply NoDup_app; [exact N | repeat constructor; intros [] |].
  intros x Hx [<- | []].
  rewrite <- existsb_str_eqb_in in Hx. congruence.
Qed.

Lemma first_occurrences_nodup ts : NoDup (first_occurrences ts).
Proof.
  unfold first_occurrences.
  assert (G : forall seen, NoDup seen -> NoDup (fold_left add_title ts seen)).
  { induction ts as [|t ts IH]; intros seen N; [exact N|].
    apply IH, add_title_nodup, N. }
  apply G. constructor.
Qed.

(** X11. Within an entry no section title is a key twice, however often
    its header comes in the document. *)
Theorem section_titles_are_distinct (lines : list str) (es : list entry) (e : entry) :
  parse_markdown_changelog lines = Ok es -> In e es ->
  NoDup (section_keys e).
Proof.
  intros P I. apply parse_section_order in P.
  apply (in_map section_keys) in I. rewrite P in I.
  apply in_map_iff in I. destruct I as (ts & <- & _).
  apply first_occurrences_nodup.
Qed.

Lemma strip_idem s : strip (strip s) = strip s.
Proof.
  unfold strip at 2 3. unfold rstrip. rewrite (lstrip_drop s).
  destruct (drop_while isspace s) as [|c r] eqn:E; [reflexivity|].
  pose proof (drop_while_head isspace s) as D. rewrite E in D.
  destruct (rstrip_by_head isspace c r D) as [t Ht].
  unfold strip, rstrip. rewrite Ht. cbn [lstrip]. rewrite D.
  rewrite <- Ht. apply rstrip_by_idem.
Qed.

Lemma trimmed_dict_set d k v :
  trimmed_sections d -> trimmed k -> Forall trimmed v ->
  trimmed_sections (dict_set d k v).
Proof.
  intros D K V. induction D as [|[k0 v0] d [K0 V0] D IH]; simpl.
  - repeat constructor; assumption.
  - destruct (str_eqb k0 k); constructor; auto.
Qed.

Lemma trimmed_dict_get d k v :
  trimmed_sections d -> dict_get d k = Ok v -> Forall trimmed v.
Proof.
  intros D. induction D as [|[k0 v0] d [K0 V0] D IH]; simpl; [discriminate|].
  destruct (str_eqb k0 k); [intros [= <-]; exact V0 | exact IH].
Qed.

Lemma trimmed_key d k : trimmed_sections d -> In k (keys d) -> trimmed k.
Proof.
  unfold trimmed_sections, keys. rewrite Forall_forall. intros D I.
  apply in_map_iff in I. destruct I as ([k0 v0] & <- & I).
  apply (D _ I).
Qed.

Lemma commit_trimmed cur s a cur' :
  trimmed_sections (sections cur) -> commit cur s a = Ok cur' ->
  trimmed_sections (sections cur').
Proof.
  unfold commit, dict_append. intros T H.
  destruct (dict_get (sections cur) s) as [v|] eqn:G; [|discriminate].
  cbn [bind] in H. injection H as <-. cbn [sections].
  apply trimmed_dict_set; [exact T | |].
  - apply (trimmed_key _ _ T), (dict_get_keys _ _ _ G).
  - apply Forall_app. split; [apply (trimmed_dict_get _ _ _ T G)|].
    constructor; [apply strip_idem | constructor].
Qed.

Lemma flush_trimmed cur sec acc cur' acc' :
  trimmed_sections (sections cur) -> flush cur sec acc = Ok (cur', acc') ->
  trimmed_sections (sections cur').
Proof.
  unfold flush. intros T H.
  destruct acc as [a|]; [|injection H as <- _; exact T].
  destruct sec as [s|]; [|injection H as <- _; exact T].
  destruct (nonempty a && nonempty s)%bool; [|injection H as <- _; exact T].
  destruct (commit cur s a) as [c|] eqn:C; [|discriminate].
  cbn [bind] in H. injection H as <- _.
  apply (commit_trimmed _ _ _ _ T C).
Qed.

Lemma classify_trimmed st line st' :
  trimmed_state st -> classify st line = Ok st' -> trimmed_state st'.
Proof.
  unfold trimmed_state. intros [TE TC] H. unfold classify in H.
  destruct (re_match version_header_re line) as [mv|].
  { destruct (current st) as [cur|] eqn:C.
    - destruct (flush cur _ _) as [[cur' acc']|] eqn:F; [|discriminate].
      cbn [bind fst snd] in H. injection H as <-. cbn [entries current].
      split.
      + apply Forall_app. split; [exact TE|]. constructor; [|constructor].
        apply (flush_trimmed _ _ _ _ _ (TC cur eq_refl) F).
      + intros c [= <-]. constructor.
    - cbn [bind fst snd] in H. injection H as <-. cbn [entries current].
      split; [exact TE|]. intros c [= <-]. constructor. }
  destruct (current st) as [cur|] eqn:C;
    [|injection H as <-; split; [exact TE|]; rewrite C; discriminate].
  pose proof (TC cur eq_refl) as T.
  destruct (re_match section_re line) as [ms|].
  { destruct (flush cur _ _) as [[cur' acc']|] eqn:F; [|discriminate].
    cbn [bind fst snd] in H. injection H as <-. cbn [entries current].
    split; [exact TE|]. intros c [= <-]. cbn [sections].
    apply trimmed_dict_set;
      [apply (flush_trimmed _ _ _ _ _ T F) | apply strip_idem | constructor]. }
  destruct (is_some (re_match bullet_re line) && truthy (current_section st))%bool.
  { destruct (re_match bullet_re line) as [mb|];
      [|injection H as <-; split; [exact TE | rewrite C; intros c [= <-]; exact T]].
    destruct (current_section st) as [sec|];
      [|injection H as <-; split; [exact TE | rewrite C; intros c [= <-]; exact T]].
    destruct (truthy (bullet_accumulator st)).
    - destruct (bullet_accumulator st) as [a|].
      + destruct (commit cur sec a) as [c0|] eqn:K; [|discriminate].
        cbn [bind] in H. injection H as <-. cbn [entries current].
        split; [exact TE|]. intros c [= <-].
        apply (commit_trimmed _ _ _ _ T K).
      + cbn [bind] in H. injection H as <-. cbn [entries current].
        split; [exact TE|]. intros c [= <-]. exact T.
    - cbn [bind] in H. injection H as <-. cbn [entries current].
      split; [exact TE|]. intros c [= <-]. exact T. }
  unfold continuation_or_blank in H.
  assert (B : (if str_eqb (strip line) [] then
                 f <- flush cur (current_section st) (bullet_accumulator st) ;;
                 Ok {| entries := entries st;
                       current := Some (fst f);
                       current_section := current_section st;
                       skip_next_block := skip_next_block st;
                       bullet_accumulator := snd f |}
               else Ok st) = Ok st' ->
              Forall (fun e => trimmed_sections (sections e)) (entries st')
              /\ forall c, current st' = Some c -> trimmed_sections (sections c)).
  { intros H'. destruct (str_eqb (strip line) []).
    - destruct (flush cur _ _) as [[cur' acc']|] eqn:F; [|discriminate].
      cbn [bind fst snd] in H'. injection H' as <-. cbn [entries current].
      split; [exact TE|]. intros c [= <-].
      apply (flush_trimmed _ _ _ _ _ T F).
    - injection H' as <-. split; [exact TE|].
      rewrite C. intros c [= <-]. exact T. }
  destruct (re_match continuation_re line) as [mc|]; [|exact (B H)].
  destruct (bullet_accumulator st) as [a|]; [|exact (B H)].
  injection H as <-. cbn [entries current].
  split; [exact TE|]. intros c [= <-]. exact T.
Qed.

Lemma step_trimmed st raw st' :
  trimmed_state st -> step st raw = Ok st' -> trimmed_state st'.
Proof.
  unfold step. intros T H.
  destruct (str_eqb _ (py "Next")); [injection H as <-; exact T|].
  destruct (skip_next_block st).
  - destruct (is_some _); [|injection H as <-; exact T].
    apply (classify_trimmed (set_skip st false) _ _ T H).
  - apply (classify_trimmed _ _ _ T H).
Qed.

Lemma run_trimmed lines : forall st st',
  trimmed_state st -> run st lines = Ok st' -> trimmed_state st'.
Proof.
  induction lines as [|l lines IH]; intros st st' T H; cbn [run] in H.
  - injection H as <-. exact T.
  - destruct (step st l) as [st1|] eqn:E; [|discriminate].
    apply (IH st1 st' (step_trimmed _ _ _ T E) H).
Qed.

(** X12. What the parser stores is trimmed: no section title and no item
    of a returned entry starts or ends with whitespace. *)
Theorem stored_text_is_trimmed (lines : list str) (es : list entry)
    (e : entry) (title : str) (items : list str) :
  parse_markdown_changelog lines = Ok es -> In e es ->
  In (title, items) (sections e) ->
  strip title = title /\ forall x, In x items -> strip x = x.
Proof.
  unfold parse_markdown_changelog. intros P I S.
  destruct (run initial lines) as [st|] eqn:R; [|discriminate].
  cbn [bind] in P.
  assert (T0 : trimmed_state initial) by (split; [constructor | discriminate]).
  destruct (run_trimmed _ _ _ T0 R) as [TE TC].
  assert (T : trimmed_sections (sections e)).
  { unfold finish in P. destruct (current st) as [cur|].
    - destruct (flush cur _ _) as [[cur' acc']|] eqn:F; [|discriminate].
      cbn [bind fst] in P. injection P as <-.
      apply in_app_or in I. destruct I as [I | [<- | []]].
      + rewrite Forall_forall in TE. apply (TE _ I).
      + apply (flush_trimmed _ _ _ _ _ (TC cur eq_refl) F).
    - injection P as <-. rewrite Forall_forall in TE. apply (TE _ I). }
  unfold trimmed_sections in T. rewrite Forall_forall in T.
  destruct (T _ S) as [K V]. split; [exact K|].
  rewrite Forall_forall in V. exact V.
Qed.

(* ================================================================== *)
(** ** The formatted date *)

Lemma digit_values_in a : a < 10 -> In a digit_values.
Proof.
  intros H. unfold digit_values.
  assert (C : a = 0 \/ a = 1 \/ a = 2 \/ a = 3 \/ a = 4 \/ a = 5 \/ a = 6
              \/ a = 7 \/ a = 8 \/ a = 9) by lia.
  simpl. intuition.
Qed.

Lemma zero_padded_two a b :
  a < 10 -> b < 10 -> zero_padded 2 (10 * a + b) = [48 + a; 48 + b].
Proof.
  intros Ha Hb.
  assert (K : forallb (fun x => forallb (fun y =>
                str_eqb (zero_padded 2 (10 * x + y)) [48 + x; 48 + y])
                digit_values) digit_values = true)
    by (vm_compute; reflexivity).
  rewrite forallb_forall in K.
  pose proof (K a (digit_values_in a Ha)) as Kb.
  rewrite forallb_forall in Kb.
  apply str_eqb_eq, (Kb b (digit_values_in b Hb)).
Qed.

Lemma zero_padded_four a b c d :
  a < 10 -> b < 10 -> c < 10 -> d < 10 ->
  zero_padded 4 (1000 * a + 100 * b + 10 * c + d)
  = [48 + a; 48 + b; 48 + c; 48 + d].
Proof.
  intros Ha Hb Hc Hd.
  assert (K : forallb (fun x => forallb (fun y => forallb (fun z =>
                forallb (fun w =>
                  str_eqb (zero_padded 4 (1000 * x + 100 * y + 10 * z + w))
                    [48 + x; 48 + y; 48 + z; 48 + w])
                digit_values) digit_values) digit_values) digit_values = true)
    by (vm_compute; reflexivity).
  rewrite forallb_forall in K.
  pose proof (K a (digit_values_in a Ha)) as Kb. rewrite forallb_forall in Kb.
  pose proof (Kb b (digit_values_in b Hb)) as Kc. rewrite forallb_forall in Kc.
  pose proof (Kc c (digit_values_in c Hc)) as Kd. rewrite forallb_forall in Kd.
  apply str_eqb_eq, (Kd d (digit_values_in d Hd)).
Qed.

Lemma make_date_fields y m d dt :
  make_date y m d = Ok dt -> dt = {| year := y; month := m; day := d |}.
Proof. unfold make_date. destruct (_ && _)%bool; congruence. Qed.

Lemma ascii_digit_char c :
  is_ascii_digit c = true -> digit_value c < 10 /\ 48 + digit_value c = c.
Proof.
  intros H. rewrite (ascii_digit_value c H).
  unfold is_ascii_digit, in_range in H.
  apply andb_true_iff in H. rewrite !N.leb_le in H. lia.
Qed.

(** X13. For a header date of ASCII digits that formats, the formatted
    date has 31 characters: the English name of the day of the week of
    that date, a comma, the two day digits of the header, the English
    abbreviation of the month, the four year digits of the header, and
    midnight in the zone -0000. *)
Theorem formatted_date_shows_the_header_date (d formatted : str) :
  date_shape d = true -> ascii_date d = true ->
  format_debian_date d = Ok formatted ->
  exists y m dd,
    denoted_date d = Some (y, m, dd)
    /\ formatted
       = nth (N.to_nat (weekday {| year := y; month := m; day := dd |}))
           day_names []
         ++ py ", " ++ skipn 8 d ++ py " "
         ++ nth (N.to_nat (m - 1)) month_names [] ++ py " "
         ++ firstn 4 d ++ py " 00:00:00 -0000"
    /\ length formatted = 31%nat.
Proof.
  intros S A F. unfold format_debian_date in F.
  destruct (strptime d) as [dt|] eqn:E; [|discriminate].
  cbn [bind] in F. injection F as <-.
  destruct (strptime_on_date d S) as
    (y1 & y2 & y3 & y4 & m1 & m2 & d1 & d2 & [[y m] dd] & -> & K & Dn & E').
  rewrite E' in E.
  destruct (month_ok m1 m2 && day_ok d1 d2)%bool eqn:O; [|discriminate].
  cbn [fst snd] in E. pose proof (make_date_fields _ _ _ _ E) as ->.
  exists y, m, dd. split; [exact Dn|].
  unfold denoted_date in Dn. rewrite S in Dn.
  assert (Ey : 1000 * digit_value y1 + 100 * digit_value y2
               + 10 * digit_value y3 + digit_value y4 = y) by congruence.
  assert (Em : 10 * digit_value m1 + digit_value m2 = m) by congruence.
  assert (Ed : 10 * digit_value d1 + digit_value d2 = dd) by congruence.
  clear Dn E'.
  cbn [forallb] in K. rewrite !andb_true_iff in K.
  destruct K as (K1 & K2 & K3 & K4 & _ & _ & K7 & K8 & _).
  unfold ascii_date in A. cbn [forallb] in A. rewrite !andb_true_iff in A.
  destruct A as (A1 & A2 & A3 & A4 & _ & _ & _ & _ & A7 & A8 & _).
  assert (Ascii : forall c, isdecimal c = true ->
                    (is_ascii_digit c || char_eqb c 45)%bool = true ->
                    digit_value c < 10 /\ 48 + digit_value c = c).
  { intros c Dc Ac. rewrite (decimal_not_hyphen c Dc), orb_false_r in Ac.
    apply ascii_digit_char, Ac. }
  destruct (Ascii y1 K1 A1) as [L1 C1]. destruct (Ascii y2 K2 A2) as [L2 C2].
  destruct (Ascii y3 K3 A3) as [L3 C3]. destruct (Ascii y4 K4 A4) as [L4 C4].
  destruct (Ascii d1 K7 A7) as [L7 C7]. destruct (Ascii d2 K8 A8) as [L8 C8].
  assert (Zy : zero_padded 4 y = [y1; y2; y3; y4]).
  { rewrite <- Ey, zero_padded_four by assumption. congruence. }
  assert (Zd : zero_padded 2 dd = [d1; d2]).
  { rewrite <- Ed, zero_padded_two by assumption. congruence. }
  assert (Eq : format_datetime {| year := y; month := m; day := dd |}
               = nth (N.to_nat (weekday {| year := y; month := m; day := dd |}))
                   day_names []
                 ++ py ", " ++ [d1; d2] ++ py " "
                 ++ nth (N.to_nat (m - 1)) month_names [] ++ py " "
                 ++ [y1; y2; y3; y4] ++ py " 00:00:00 -0000").
  { unfold format_datetime. cbn [year month day]. rewrite Zy, Zd. reflexivity. }
  split; [exact Eq|]. rewrite Eq.
  assert (Lw : forall w, w < 7 -> length (nth (N.to_nat w) day_names []) = 3%nat).
  { intros w Hw.
    assert (C : w = 0 \/ w = 1 \/ w = 2 \/ w = 3 \/ w = 4 \/ w = 5 \/ w = 6)
      by lia.
    repeat (destruct C as [-> | C]; [reflexivity|]). subst; reflexivity. }
  assert (Lm : forall k, k < 12 -> length (nth (N.to_nat k) month_names []) = 3%nat).
  { intros k Hk.
    assert (C : k = 0 \/ k = 1 \/ k = 2 \/ k = 3 \/ k = 4 \/ k = 5 \/ k = 6
                \/ k = 7 \/ k = 8 \/ k = 9 \/ k = 10 \/ k = 11) by lia.
    repeat (destruct C as [-> | C]; [reflexivity|]). subst; reflexivity. }
  assert (Bm : m - 1 < 12).
  { unfold make_date in E.
    destruct (_ && _ && _ && _ && _ && _)%bool eqn:B; [|discriminate].
    rewrite !andb_true_iff, !N.leb_le in B. lia. }
  rewrite !length_app, Lw, (Lm _ Bm); [reflexivity|].
  unfold weekday. apply N.mod_lt. discriminate.
Qed.

(* ================================================================== *)
(** ** How a run ends *)

Section Outcomes.

Variable fill : str -> str.

(** X14. A readable file without a version header line gives no entry;
    for no entry the renderer returns the empty string, and the program
    prints an empty line and exits with status 0. *)
Theorem no_header_no_entry (lines : list str) (argv0 md_path : str)
    (fs : str -> file_status) :
  Forall (fun l => is_version_header l = false) lines ->
  fs md_path = Readable lines ->
  parse_markdown_changelog lines = Ok []
  /\ generate_debian_changelog fill [] = Ok []
  /\ main fill [argv0; md_path] fs = exits [newline] [] 0.
Proof.
  intros F R.
  assert (P : parse_markdown_changelog lines = Ok []).
  { unfold parse_markdown_changelog.
    destruct (run_preamble lines F false) as [b E].
    change (set_skip initial false) with initial in E. rewrite E.
    destruct b; reflexivity. }
  split; [exact P|]. split; [reflexivity|].
  unfold main. rewrite R, P. reflexivity.
Qed.

Lemma generate_output_ok es :
  (exists out, generate_output fill es = Ok out)
  <-> Forall (fun e => formats (date e)) es.
Proof.
  induction es as [|e es IH]; cbn [generate_output].
  - split; [constructor | eauto].
  - split.
    + intros [out H].
      destruct (format_debian_date (date e)) as [f|] eqn:F; [|discriminate].
      cbn [bind] in H.
      destruct (generate_output fill es) as [o|]; [|discriminate].
      constructor; [exists f; exact F | apply IH; eauto].
    + intros H. inversion H as [|? ? [f F] T]; subst.
      apply IH in T. destruct T as [o ->]. rewrite F. cbn [bind]. eauto.
Qed.

Lemma generate_ok_iff_headers lines es :
  parse_markdown_changelog lines = Ok es ->
  (exists text, generate_debian_changelog fill es = Ok text)
  <-> Forall (fun vd => formats (snd vd)) (headers_of lines).
Proof.
  intros P. apply parse_heads in P. rewrite <- P.
  rewrite Forall_map. cbn [head_of snd].
  rewrite <- generate_output_ok. unfold generate_debian_changelog.
  split; intros [x H].
  - destruct (generate_output fill es); [eauto | discriminate].
  - rewrite H. cbn [bind]. eauto.
Qed.

Lemma generate_raises es e :
  generate_debian_changelog fill es = Raise e -> e = ValueError.
Proof.
  unfold generate_debian_changelog.
  destruct (generate_output fill es) as [o|x] eqn:G; [discriminate|].
  cbn [bind]. intros [= <-]. revert x G.
  induction es as [|e0 es IH]; cbn [generate_output]; [discriminate|].
  intros x.
  destruct (format_debian_date (date e0)) as [f|y] eqn:F; cbn [bind].
  - destruct (generate_output fill es) as [o|z]; [discriminate|].
    cbn [bind]. intros [= <-]. apply (IH z eq_refl).
  - intros [= <-]. apply (format_debian_date_raises _ _ F).
Qed.

(** X15. On a readable file the exit status is 0 exactly when the date of
    every version header line formats.  Standard output then holds the
    rendered changelog and a newline; otherwise the run ends with an
    uncaught [ValueError], nothing on standard output. *)
Theorem run_succeeds_iff_every_date_formats (lines : list str)
    (argv0 md_path : str) (fs : str -> file_status) :
  fs md_path = Readable lines ->
  (exit_status (main fill [argv0; md_path] fs) = 0
   <-> Forall (fun vd => formats (snd vd)) (headers_of lines))
  /\ (exit_status (main fill [argv0; md_path] fs) = 0 ->
      exists es text,
        parse_markdown_changelog lines = Ok es
        /\ generate_debian_changelog fill es = Ok text
        /\ main fill [argv0; md_path] fs = exits (text ++ [newline]) [] 0)
  /\ (exit_status (main fill [argv0; md_path] fs) <> 0 ->
      main fill [argv0; md_path] fs = dies ValueError).
Proof.
  intros R. destruct (parse_total lines) as [es P].
  pose proof (generate_ok_iff_headers lines es P) as G.
  unfold main. rewrite R, P.
  destruct (generate_debian_changelog fill es) as [text|e] eqn:D.
  - cbn [exits exit_status]. split; [|split].
    + split; [intros _; apply G; eauto | reflexivity].
    + intros _. exists es, text. auto.
    + intros H. contradiction H. reflexivity.
  - cbn [dies exit_status]. split; [|split].
    + split; [discriminate|]. intros H. apply G in H.
      destruct H; discriminate.
    + discriminate.
    + intros _. rewrite (generate_raises es e D). reflexivity.
Qed.


Lemma join_lines (parts : list str) :
  parts <> [] ->
  join [newline] parts ++ [newline]
  = concat (List.map (fun l => l ++ [newline]) parts).
Proof.
  induction parts as [|p parts IH]; [congruence|]. intros _.
  destruct parts as [|q parts].
  - cbn. rewrite app_nil_r. reflexivity.
  - assert (J : join [newline] (p :: q :: parts)
               = p ++ [newline] ++ join [newline] (q :: parts)) by reflexivity.
    rewrite J. remember (q :: parts) as rest eqn:E.
    cbn [List.map concat]. rewrite <- IH by (subst rest; discriminate).
    rewrite <- !app_assoc. reflexivity.
Qed.

Lemma generate_output_ends_blank es : forall out,
  es <> [] -> generate_output fill es = Ok out ->
  exists body, out = body ++ [[]].
Proof.
  induction es as [|e es IH]; [congruence|]. intros out _ G.
  cbn [generate_output] in G.
  destruct (format_debian_date (date e)) as [f|]; [|discriminate].
  cbn [bind] in G.
  destruct (generate_output fill es) as [o|] eqn:G'; [|discriminate].
  cbn [bind] in G. injection G as <-.
  destruct es as [|e' es'].
  - cbn [generate_output] in G'. injection G' as <-.
    exists (header_line e :: [] :: render_sections fill (sections e)
            ++ [maint_line f]).
    cbn [app]. rewrite <- app_assoc. reflexivity.
  - destruct (IH o ltac:(discriminate) eq_refl) as [body ->].
    exists (header_line e :: [] :: render_sections fill (sections e)
            ++ maint_line f :: [] :: body).
    cbn [app]. rewrite <- app_assoc. reflexivity.
Qed.

(** X18. When there is at least one entry, standard output is the list
    of output lines, each followed by a newline, and the last of these
    lines is empty: the printed changelog ends with an empty line. *)
Theorem changelog_is_printed_line_by_line (lines : list str) (es : list entry)
    (out : list str) (argv0 md_path : str) (fs : str -> file_status) :
  fs md_path = Readable lines ->
  parse_markdown_changelog lines = Ok es -> es <> [] ->
  generate_output fill es = Ok out ->
  stdout (main fill [argv0; md_path] fs)
  = concat (List.map (fun l => l ++ [newline]) out)
  /\ exists body, out = body ++ [[]].
Proof.
  intros R P N G.
  destruct (generate_output_ends_blank es out N G) as [body B].
  split; [|exists body; exact B].
  unfold main. rewrite R, P. unfold generate_debian_changelog. rewrite G.
  cbn [bind exits stdout]. apply join_lines.
  rewrite B. intros E. apply app_eq_nil in E. destruct E; discriminate.
Qed.

End Outcomes.

(* ================================================================== *)
(** ** The theorems at work on concrete inputs *)

Ltac by_running :=
  vm_compute; first [reflexivity | discriminate | auto; repeat constructor].

(** The scenario of the specification: one release, one section, a
    bullet with a continuation line and a second bullet. *)
Example concrete_scenario :
  (es <- parse_markdown_changelog
           (List.map line ["fping 5.1 (2024-03-10)"; "## Changes";
                           "- Added feature X"; "  with more detail";
                           "- Fixed bug Y"]%string) ;;
   generate_debian_changelog one_line_fill es)
  = Ok (join [newline]
          (List.map py
             ["fping (5.1) unstable; urgency=low"; "";
              "  * Changes";
              "    - Added feature X with more detail";
              "    - Fixed bug Y"; "";
              " -- David Schweikert <david@schweikert.ch>  Sun, 10 Mar 2024 00:00:00 -0000";
              ""]%string)).
Proof. vm_compute. reflexivity. Qed.

(** The example changelog rendered: the unreleased block is gone, the
    releases keep their order, the repeated section keeps its first place
    and its last items, and the empty section has no line. *)
Example example_rendered :
  generate_debian_changelog one_line_fill example_entries
  = Ok (join [newline]
          (List.map py
             ["fping (5.1) unstable; urgency=low"; "";
              "  * Changes";
              "    - Added feature X with more detail";
              "    - Fixed bug Y"; "";
              " -- David Schweikert <david@schweikert.ch>  Sun, 10 Mar 2024 00:00:00 -0000";
              "";
              "fping (5.2) unstable; urgency=low"; "";
              "  * Bug fixes";
              "    - three"; "";
              "  * Changes";
              "    - two"; "";
              " -- David Schweikert <david@schweikert.ch>  Mon, 01 Apr 2024 00:00:00 -0000";
              ""]%string)).
Proof. vm_compute. reflexivity. Qed.

(** A header dated 2024-13-40 ends the run with [ValueError]. *)
Lemma invalid_date_fails_at_render_witness :
  denotes_valid_date (py "2024-13-40") = false
  /\ main one_line_fill [py "prog"; py "Changelog.md"]
       (fun _ => Readable [line "fping 5.1 (2024-13-40)"])
     = dies ValueError.
Proof.
  split; [reflexivity|].
  destruct (invalid_date_fails_at_render one_line_fill
              [line "fping 5.1 (2024-13-40)"]) as (es & P & H).
  assert (E : es = [{| version := py "5.1"; date := py "2024-13-40";
                       sections := [] |}]).
  { vm_compute in P. injection P as <-. reflexivity. }
  subst es.
  destruct (H _ (or_introl eq_refl) eq_refl) as (_ & _ & M).
  apply (M (py "prog") (py "Changelog.md")
           (fun _ => Readable [line "fping 5.1 (2024-13-40)"]) eq_refl).
Defined.

(** A bullet and two continuation lines, read in the example state. *)
Lemma bullet_with_two_continuations_witness :
  exists st3 cur3 older,
    run example_state
      [line "- Fixed bug Y"; line "  in the"; line "  parser"] = Ok st3
    /\ bullet_accumulator st3 = Some (py "Fixed bug Y in the parser")
    /\ finish st3 = Ok [cur3]
    /\ items_of (sections cur3) (py "Changes")
       = older ++ [py "Fixed bug Y in the parser"].
Proof.
  edestruct (bullet_with_two_continuations example_state
               {| version := py "5.1"; date := py "2024-03-10";
                  sections := [(py "Changes", [py "earlier"])] |}
               (py "Changes") [] (py " ") (py "Fixed bug Y")
               (line "- Fixed bug Y") (line "  in the") (line "  parser"))
    as (st3 & cur3 & older & R & A & F & I & _).
  1-11: by_running.
  1-4: repeat split; by_running.
  exists st3, cur3, older. repeat split; assumption.
Defined.


(** An unreleased block before the first release is dropped. *)
Lemma next_block_discarded_witness :
  parse_markdown_changelog
    ([line "# Changelog"]
     ++ line "Next"
     :: List.map line ["## Features"; "- not yet released"; ""]%string
     ++ line "fping 5.1 (2024-03-10)"
     :: List.map line ["## Changes"; "- Added feature X"]%string)
  = parse_markdown_changelog
      ([line "# Changelog"]
       ++ line "fping 5.1 (2024-03-10)"
       :: List.map line ["## Changes"; "- Added feature X"]%string).
Proof.
  exact (proj1 (next_block_discarded one_line_fill
                  [line "# Changelog"]
                  (List.map line ["## Features"; "- not yet released"; ""]%string)
                  (List.map line ["## Changes"; "- Added feature X"]%string)
                  (line "Next") (line "fping 5.1 (2024-03-10)")
                  ltac:(by_running)
                  ltac:(repeat (apply Forall_cons; [by_running|]);
                        apply Forall_nil)
                  ltac:(by_running))).
Defined.

(** The first header line of a document opens the first entry. *)
Lemma version_header_iff_shape_prefix_witness :
  opens_entry initial
    {| entries := [];
       current := Some {| version := py "5.1"; date := py "2024-03-10";
                          sections := [] |};
       current_section := None; skip_next_block := false;
       bullet_accumulator := None |}
  <-> exists ver d rest,
        header_shape (rstrip_newline (line "fping 5.1 (2024-03-10)")) ver d rest.
Proof.
  apply (proj1 (version_header_iff_shape_prefix initial _
                  (line "fping 5.1 (2024-03-10)") ltac:(by_running))).
Defined.

(** The header of the current section coming again empties the section. *)
Lemma repeated_section_discards_witness :
  exists st' cur',
    step example_state (line "## Changes") = Ok st'
    /\ current st' = Some cur'
    /\ dict_get (sections cur') (py "Changes") = Ok []
    /\ step (with_items example_state (py "Changes") [py "anything"; py "else"])
         (line "## Changes") = Ok st'.
Proof.
  edestruct (repeated_section_discards example_state
               {| version := py "5.1"; date := py "2024-03-10";
                  sections := [(py "Changes", [py "earlier"])] |}
               (line "## Changes")
               {| groups := [py "Changes"]; unread := [] |}
               [py "anything"; py "else"])
    as (st' & cur' & S & C & _ & G & _ & F).
  1-5: by_running.
  exists st', cur'. repeat split; assumption.
Defined.

(** The date of the first example entry has the shape and is formatted. *)
Lemma parsed_dates_have_shape_witness :
  date_shape (py "2024-03-10") = true
  /\ exists formatted, format_debian_date (py "2024-03-10") = Ok formatted.
Proof.
  assert (P : parse_markdown_changelog example_lines = Ok example_entries)
    by (vm_compute; reflexivity).
  destruct (parsed_dates_have_shape example_lines example_entries
              {| version := py "5.1"; date := py "2024-03-10";
                 sections := [(py "Changes",
                               [py "Added feature X with more detail";
                                py "Fixed bug Y"]);
                              (py "Empty", [])] |}
              P ltac:(left; vm_compute; reflexivity)) as (S & _ & A).
  split; [exact S | apply A; vm_compute; reflexivity].
Defined.

(** Three spaces on a line keep the pending item, which then takes a
    further continuation line after two spaces. *)
Lemma blank_continuation_keeps_pending_item_witness :
  step example_state (line "   ")
  = Ok (set_accumulator example_state (Some (py "Added feature X ")))
  /\ run example_state [line "   "; line "  with more detail"]
     = Ok (set_accumulator example_state
             (Some (py "Added feature X  with more detail"))).
Proof.
  destruct (blank_continuation_keeps_pending_item example_state
              {| version := py "5.1"; date := py "2024-03-10";
                 sections := [(py "Changes", [py "earlier"])] |}
              (py "Added feature X") (line "   ")
              eq_refl eq_refl eq_refl ltac:(by_running)) as (A & _ & _).
  destruct (A ltac:(by_running)) as (S & R).
  split; [exact S|].
  apply (R (line "  with more detail")).
  repeat split; by_running.
Defined.

(** A title line, a section header and a bullet before the first release
    change nothing. *)
Lemma preamble_is_ignored_witness :
  parse_markdown_changelog
    (List.map line ["# Changelog"; "## Old notes"; "- stray"]%string
     ++ List.map line ["fping 5.1 (2024-03-10)"; "## Changes";
                       "- Added feature X"]%string)
  = parse_markdown_changelog
      (List.map line ["fping 5.1 (2024-03-10)"; "## Changes";
                      "- Added feature X"]%string).
Proof.
  exact (preamble_is_ignored
           (List.map line ["# Changelog"; "## Old notes"; "- stray"]%string)
           (List.map line ["fping 5.1 (2024-03-10)"; "## Changes";
                           "- Added feature X"]%string)
           ltac:(repeat (apply Forall_cons; [by_running|]); apply Forall_nil)).
Defined.

(** A line of prose is passed over while an item is pending. *)
Lemma plain_text_line_is_ignored_witness :
  step example_state (line "Released on a Sunday") = Ok example_state.
Proof.
  apply (plain_text_line_is_ignored example_state
           (line "Released on a Sunday") 82 (py "eleased on a Sunday"));
    by_running.
Defined.

(** A bullet right after a version header is lost. *)
Lemma bullet_outside_a_section_is_dropped_witness :
  step example_fresh_state (line "- stray") = Ok example_fresh_state.
Proof.
  apply (bullet_outside_a_section_is_dropped example_fresh_state
           (line "- stray") [] (py " stray"));
    by_running.
Defined.

(** In the example state an empty line and the end of the input both
    commit the pending item. *)
Lemma pending_item_is_committed_by_every_terminator_witness :
  step example_state (line "")
  = Ok {| entries := [];
          current :=
            Some (with_item
                    {| version := py "5.1"; date := py "2024-03-10";
                       sections := [(py "Changes", [py "earlier"])] |}
                    (py "Changes") (py "Added feature X"));
          current_section := Some (py "Changes"); skip_next_block := false;
          bullet_accumulator := None |}
  /\ finish example_state
     = Ok ([] ++ [with_item
                    {| version := py "5.1"; date := py "2024-03-10";
                       sections := [(py "Changes", [py "earlier"])] |}
                    (py "Changes") (py "Added feature X")]).
Proof.
  destruct (pending_item_is_committed_by_every_terminator example_state
              {| version := py "5.1"; date := py "2024-03-10";
                 sections := [(py "Changes", [py "earlier"])] |}
              (py "Changes") (py "Added feature X")
              ltac:(left; reflexivity) eq_refl eq_refl eq_refl eq_refl
              eq_refl eq_refl) as (_ & _ & _ & B & F).
  split; [|exact F].
  apply (B (line "")); by_running.
Defined.

(** Two releases parse to the entries of the first followed by the
    entries of the second. *)
Lemma entries_are_parsed_one_by_one_witness :
  parse_markdown_changelog
    (List.map line ["fping 5.1 (2024-03-10)"; "## Changes";
                    "- Added feature X"]%string
     ++ line "fping 5.2 (2024-04-01)"
     :: List.map line ["## Bug fixes"; "- one"]%string)
  = Ok ([{| version := py "5.1"; date := py "2024-03-10";
            sections := [(py "Changes", [py "Added feature X"])] |}]
        ++ [{| version := py "5.2"; date := py "2024-04-01";
               sections := [(py "Bug fixes", [py "one"])] |}]).
Proof.
  eapply (entries_are_parsed_one_by_one
            (List.map line ["fping 5.1 (2024-03-10)"; "## Changes";
                            "- Added feature X"]%string)
            (List.map line ["## Bug fixes"; "- one"]%string)
            (line "fping 5.2 (2024-04-01)")).
  - vm_compute. reflexivity.
  - vm_compute. reflexivity.
  - vm_compute. reflexivity.
  - vm_compute. reflexivity.
  - vm_compute. reflexivity.
Defined.

(** The first example entry comes from a header line of the example. *)
Lemma entries_come_from_header_lines_witness :
  forallb version_char (py "5.1") = true
  /\ exists l rest,
       In l example_lines
       /\ header_shape (rstrip_newline l) (py "5.1") (py "2024-03-10") rest.
Proof.
  assert (P : parse_markdown_changelog example_lines = Ok example_entries)
    by (vm_compute; reflexivity).
  destruct (entries_come_from_header_lines example_lines example_entries
              {| version := py "5.1"; date := py "2024-03-10";
                 sections := [(py "Changes",
                               [py "Added feature X with more detail";
                                py "Fixed bug Y"]);
                              (py "Empty", [])] |}
              P ltac:(left; vm_compute; reflexivity)) as (S & _ & V).
  split; [exact V | exact S].
Defined.

(** The second example entry has each of its titles once, though the
    header of one comes twice. *)
Lemma section_titles_are_distinct_witness :
  NoDup [py "Bug fixes"; py "Changes"].
Proof.
  assert (P : parse_markdown_changelog example_lines = Ok example_entries)
    by (vm_compute; reflexivity).
  apply (section_titles_are_distinct example_lines example_entries
           {| version := py "5.2"; date := py "2024-04-01";
              sections := [(py "Bug fixes", [py "three"]);
                           (py "Changes", [py "two"])] |}
           P ltac:(right; left; vm_compute; reflexivity)).
Defined.

(** The title and the first item of the first example entry are trimmed. *)
Lemma stored_text_is_trimmed_witness :
  strip (py "Changes") = py "Changes"
  /\ strip (py "Added feature X with more detail")
     = py "Added feature X with more detail".
Proof.
  assert (P : parse_markdown_changelog example_lines = Ok example_entries)
    by (vm_compute; reflexivity).
  destruct (stored_text_is_trimmed example_lines example_entries
              {| version := py "5.1"; date := py "2024-03-10";
                 sections := [(py "Changes",
                               [py "Added feature X with more detail";
                                py "Fixed bug Y"]);
                              (py "Empty", [])] |}
              (py "Changes")
              [py "Added feature X with more detail"; py "Fixed bug Y"]
              P ltac:(left; vm_compute; reflexivity)
              ltac:(left; reflexivity)) as [T V].
  split; [exact T | apply V; left; reflexivity].
Defined.

(** The tenth of March 2024, a Sunday. *)
Lemma formatted_date_shows_the_header_date_witness :
  format_debian_date (py "2024-03-10")
  = Ok (py "Sun, 10 Mar 2024 00:00:00 -0000")
  /\ length (py "Sun, 10 Mar 2024 00:00:00 -0000") = 31%nat.
Proof.
  destruct (formatted_date_shows_the_header_date (py "2024-03-10")
              (py "Sun, 10 Mar 2024 00:00:00 -0000")
              eq_refl eq_refl ltac:(vm_compute; reflexivity))
    as (y & m & dd & _ & _ & L).
  split; [vm_compute; reflexivity | exact L].
Defined.

(** A file that holds a title and a note prints an empty line. *)
Lemma no_header_no_entry_witness :
  main one_line_fill [py "prog"; py "Changelog.md"]
    (fun _ => Readable (List.map line ["# Changelog";
                                       "nothing released yet"]%string))
  = exits [newline] [] 0.
Proof.
  exact (proj2 (proj2
           (no_header_no_entry one_line_fill
              (List.map line ["# Changelog"; "nothing released yet"]%string)
              (py "prog") (py "Changelog.md")
              (fun _ => Readable (List.map line ["# Changelog";
                                                 "nothing released yet"]%string))
              ltac:(repeat (apply Forall_cons; [by_running|]); apply Forall_nil)
              eq_refl))).
Defined.

(** One release with a date that formats: the run exits with status 0. *)
Lemma run_succeeds_iff_every_date_formats_witness :
  exit_status
    (main one_line_fill [py "prog"; py "Changelog.md"]
       (fun _ => Readable [line "fping 5.1 (2024-03-10)"])) = 0
  <-> Forall (fun vd => formats (snd vd))
        (headers_of [line "fping 5.1 (2024-03-10)"]).
Proof.
  exact (proj1
           (run_succeeds_iff_every_date_formats one_line_fill
              [line "fping 5.1 (2024-03-10)"] (py "prog") (py "Changelog.md")
              (fun _ => Readable [line "fping 5.1 (2024-03-10)"]) eq_refl)).
Defined.

(** Indented text right after a version header, where nothing is
    pending, is passed over. *)
Lemma line_without_a_role_is_ignored_witness :
  step example_fresh_state (line "  indented text") = Ok example_fresh_state.
Proof.
  apply (line_without_a_role_is_ignored example_fresh_state
           (line "  indented text")); by_running.
Defined.

(** One release without sections prints four lines. *)
Lemma changelog_is_printed_line_by_line_witness :
  stdout (main one_line_fill [py "prog"; py "Changelog.md"]
            (fun _ => Readable [line "fping 5.1 (2024-03-10)"]))
  = concat
      (List.map (fun l => l ++ [newline])
         [py "fping (5.1) unstable; urgency=low"; [];
          py " -- David Schweikert <david@schweikert.ch>  Sun, 10 Mar 2024 00:00:00 -0000";
          []]).
Proof.
  exact (proj1
           (changelog_is_printed_line_by_line one_line_fill
              [line "fping 5.1 (2024-03-10)"]
              [{| version := py "5.1"; date := py "2024-03-10";
                  sections := [] |}]
              [py "fping (5.1) unstable; urgency=low"; [];
               py " -- David Schweikert <david@schweikert.ch>  Sun, 10 Mar 2024 00:00:00 -0000";
               []]
              (py "prog") (py "Changelog.md")
              (fun _ => Readable [line "fping 5.1 (2024-03-10)"])
              eq_refl ltac:(vm_compute; reflexivity) ltac:(discriminate)
              ltac:(vm_compute; reflexivity))).
Defined.
